(** * Lumina: a retrieval-augmented chat service, verified against its description

    Shallow embedding of the Python sources
    [document_utils.py], [faiss_utils.py], [ollama_utils.py] and [app.py].

    Conventions of the embedding:
    - a Python [str] is a [string]; a character is a code point below 256;
    - a Python [int] is a [Z]; list slicing follows Python (negative indices
      count from the end, out-of-range bounds are clamped);
    - a call into a library returns a value or raises ([result]); a
      function with a loop may also fail to return ([outcome]), and the loop
      itself is run on fuel;
    - the libraries the program calls (PDF reader, embedding model, vector
      index, HTTP client, JSON decoder) are outside the repository: their
      results enter the model as inputs of the function that calls them, or
      as a model of their documented behaviour, flagged where it is given. *)

From Stdlib Require Import List String Ascii ZArith Lia Bool Arith.
From Stdlib Require Import Decimal DecimalString.
From Stdlib Require Import Reals Lra Permutation Sorted.
From Stdlib Require SpecFloat.
Import ListNotations.

#[local] Set Warnings "-register-all".

Open Scope string_scope.
Open Scope list_scope.
Open Scope Z_scope.

(* ================================================================== *)
(** * Python built-ins used by the program *)
(* ================================================================== *)

Module Py.

(** Result of running a piece of Python. *)
Inductive outcome (A : Type) : Type :=
| Return (a : A)          (* normal completion with a value *)
| Raise (msg : string)    (* an [Exception] carrying [str(e) = msg] *)
| Diverge.                (* the call never completes *)
Arguments Return {A} a.
Arguments Raise {A} msg.
Arguments Diverge {A}.

(** [str.isspace] on one character, for code points below 256:
    TAB..CR, FS..US, SPACE, NEL and NBSP. *)
Definition is_space (c : ascii) : bool :=
  let n := nat_of_ascii c in
  ((9 <=? n) && (n <=? 13) || (28 <=? n) && (n <=? 32)
   || (n =? 133) || (n =? 160))%nat.

(** [not s.strip()]: the string is empty or made of whitespace only. *)
Fixpoint all_space (s : string) : bool :=
  match s with
  | EmptyString => true
  | String c s' => is_space c && all_space s'
  end.

(** Every character of [s] is in the class [p]. *)
Fixpoint all_chars (p : ascii -> bool) (s : string) : bool :=
  match s with
  | EmptyString => true
  | String c s' => p c && all_chars p s'
  end.

(** A word: a non-empty string without white space. *)
Definition is_word (w : string) : bool :=
  match w with
  | EmptyString => false
  | String _ _ => all_chars (fun c => negb (is_space c)) w
  end.

(** Truth value of a [str]: non-empty. *)
Definition truthy (s : string) : bool :=
  match s with EmptyString => false | String _ _ => true end.

Fixpoint lstrip (s : string) : string :=
  match s with
  | EmptyString => EmptyString
  | String c s' => if is_space c then lstrip s' else s
  end.

Fixpoint rstrip (s : string) : string :=
  match s with
  | EmptyString => EmptyString
  | String c s' =>
      match rstrip s' with
      | EmptyString => if is_space c then EmptyString else String c EmptyString
      | r => String c r
      end
  end.

(** [s.strip()] *)
Definition strip (s : string) : string := rstrip (lstrip s).

(** [s.split()]: the maximal runs of non-whitespace characters. *)
Fixpoint split (s : string) : list string :=
  match s with
  | EmptyString => []
  | String c s' =>
      let rest := split s' in
      if is_space c then rest
      else match s' with
           | EmptyString => [String c EmptyString]
           | String c' _ =>
               if is_space c' then String c EmptyString :: rest
               else match rest with
                    | w :: ws => String c w :: ws
                    | [] => [String c EmptyString]
                    end
           end
  end.

(** [sep.join(l)] *)
Fixpoint join (sep : string) (l : list string) : string :=
  match l with
  | [] => EmptyString
  | [w] => w
  | w :: rest => String.append w (String.append sep (join sep rest))
  end.

(** Bound of a slice, as Python normalises it for a sequence of length [n]. *)
Definition slice_bound (n x : Z) : Z :=
  if x <? 0 then Z.max 0 (x + n) else Z.min x n.

(** [l[lo:hi]] *)
Definition slice {A : Type} (l : list A) (lo hi : Z) : list A :=
  let n := Z.of_nat (List.length l) in
  let a := slice_bound n lo in
  let b := slice_bound n hi in
  firstn (Z.to_nat (b - a)) (skipn (Z.to_nat a) l).

(** [len(s)] *)
Definition len (s : string) : Z := Z.of_nat (String.length s).

(** [s[lo:hi]] *)
Definition substr (s : string) (lo hi : Z) : string :=
  string_of_list_ascii (slice (list_ascii_of_string s) lo hi).

(** [s] without its first [n] characters. *)
Fixpoint drop (n : nat) (s : string) : string :=
  match n, s with
  | S n', String _ s' => drop n' s'
  | _, _ => s
  end.

(** Lowest position of [sub] in the text whose suffix from position [pos]
    is [s]; [-1] when there is none. *)
Fixpoint find_from (sub s : string) (pos : Z) : Z :=
  if String.prefix sub s then pos
  else match s with
       | EmptyString => -1
       | String _ s' => find_from sub s' (pos + 1)
       end.

(** [s.find(sub)] *)
Definition find (s sub : string) : Z := find_from sub s 0.

(** [s.find(sub, start)], for [0 <= start]. *)
Definition find_at (s sub : string) (start : Z) : Z :=
  find_from sub (drop (Z.to_nat start) s) start.

(** [sub in s] *)
Definition contains (sub s : string) : bool := 0 <=? find s sub.

(** [s.replace(a, b)] for one-character [a] and [b]. *)
Fixpoint replace_char (a b : ascii) (s : string) : string :=
  match s with
  | EmptyString => EmptyString
  | String c s' => String (if Ascii.eqb c a then b else c) (replace_char a b s')
  end.

(** [str(z)] for an [int]. *)
Definition decimal (z : Z) : string := NilZero.string_of_int (Z.to_int z).

Definition LF : ascii := "010"%char.
Definition CR : ascii := "013"%char.
Definition TAB : ascii := "009"%char.
Definition QUOTE : ascii := ascii_of_nat 34.
Definition BACKSLASH : ascii := ascii_of_nat 92.

Definition is_newline (c : ascii) : bool := Ascii.eqb c LF || Ascii.eqb c CR.

(** The class [\d] of the regular expressions, below code point 256. *)
Definition is_digit (c : ascii) : bool :=
  let n := nat_of_ascii c in ((48 <=? n) && (n <=? 57))%nat.

(** Lower case of a character, as far as the letters of a pattern go:
    below code point 256 only [A-Z] fold onto [a-z]. *)
Definition ascii_lower (c : ascii) : ascii :=
  let n := nat_of_ascii c in
  if ((65 <=? n) && (n <=? 90))%nat then ascii_of_nat (n + 32) else c.

(** The lower-case pattern [pat] matches at the start of [s] under
    [re.IGNORECASE]. *)
Fixpoint prefix_ci (pat s : string) : bool :=
  match pat, s with
  | EmptyString, _ => true
  | String p pat', String c s' => Ascii.eqb (ascii_lower c) p && prefix_ci pat' s'
  | String _ _, EmptyString => false
  end.

(** Longest prefix of characters in a class: its length and what follows. *)
Fixpoint span (p : ascii -> bool) (s : string) : nat * string :=
  match s with
  | EmptyString => (O, EmptyString)
  | String c s' =>
      if p c then let '(n, r) := span p s' in (S n, r) else (O, s)
  end.

(** Values of the kinds a JSON document decodes to; [JNull] is [None].  A
    [float] is kept as the literal it was read from. *)
Inductive json : Type :=
| JNull
| JBool (b : bool)
| JInt (z : Z)
| JFloat (literal : string)
| JStr (s : string)
| JArr (items : list json)
| JObj (fields : list (string * json)).

(** [d[k] = v] on a [dict] kept in insertion order. *)
Fixpoint dict_set (d : list (string * json)) (k : string) (v : json)
  : list (string * json) :=
  match d with
  | [] => [(k, v)]
  | (k', v') :: d' =>
      if String.eqb k' k then (k, v) :: d' else (k', v') :: dict_set d' k v
  end.

(** [d.get(k, default)] *)
Fixpoint dict_get (d : list (string * json)) (k : string) (default : json) : json :=
  match d with
  | [] => default
  | (k', v) :: d' => if String.eqb k' k then v else dict_get d' k default
  end.

(** [d[k]]; [None] is the [KeyError]. *)
Fixpoint dict_find (d : list (string * json)) (k : string) : option json :=
  match d with
  | [] => None
  | (k', v) :: d' => if String.eqb k' k then Some v else dict_find d' k
  end.

(** [type(v).__name__] *)
Definition type_name (v : json) : string :=
  match v with
  | JNull => "NoneType"
  | JBool _ => "bool"
  | JInt _ => "int"
  | JFloat _ => "float"
  | JStr _ => "str"
  | JArr _ => "list"
  | JObj _ => "dict"
  end.

(** The message of the [AttributeError] for [v.attr]. *)
Definition no_attribute (v : json) (attr : string) : string :=
  String.append "'" (String.append (type_name v)
    (String.append "' object has no attribute '" (String.append attr "'"))).

(** What the program takes from the Python runtime and its standard
    library without the repository defining it. *)
Class PyRuntime : Type := {
  (** [json.loads(s)]; [None] when it raises *)
  json_loads : string -> option json;
  (** [json.dumps(v)] *)
  json_dumps : json -> string;
  (** [repr(v)], which is [str(v)] for every value but a [str] *)
  py_repr : json -> string;
  (** [s.upper()] *)
  py_upper : string -> string;
  (** truth value of the [float] read from a literal *)
  float_truthy : string -> bool
}.

(** [bool(v)] *)
Definition json_truthy `{PyRuntime} (v : json) : bool :=
  match v with
  | JNull => false
  | JBool b => b
  | JInt z => negb (z =? 0)
  | JFloat l => float_truthy l
  | JStr s => truthy s
  | JArr items => match items with [] => false | _ => true end
  | JObj fields => match fields with [] => false | _ => true end
  end.

(** [a or b] *)
Definition py_or `{PyRuntime} (a b : json) : json :=
  if json_truthy a then a else b.

(** [str(v)] *)
Definition py_str `{PyRuntime} (v : json) : string :=
  match v with JStr s => s | _ => py_repr v end.

(** A call into a library: it returns a value or raises [Exception(msg)]. *)
Inductive result (A : Type) : Type :=
| Ok (a : A)
| Err (msg : string).
Arguments Ok {A} a.
Arguments Err {A} msg.

(** Sequencing of calls that may raise: the first exception ends the
    sequence. *)
Definition bind {A B : Type} (c : result A) (k : A -> result B) : result B :=
  match c with
  | Ok a => k a
  | Err msg => Err msg
  end.

Notation "x <- c ;; k" := (bind c (fun x => k))
  (at level 61, c at next level, right associativity).

(** A value that is there, or the exception raised for its absence. *)
Definition or_raise {A : Type} (msg : string) (o : option A) : result A :=
  match o with
  | Some a => Ok a
  | None => Err msg
  end.

(** An HTTP response of the application: status code and JSON body. *)
Record response : Type := Response { status : Z; body : json }.

End Py.

Import Py.

(* ================================================================== *)
(** * A reference runtime *)
(* ================================================================== *)

(** The program is verified for every [PyRuntime].  For running it on
    examples this module gives one: a decoder for the JSON grammar as
    [json.loads] accepts it, and plain versions of [json.dumps], [repr] and
    [upper].  It is meant for ASCII text: an escape or a letter whose result
    lies beyond code point 255 is outside the alphabet of the model (the
    decoder rejects the document, [upper] leaves the letter), and a [float]
    is shown by the literal it was read from. *)
Module Reference.

Definition is_json_ws (c : ascii) : bool :=
  Ascii.eqb c " " || Ascii.eqb c TAB || Ascii.eqb c LF || Ascii.eqb c CR.

Fixpoint skip_ws (s : string) : string :=
  match s with
  | EmptyString => EmptyString
  | String c s' => if is_json_ws c then skip_ws s' else s
  end.

Definition hex_val (c : ascii) : option nat :=
  let n := nat_of_ascii c in
  if ((48 <=? n) && (n <=? 57))%nat then Some (n - 48)%nat
  else if ((65 <=? n) && (n <=? 70))%nat then Some (n - 55)%nat
  else if ((97 <=? n) && (n <=? 102))%nat then Some (n - 87)%nat
  else None.

(** The character of a [\uXXXX] escape, when it lies below 256. *)
Definition unicode_escape (a b c d : ascii) : option ascii :=
  match hex_val a, hex_val b, hex_val c, hex_val d with
  | Some x, Some y, Some z, Some w =>
      let n := (((x * 16 + y) * 16 + z) * 16 + w)%nat in
      if (n <? 256)%nat then Some (ascii_of_nat n) else None
  | _, _, _, _ => None
  end.

(** The character of a one-letter escape. *)
Definition simple_escape (e : ascii) : option ascii :=
  if Ascii.eqb e QUOTE then Some QUOTE
  else if Ascii.eqb e BACKSLASH then Some BACKSLASH
  else if Ascii.eqb e "/" then Some "/"%char
  else if Ascii.eqb e "b" then Some "008"%char
  else if Ascii.eqb e "f" then Some "012"%char
  else if Ascii.eqb e "n" then Some LF
  else if Ascii.eqb e "r" then Some CR
  else if Ascii.eqb e "t" then Some TAB
  else None.

(** A string literal behind its opening quote: its value and what follows
    the closing quote. *)
Fixpoint scan_string (s : string) : option (string * string) :=
  match s with
  | EmptyString => None
  | String c r =>
      if Ascii.eqb c QUOTE then Some (EmptyString, r)
      else if Ascii.eqb c BACKSLASH then
        match r with
        | String "u" (String a (String b (String x (String y r')))) =>
            match unicode_escape a b x y, scan_string r' with
            | Some ch, Some (v, rest) => Some (String ch v, rest)
            | _, _ => None
            end
        | String e r' =>
            match simple_escape e, scan_string r' with
            | Some ch, Some (v, rest) => Some (String ch v, rest)
            | _, _ => None
            end
        | EmptyString => None
        end
      else if (nat_of_ascii c <? 32)%nat then None
      else
        match scan_string r with
        | Some (v, rest) => Some (String c v, rest)
        | None => None
        end
  end.

(** First [n] characters of [s]. *)
Fixpoint take (n : nat) (s : string) : string :=
  match n, s with
  | S n', String c s' => String c (take n' s')
  | _, _ => EmptyString
  end.

(** Value of a run of decimal digits. *)
Definition digits_value (s : string) : Z :=
  fold_left (fun acc c => acc * 10 + Z.of_nat (nat_of_ascii c - 48))
            (list_ascii_of_string s) 0.

(** A number literal at the start of [s]: an [int] when it has neither
    fraction nor exponent, a [float] otherwise. *)
Definition scan_number (s : string) : option (json * string) :=
  let '(neg, s1) :=
    match s with
    | String "-" r => (true, r)
    | _ => (false, s)
    end in
  let int_len :=
    match s1 with
    | String "0" _ => 1%nat
    | String c _ => if is_digit c then fst (span is_digit s1) else O
    | EmptyString => O
    end in
  if (int_len =? 0)%nat then None
  else
    let s2 := drop int_len s1 in
    let frac_len :=
      match s2 with
      | String "." r =>
          let d := fst (span is_digit r) in
          if (d =? 0)%nat then O else S d
      | _ => O
      end in
    let s3 := drop frac_len s2 in
    let exp_len :=
      match s3 with
      | String e r =>
          if Ascii.eqb e "e" || Ascii.eqb e "E" then
            let '(sign, r') :=
              match r with
              | String g r'' =>
                  if Ascii.eqb g "+" || Ascii.eqb g "-" then (1%nat, r'') else (O, r)
              | EmptyString => (O, r)
              end in
            let d := fst (span is_digit r') in
            if (d =? 0)%nat then O else (1 + sign + d)%nat
          else O
      | EmptyString => O
      end in
    let rest := drop exp_len s3 in
    if ((frac_len =? 0) && (exp_len =? 0))%nat then
      let v := digits_value (take int_len s1) in
      Some (JInt (if neg then - v else v), rest)
    else
      let total := ((if neg then 1 else 0) + int_len + frac_len + exp_len)%nat in
      Some (JFloat (take total s), rest).

(** The decoder: a value at the start of [s], and what follows it. *)
Fixpoint parse_value (fuel : nat) (s : string) {struct fuel}
  : option (json * string) :=
  match fuel with
  | O => None
  | S fuel' =>
      match s with
      | EmptyString => None
      | String c r =>
          if Ascii.eqb c QUOTE then
            match scan_string r with
            | Some (v, rest) => Some (JStr v, rest)
            | None => None
            end
          else if Ascii.eqb c "{" then
            match skip_ws r with
            | String "}" rest => Some (JObj [], rest)
            | r' => parse_members fuel' r' []
            end
          else if Ascii.eqb c "[" then
            match skip_ws r with
            | String "]" rest => Some (JArr [], rest)
            | r' => parse_elements fuel' r' []
            end
          else if String.prefix "null" s then Some (JNull, drop 4 s)
          else if String.prefix "true" s then Some (JBool true, drop 4 s)
          else if String.prefix "false" s then Some (JBool false, drop 5 s)
          else if String.prefix "NaN" s then Some (JFloat "NaN", drop 3 s)
          else if String.prefix "Infinity" s then Some (JFloat "Infinity", drop 8 s)
          else if String.prefix "-Infinity" s then Some (JFloat "-Infinity", drop 9 s)
          else scan_number s
      end
  end

with parse_members (fuel : nat) (s : string) (acc : list (string * json))
       {struct fuel} : option (json * string) :=
  match fuel with
  | O => None
  | S fuel' =>
      match s with
      | String c r =>
          if Ascii.eqb c QUOTE then
            match scan_string r with
            | Some (key, r1) =>
                match skip_ws r1 with
                | String ":" r2 =>
                    match parse_value fuel' (skip_ws r2) with
                    | Some (v, r3) =>
                        let acc := dict_set acc key v in
                        match skip_ws r3 with
                        | String "}" rest => Some (JObj acc, rest)
                        | String "," r4 => parse_members fuel' (skip_ws r4) acc
                        | _ => None
                        end
                    | None => None
                    end
                | _ => None
                end
            | None => None
            end
          else None
      | EmptyString => None
      end
  end

with parse_elements (fuel : nat) (s : string) (acc : list json)
       {struct fuel} : option (json * string) :=
  match fuel with
  | O => None
  | S fuel' =>
      match parse_value fuel' s with
      | Some (v, r1) =>
          let acc := acc ++ [v] in
          match skip_ws r1 with
          | String "]" rest => Some (JArr acc, rest)
          | String "," r2 => parse_elements fuel' (skip_ws r2) acc
          | _ => None
          end
      | None => None
      end
  end.

(** [json.loads(s)]: one value, white space around it, nothing else. *)
Definition loads (s : string) : option json :=
  match parse_value (2 * String.length s + 2) (skip_ws s) with
  | Some (v, rest) =>
      match skip_ws rest with
      | EmptyString => Some v
      | _ => None
      end
  | None => None
  end.

Definition hex_digit (n : nat) : ascii :=
  ascii_of_nat (if (n <? 10)%nat then n + 48 else n + 87).

(** A character as [json.dumps] writes it inside a string. *)
Definition dumps_char (c : ascii) : string :=
  let n := nat_of_ascii c in
  if Ascii.eqb c QUOTE then String BACKSLASH (String QUOTE EmptyString)
  else if Ascii.eqb c BACKSLASH then String BACKSLASH (String BACKSLASH EmptyString)
  else if Ascii.eqb c LF then String BACKSLASH "n"
  else if Ascii.eqb c CR then String BACKSLASH "r"
  else if Ascii.eqb c TAB then String BACKSLASH "t"
  else if (n =? 8)%nat then String BACKSLASH "b"
  else if (n =? 12)%nat then String BACKSLASH "f"
  else if ((32 <=? n) && (n <=? 126))%nat then String c EmptyString
  else String BACKSLASH
         (String "u" (String "0" (String "0"
            (String (hex_digit (n / 16)) (String (hex_digit (n mod 16)) EmptyString))))).

Definition dumps_string (s : string) : string :=
  String QUOTE
    (String.append (String.concat "" (map dumps_char (list_ascii_of_string s)))
                   (String QUOTE EmptyString)).

(** [json.dumps(v)] with its default separators. *)
Fixpoint dumps (v : json) : string :=
  match v with
  | JNull => "null"
  | JBool true => "true"
  | JBool false => "false"
  | JInt z => decimal z
  | JFloat l => l
  | JStr s => dumps_string s
  | JArr items => String.append "[" (String.append (join ", " (map dumps items)) "]")
  | JObj fields =>
      String.append "{"
        (String.append
           (join ", "
              (map (fun kv => String.append (dumps_string (fst kv))
                                (String.append ": " (dumps (snd kv)))) fields))
           "}")
  end.

(** A character as [repr] writes it inside a string quoted by [q]. *)
Definition repr_char (q c : ascii) : string :=
  let n := nat_of_ascii c in
  if Ascii.eqb c q || Ascii.eqb c BACKSLASH then String BACKSLASH (String c EmptyString)
  else if Ascii.eqb c LF then String BACKSLASH "n"
  else if Ascii.eqb c CR then String BACKSLASH "r"
  else if Ascii.eqb c TAB then String BACKSLASH "t"
  else if ((32 <=? n) && (n <=? 126) || (161 <=? n) && negb (n =? 173))%nat
  then String c EmptyString
  else String BACKSLASH
         (String "x" (String (hex_digit (n / 16))
                         (String (hex_digit (n mod 16)) EmptyString))).

Definition repr_string (s : string) : string :=
  let q := if contains "'" s && negb (contains (String QUOTE EmptyString) s)
           then QUOTE else "'"%char in
  String q
    (String.append (String.concat "" (map (repr_char q) (list_ascii_of_string s)))
                   (String q EmptyString)).

(** [repr(v)] *)
Fixpoint repr (v : json) : string :=
  match v with
  | JNull => "None"
  | JBool true => "True"
  | JBool false => "False"
  | JInt z => decimal z
  | JFloat l => l
  | JStr s => repr_string s
  | JArr items => String.append "[" (String.append (join ", " (map repr items)) "]")
  | JObj fields =>
      String.append "{"
        (String.append
           (join ", "
              (map (fun kv => String.append (repr_string (fst kv))
                                (String.append ": " (repr (snd kv)))) fields))
           "}")
  end.

(** [s.upper()] on the letters whose capital lies below 256. *)
Definition upper_char (c : ascii) : ascii :=
  let n := nat_of_ascii c in
  if ((97 <=? n) && (n <=? 122) || (224 <=? n) && (n <=? 254) && negb (n =? 247))%nat
  then ascii_of_nat (n - 32) else c.

Definition upper (s : string) : string :=
  string_of_list_ascii (map upper_char (list_ascii_of_string s)).

(** Truth value of a [float] literal: some digit of its mantissa is not 0
    (or it is NaN or an infinity). *)
Fixpoint mantissa_nonzero (s : string) : bool :=
  match s with
  | EmptyString => false
  | String c s' =>
      if Ascii.eqb c "e" || Ascii.eqb c "E" then false
      else if Ascii.eqb c "N" || Ascii.eqb c "I" then true
      else ((49 <=? nat_of_ascii c) && (nat_of_ascii c <=? 57))%nat
           || mantissa_nonzero s'
  end.

#[export] Instance runtime : PyRuntime := {|
  json_loads := loads;
  json_dumps := dumps;
  py_repr := repr;
  py_upper := upper;
  float_truthy := mantissa_nonzero
|}.

End Reference.

(* ================================================================== *)
(** * document_utils.py *)
(* ================================================================== *)

Module DocumentUtils.

(** [step = chunk_size - overlap if chunk_size > overlap else chunk_size] *)
Definition step_of (chunk_size overlap : Z) : Z :=
  if chunk_size >? overlap then chunk_size - overlap else chunk_size.

(** The [while i < len(words)] loop of [pdf_to_chunks].  One unit of fuel is
    one test of the loop condition; [None] means the fuel ran out before the
    loop was left. *)
Fixpoint chunk_loop (fuel : nat) (words : list string) (chunk_size step : Z)
         (i : Z) (chunks : list string) : option (list string) :=
  match fuel with
  | O => None
  | S fuel' =>
      if i <? Z.of_nat (List.length words) then
        let chunk_words := slice words i (i + chunk_size) in
        let chunk_text := join " " chunk_words in
        let chunks :=
          if truthy (strip chunk_text) then chunks ++ [chunk_text] else chunks in
        let i := i + step in
        if step <=? 0 then Some chunks
        else chunk_loop fuel' words chunk_size step i chunks
      else Some chunks
  end.

(** The chunking part of [pdf_to_chunks] (lines 38-56), on the word list. *)
Definition chunk_words (words : list string) (chunk_size overlap : Z)
  : option (list string) :=
  chunk_loop (S (List.length words)) words chunk_size (step_of chunk_size overlap) 0 [].

(** [pdf_to_chunks].  The document is what the PDF reader makes of the
    file: the text of each page, or the exception it raises on opening or
    reading (which [pdf_to_chunks] raises again). *)
Definition pdf_to_chunks (doc : result (list string))
           (chunk_size overlap : Z) : outcome (list string) :=
  match doc with
  | Err msg => Raise msg
  | Ok pages =>
      let full_text := filter (fun page_text => truthy (strip page_text)) pages in
      match full_text with
      | [] => Raise "No text found in PDF"
      | _ =>
          let combined_text := join " " full_text in
          let words := split combined_text in
          match chunk_words words chunk_size overlap with
          | Some chunks => Return chunks
          | None => Diverge
          end
      end
  end.

(** A word as [split] produces it: it has a visible character. *)
Definition visible (w : string) : Prop := truthy (strip w) = true.

(** The words under the window that starts at word [i]. *)
Definition window (words : list string) (chunk_size i : Z) : list string :=
  slice words i (i + chunk_size).

(** How many windows start before the end of [len] words, from word [i] on. *)
Definition windows_from (len step i : Z) : nat :=
  Z.to_nat ((len - i + step - 1) / step).

(** [re.sub(r'\s+', ' ', text)]: every run of white space becomes one
    space; [in_run] tells that the character before was white space. *)
Fixpoint collapse_spaces (in_run : bool) (text : string) : string :=
  match text with
  | EmptyString => EmptyString
  | String c text' =>
      if is_space c then
        if in_run then collapse_spaces true text'
        else String " " (collapse_spaces true text')
      else String c (collapse_spaces false text')
  end.

(** The class [[\x00-\x08\x0b\x0c\x0e-\x1f\x7f-\xff]] of "PDF artifacts". *)
Definition is_artifact (c : ascii) : bool :=
  let n := nat_of_ascii c in
  ((n <=? 8) || (n =? 11) || (n =? 12) || (14 <=? n) && (n <=? 31)
   || (127 <=? n))%nat.

(** [re.sub(class, '', text)] *)
Fixpoint remove_artifacts (text : string) : string :=
  match text with
  | EmptyString => EmptyString
  | String c text' =>
      if is_artifact c then remove_artifacts text'
      else String c (remove_artifacts text')
  end.

(** [clean_text(text)] *)
Definition clean_text (text : string) : string :=
  let text := collapse_spaces false text in
  let text := remove_artifacts text in
  strip text.

(** The defaults of [pdf_to_chunks]. *)
Definition default_chunk_size : Z := 500.
Definition default_overlap : Z := 100.

End DocumentUtils.

(* ================================================================== *)
(** * faiss_utils.py *)
(* ================================================================== *)

(** The functions of the file in exact arithmetic: embeddings are vectors
    of reals, so that [astype('float32')] changes nothing and no operation
    rounds, overflows or yields NaN.  (The same functions on [float32]
    numbers are in [Float32] below.)  A matrix is the list of its rows.  The
    flat inner-product index is the library's; [index_search] models its
    documented behaviour: it asks for [k > 0], scores every stored vector by
    inner product, and returns the [k] best labels by decreasing score, of
    equal scores the lower label first, with label [-1] in the places for
    which no stored vector is left. *)
Module FaissUtils.

Local Open Scope R_scope.

Definition vec := list R.

(** Inner product of two vectors of one dimension. *)
Fixpoint dot (u v : vec) : R :=
  match u, v with
  | x :: u', y :: v' => x * y + dot u' v'
  | _, _ => 0
  end.

Definition norm_L2sqr (v : vec) : R := dot v v.

(** One row of [faiss.normalize_L2]: scaled by [1 / sqrt(nr)] when its
    squared norm [nr] is positive, left alone otherwise. *)
Definition normalize_row (v : vec) : vec :=
  let nr := norm_L2sqr v in
  if Rlt_dec 0 nr then map (fun x => x * (1 / sqrt nr)) v else v.

(** [faiss.normalize_L2(m)], row by row. *)
Definition normalize_L2 (m : list vec) : list vec := map normalize_row m.

(** The vectors held by an [IndexFlatIP], in the order they were added;
    the label of a vector is its position. *)
Definition index := list vec.

(** [build_faiss_index(embeddings)]: normalise, then add to an empty index. *)
Definition build_faiss_index (embeddings : list vec) : index :=
  normalize_L2 embeddings.

(** Insertion of a scored label before the first entry whose score is not
    higher.  The labels are inserted from the last to the first, so that of
    equal scores the lower label comes first. *)
Fixpoint insert_desc (c : Z * R) (l : list (Z * R)) : list (Z * R) :=
  match l with
  | [] => [c]
  | d :: l' =>
      if Rle_dec (snd d) (snd c) then c :: d :: l' else d :: insert_desc c l'
  end.

(** Score of every stored vector against [q], with its label. *)
Definition scored (xb : index) (q : vec) : list (Z * R) :=
  combine (map Z.of_nat (seq 0 (List.length xb))) (map (fun x => dot q x) xb).

Definition ranked (xb : index) (q : vec) : list (Z * R) :=
  fold_right insert_desc [] (scored xb q).

(** Score reported in a place without result (the lowest [float32]). *)
Definition no_result_score : R := - 340282346638528859811704183484516925440.

(** One row of the result of [index.search(xq, k)]: [k] pairs (label,
    score). *)
Definition index_search_row (xb : index) (k : nat) (q : vec) : list (Z * R) :=
  let hits := firstn k (ranked xb q) in
  hits ++ repeat ((-1)%Z, no_result_score) (k - List.length hits).

(** [index.search(xq, k)]: one result row per query row; [None] is the
    [AssertionError] by which the library refuses [k = 0]. *)
Definition index_search (xb : index) (xq : list vec) (k : nat)
  : option (list (list (Z * R))) :=
  match k with
  | O => None
  | S _ => Some (map (index_search_row xb k) xq)
  end.

(** [search_index(index, query_embedding, top_k)]; [None] is an
    exception: that of the search, or the [IndexError] of [indices[0]] on a
    query without rows. *)
Definition search_index (idx : index) (query_embedding : list vec)
           (top_k : nat) : option (list Z) :=
  let query_embedding := normalize_L2 query_embedding in
  match index_search idx query_embedding top_k with
  | Some (row :: _) => Some (map fst row)
  | _ => None
  end.




(** The score [search_index] ranks stored vector [j] by. *)
Definition rank_score (idx : index) (q : vec) (j : nat) : R :=
  dot (normalize_row q) (nth j idx []).


End FaissUtils.

(** The same functions on the numbers the code computes with.  A number is
    an IEEE 754 binary float; [astype('float32')] rounds it to [float32],
    and every operation of the library rounds its result to [float32], to
    the nearest, ties to even.  [faiss.normalize_L2] is modelled from the
    library: the squared norm [nr] of a row is summed in [float32], and when
    [nr > 0] each component is multiplied by [inv_nr = 1.0 / sqrtf(nr)], a
    division in [float64] whose result is rounded to [float32].  The order
    in which the library adds the products of an inner product is its own;
    here they are added from the left. *)
Module Float32.

Import SpecFloat.

Definition vec := list spec_float.

(** Rounding to the format of precision [prec] and largest exponent
    [emax]; it overflows to an infinity and underflows to zero. *)
Definition round_to (prec emax : Z) (x : spec_float) : spec_float :=
  match x with
  | S754_finite s m e => binary_round prec emax s m e
  | _ => x
  end.

Definition to_float32 : spec_float -> spec_float := round_to 24 128.
Definition to_float64 : spec_float -> spec_float := round_to 53 1024.

Definition mul32 : spec_float -> spec_float -> spec_float := SFmul 24 128.
Definition add32 : spec_float -> spec_float -> spec_float := SFadd 24 128.
Definition sqrt32 : spec_float -> spec_float := SFsqrt 24 128.
Definition div64 : spec_float -> spec_float -> spec_float := SFdiv 53 1024.

Definition zero : spec_float := S754_zero false.
Definition one : spec_float := S754_finite false 1 0.

(** [m.astype('float32')] *)
Definition astype_float32 (m : list vec) : list vec := map (map to_float32) m.

(** Inner product of two [float32] vectors of one dimension. *)
Definition inner_product (u v : vec) : spec_float :=
  fold_left add32 (map (fun p => mul32 (fst p) (snd p)) (combine u v)) zero.

(** One row of [faiss.normalize_L2]. *)
Definition normalize_row (x : vec) : vec :=
  let nr := inner_product x x in
  if SFltb zero nr then
    let inv_nr := to_float32 (div64 (to_float64 one) (to_float64 (sqrt32 nr))) in
    map (fun c => mul32 c inv_nr) x
  else x.

Definition normalize_L2 (m : list vec) : list vec := map normalize_row m.

Definition index := list vec.

(** [build_faiss_index(embeddings)] *)
Definition build_faiss_index (embeddings : list vec) : index :=
  normalize_L2 (astype_float32 embeddings).

(** The score by which [search_index] ranks stored vector [j] against the
    query row [q]: the inner product of the stored row with the query as
    [search_index] hands it to the index. *)
Definition rank_score (idx : index) (q : vec) (j : nat) : spec_float :=
  inner_product (normalize_row (map to_float32 q)) (nth j idx []).


End Float32.

(* ================================================================== *)
(** * ollama_utils.py *)
(* ================================================================== *)

Module OllamaUtils.

Definition OLLAMA_MODEL : string := "llama3:8b-instruct-q4_K_M".

(** The tuning parameters of a generation request. *)
Record options : Type := Options {
  temperature : string;
  max_tokens : Z;
  top_p : string;
  top_k : Z
}.

Definition default_options : options :=
  {| temperature := "0.1"; max_tokens := 512; top_p := "0.9"; top_k := 40 |}.

(** The model server as the client meets it.
    [http_generate model prompt opts]: the POST to [/api/generate] followed
    by [raise_for_status()] and [response.json()].
    [run_ollama model prompt]: [ollama run model] fed with the prompt; it
    gives [(returncode, out, err)], or raises (time-out included). *)
Record backend : Type := Backend {
  http_generate : string -> string -> options -> result json;
  run_ollama : string -> string -> result (Z * string * string)
}.

(** The two ways a query reaches the model. *)
Inductive call : Type := CallApi | CallSubprocess.

Section Client.

Context `{PyRuntime} (B : backend).

(** [query_ollama_api]; [JNull] is the [None] of the two [except] clauses. *)
Definition query_ollama_api (prompt model : string) (opts : options) : json :=
  match http_generate B model prompt opts with
  | Err _ => JNull
  | Ok (JObj result) =>
      py_or (dict_get result "response" JNull)
        (py_or (dict_get result "text" JNull)
           (py_or (dict_get result "output" JNull) (JStr "")))
  | Ok result => JStr (py_str result)
  end.

(** [query_ollama_subprocess] *)
Definition query_ollama_subprocess (prompt model : string) : option string :=
  match run_ollama B model prompt with
  | Err _ => None
  | Ok (returncode, out, _) =>
      if negb (returncode =? 0) then None else Some (strip out)
  end.

(** [query_ollama]: the value returned, with the calls made to obtain it. *)
Definition query_ollama (prompt model : string) (opts : options)
  : list call * option string :=
  let result := query_ollama_api prompt model opts in
  if json_truthy result then
    ([CallApi],
     Some (match result with
           | JObj _ | JArr _ => json_dumps result
           | _ => strip (py_str result)
           end))
  else
    ([CallApi; CallSubprocess], query_ollama_subprocess prompt model).

(** [test_ollama_connection(model)]; the client does not raise, so the
    [except] branch is never taken. *)
Definition test_ollama_connection (model : string) : bool :=
  match snd (query_ollama "Say 'OK' if you can read this." model default_options) with
  | Some test_response => negb (String.eqb (strip test_response) "")
  | None => false
  end.

End Client.

End OllamaUtils.

(* ================================================================== *)
(** * app.py *)
(* ================================================================== *)

Module App.

Import FaissUtils OllamaUtils.

(** ** Response parser *)

Definition start_marker : string := "<<<JSON_START>>>".
Definition end_marker : string := "<<<JSON_END>>>".

(** The end of the fenced-block pattern (optional white space, then three
    backquotes) matches at the start of [s]. *)
Definition fence_close (s : string) : bool := String.prefix "```" (lstrip s).

(** The lazy part of the fenced-block pattern, after the opening brace:
    the number of characters taken before the first closing brace behind
    which the fence closes. *)
Fixpoint lazy_brace (s : string) (n : nat) : option nat :=
  match s with
  | EmptyString => None
  | String c s' =>
      if Ascii.eqb c "}" && fence_close s' then Some n
      else lazy_brace s' (S n)
  end.

(** Match of the fenced-block pattern (ignoring case) at the start of [s]:
    three backquotes and "json", white space, then group 1 -- an opening
    brace, as few characters as possible, a closing brace -- and the end of
    the fence.  It gives start and end of group 1, relative to [s]. *)
Definition fence_at (s : string) : option (nat * nat) :=
  if prefix_ci "```json" s then
    let '(w, r) := span is_space (drop 7 s) in
    match r with
    | String "{" inner =>
        match lazy_brace inner 0 with
        | Some n => Some (7 + w, 7 + w + 1 + n + 1)%nat
        | None => None
        end
    | _ => None
    end
  else None.

(** [re.search] of the fenced-block pattern in the text whose suffix from
    position [pos] is [s]: the span of group 1 of the leftmost match. *)
Fixpoint search_fence (s : string) (pos : nat) : option (nat * nat) :=
  match fence_at s with
  | Some (a, b) => Some (pos + a, pos + b)%nat
  | None =>
      match s with
      | EmptyString => None
      | String _ s' => search_fence s' (S pos)
      end
  end.

(** The brace-counting loop [for i in range(first, len(text))], entered at
    position [i] with the characters [s] ahead: the [end_idx] it leaves
    with, [-1] when it runs to the end. *)
Fixpoint match_brace (s : string) (i depth : Z) : Z :=
  match s with
  | EmptyString => -1
  | String ch s' =>
      if Ascii.eqb ch "{" then match_brace s' (i + 1) (depth + 1)
      else if Ascii.eqb ch "}" then
        if depth - 1 =? 0 then i else match_brace s' (i + 1) (depth - 1)
      else match_brace s' (i + 1) depth
  end.

Section Parser.

Context `{PyRuntime}.

(** The generic brace-matching approach (lines 115-141). *)
Definition brace_span (text : string) : json * Z * Z :=
  let first := find text "{" in
  if first =? -1 then (JNull, -1, -1)
  else
    let end_idx := match_brace (drop (Z.to_nat first) text) first 0 in
    if end_idx =? -1 then (JNull, -1, -1)
    else
      let candidate := substr text first (end_idx + 1) in
      match json_loads candidate with
      | Some parsed => (parsed, first, end_idx + 1)
      | None => (JNull, -1, -1)
      end.

(** The fenced code block search (lines 103-113), then the generic one. *)
Definition fenced_span (text : string) : json * Z * Z :=
  match search_fence text 0 with
  | Some (a, b) =>
      let cand := substr text (Z.of_nat a) (Z.of_nat b) in
      match json_loads cand with
      | Some parsed => (parsed, Z.of_nat a, Z.of_nat b)
      | None => brace_span text
      end
  | None => brace_span text
  end.

(** [_extract_json_span(text)] *)
Definition _extract_json_span (text : string) : json * Z * Z :=
  if negb (truthy text) then (JNull, -1, -1)
  else if contains start_marker text && contains end_marker text then
    let s := find text start_marker + len start_marker in
    let e := find_at text end_marker s in
    if e >? s then
      let candidate := strip (substr text s e) in
      match json_loads candidate with
      | Some parsed => (parsed, s, e)
      | None => fenced_span text
      end
    else fenced_span text
  else fenced_span text.

End Parser.

(** The extractor found nothing. *)
Definition nothing (r : json * Z * Z) : Prop := r = (JNull, -1, -1).

(** The extractor returns what the decoder makes of a span of the text,
    stripped or as it is. *)
Definition decoded_span `{PyRuntime} (text : string) (r : json * Z * Z) : Prop :=
  let '(parsed, s, e) := r in
  0 <= s <= e /\ e <= len text /\
  (json_loads (substr text s e) = Some parsed \/
   json_loads (strip (substr text s e)) = Some parsed).

(** The three candidates of the extractor, in the order in which it tries
    them: the text handed to the decoder, and the span reported with its
    value.  First the text between the markers, stripped (lines 89-95). *)
Definition marker_candidate (text : string) : option (string * Z * Z) :=
  if contains start_marker text && contains end_marker text then
    let s := find text start_marker + len start_marker in
    let e := find_at text end_marker s in
    if e >? s then Some (strip (substr text s e), s, e) else None
  else None.

(** Then group 1 of the fenced block (lines 104-110). *)
Definition fence_candidate (text : string) : option (string * Z * Z) :=
  match search_fence text 0 with
  | Some (a, b) =>
      Some (substr text (Z.of_nat a) (Z.of_nat b), Z.of_nat a, Z.of_nat b)
  | None => None
  end.

(** Last the text from the first opening brace to the brace that closes
    it (lines 116-135). *)
Definition brace_candidate (text : string) : option (string * Z * Z) :=
  let first := find text "{" in
  if first =? -1 then None
  else
    let end_idx := match_brace (drop (Z.to_nat first) text) first 0 in
    if end_idx =? -1 then None
    else Some (substr text first (end_idx + 1), first, end_idx + 1).

(** There is no such candidate, or the decoder raises on it. *)
Definition rejected `{PyRuntime} (c : option (string * Z * Z)) : Prop :=
  forall cand s e, c = Some (cand, s, e) -> json_loads cand = None.

(** The value and the span of the first candidate that the decoder
    accepts. *)
Fixpoint first_decoded `{PyRuntime} (candidates : list (option (string * Z * Z)))
  : json * Z * Z :=
  match candidates with
  | [] => (JNull, -1, -1)
  | None :: rest => first_decoded rest
  | Some (cand, s, e) :: rest =>
      match json_loads cand with
      | Some parsed => (parsed, s, e)
      | None => first_decoded rest
      end
  end.

(** Last character of [s] that is not a line break, with its position in
    the text whose suffix from [pos] is [s]. *)
Fixpoint last_inline (s : string) (pos : nat) : option (nat * ascii) :=
  match s with
  | EmptyString => None
  | String c s' =>
      match last_inline s' (S pos) with
      | Some r => Some r
      | None => if is_newline c then None else Some (pos, c)
      end
  end.

(** The end of the source pattern -- optional white space, then group 2,
    a non-empty run of characters other than line breaks -- on the text [s]
    behind the separator: where group 2 starts, and group 2.  The white space is
    taken greedily; when nothing follows it, it is given back up to its last
    character that is not a line break. *)
Definition source_tail (s : string) : option (nat * string) :=
  let '(w, r) := span is_space s in
  match r with
  | String _ _ =>
      let '(n, _) := span (fun c => negb (is_newline c)) r in
      Some (w, substr r 0 (Z.of_nat n))
  | EmptyString =>
      match last_inline s 0 with
      | Some (k, c) => Some (k, String c EmptyString)
      | None => None
      end
  end.

(** Match of the source pattern (ignoring case) at the start of [s]:
    "Source", white space, digits, white space, a colon or a dash, then the
    end described above.  It gives group 2 and the length of the match. *)
Definition source_at (s : string) : option (string * nat) :=
  if prefix_ci "source" s then
    let '(w1, s2) := span is_space (drop 6 s) in
    let '(d, s3) := span is_digit s2 in
    if (d =? 0)%nat then None
    else
      let '(w2, s4) := span is_space s3 in
      match s4 with
      | String c s5 =>
          if Ascii.eqb c ":" || Ascii.eqb c "-" then
            match source_tail s5 with
            | Some (off, g) =>
                Some (g, (6 + w1 + d + w2 + 1 + off + String.length g)%nat)
            | None => None
            end
          else None
      | EmptyString => None
      end
  else None.

(** [re.finditer] of the source pattern: group 2 of the successive matches;
    [skip] characters are still covered by the last match. *)
Fixpoint source_matches (s : string) (skip : nat) : list string :=
  match s with
  | EmptyString => []
  | String _ s' =>
      match skip with
      | S k => source_matches s' k
      | O =>
          match source_at s with
          | Some (g, n) => g :: source_matches s' (n - 1)
          | None => source_matches s' 0
          end
      end
  end.

(** [_extract_sources_from_text(text)] *)
Definition _extract_sources_from_text (text : string) : list string :=
  map (fun g => substr (strip g) 0 120) (source_matches text 0).

(** ** Indices coming back from the search *)

(** What [_normalize_and_extract_indices] may be handed: [None], an [int], a
    one-dimensional integer array, or a tuple or list of such. *)
Inductive pyobj : Type :=
| ONone
| OInt (z : Z)
| OArray (a : list Z)
| OSeq (items : list pyobj).

(** [np.array(o)] followed by [int(x)] on every element, in row-major
    order, with the shape of the array; [None] when one of the two raises
    (an element that is no number, or rows of different shapes). *)
Fixpoint np_ints (o : pyobj) : option (list nat * list Z) :=
  match o with
  | ONone => None
  | OInt z => Some ([], [z])
  | OArray a => Some ([List.length a], a)
  | OSeq items =>
      match items with
      | [] => Some ([O], [])
      | x :: rest =>
          match np_ints x with
          | None => None
          | Some (shape, fx) =>
              let fix rows (l : list pyobj) : option (list Z) :=
                match l with
                | [] => Some []
                | y :: l' =>
                    match np_ints y, rows l' with
                    | Some (shape', fy), Some r =>
                        if list_eq_dec Nat.eq_dec shape shape'
                        then Some (fy ++ r) else None
                    | _, _ => None
                    end
                end in
              match rows rest with
              | Some r => Some (List.length items :: shape, fx ++ r)
              | None => None
              end
          end
      end
  end.

(** [_normalize_and_extract_indices(inds)] *)
Definition _normalize_and_extract_indices (inds : pyobj) : list Z :=
  match inds with
  | ONone => []
  | _ =>
      let from_first :=
        match inds with
        | OSeq (first :: _) =>
            match np_ints first with
            | Some (_, x :: arr) => Some (x :: arr)
            | _ => None
            end
        | _ => None
        end in
      match from_first with
      | Some ids => ids
      | None =>
          match np_ints inds with
          | Some (_, arr) => arr
          | None => match inds with OInt z => [z] | _ => [] end
          end
      end
  end.

(** [l[i]]; [None] is the [IndexError]. *)
Definition py_index {A : Type} (l : list A) (i : Z) : option A :=
  let n := Z.of_nat (List.length l) in
  if (- n <=? i) && (i <? n)
  then nth_error l (Z.to_nat (if i <? 0 then i + n else i))
  else None.

(** [[chunks[i] for i in inds_list if isinstance(i, int) and
    0 <= i < len(chunks)]]; [None] if an indexing raises. *)
Fixpoint retrieve (chunks : list string) (inds_list : list Z)
  : option (list string) :=
  match inds_list with
  | [] => Some []
  | i :: rest =>
      if (0 <=? i) && (i <? Z.of_nat (List.length chunks)) then
        match py_index chunks i, retrieve chunks rest with
        | Some c, Some r => Some (c :: r)
        | _, _ => None
        end
      else retrieve chunks rest
  end.

(** ** Prompt builder *)

Definition NL : string := String LF EmptyString.
Definition DQ : string := String QUOTE EmptyString.

(** Concatenation of the pieces of a literal or an f-string. *)
Definition cat (pieces : list string) : string := String.concat "" pieces.

Definition system_prompt : string :=
  cat [ "You are Lumina, a helpful, conversational assistant specialized in helping users understand ";
        "uploaded documents. Use any provided document excerpts for factual support and cite them inline ";
        "as 'Source 1', 'Source 2', etc., when you rely on them. You may also use your general knowledge ";
        "to elaborate, provide examples, or suggest follow-ups. If you are not sure about a fact, say so ";
        "and indicate uncertainty."; NL; NL;
        "Answer naturally in plain language first (a few paragraphs, lists, examples). After your natural-language ";
        "answer, include a JSON object that summarizes the response in this exact shape:"; NL;
        "{"; DQ; "answer"; DQ; ": "; DQ; "<short summary sentence>"; DQ; ", ";
        DQ; "sources"; DQ; ": ["; DQ; "Source 1: ..."; DQ; ", ...]}"; NL; NL;
        "Place the JSON either inside a fenced block ```json ... ``` or between the markers <<<JSON_START>>> and <<<JSON_END>>>. ";
        "This makes it easier for the system to extract the JSON programmatically. Keep the JSON truthful to the explanation.";
        NL ].

(** One line of the context block, for chunk number [i] (from 0). *)
Definition ctx_line (i : nat) (chunk : string) : string :=
  let src_label := cat ["Source "; decimal (Z.of_nat i + 1)] in
  let snippet := substr (replace_char LF " " (strip chunk)) 0 1500 in
  cat [ src_label; " (";
        (if len chunk >? 60 then cat [strip (substr chunk 0 60); "..."] else "");
        "):"; NL; snippet ].

(** [enumerate(l)] mapped through [f]. *)
Definition map_enumerate {A B : Type} (f : nat -> A -> B) (l : list A) : list B :=
  map (fun p => f (fst p) (snd p)) (combine (seq 0 (List.length l)) l).

(** A turn of the history that the prompt can show: a [dict] whose role,
    when it has one, is a [str]. *)
Definition showable (turn : json) : Prop :=
  exists d r, turn = JObj d /\ dict_get d "role" (JStr "user") = JStr r.

Section Prompt.

Context `{PyRuntime}.

(** The line of one turn of the history; raising when the turn is no
    [dict] or its role has no [upper]. *)
Definition history_line (turn : json) : result string :=
  match turn with
  | JObj d =>
      let role := dict_get d "role" (JStr "user") in
      let content := dict_get d "content" (JStr "") in
      match role with
      | JStr r => Ok (cat ["["; py_upper r; "] "; py_str content])
      | _ => Err (no_attribute role "upper")
      end
  | _ => Err (no_attribute turn "get")
  end.

(** The loop over the turns, stopping at the first that raises. *)
Fixpoint history_lines (turns : list json) : result (list string) :=
  match turns with
  | [] => Ok []
  | turn :: rest =>
      line <- history_line turn ;;
      lines <- history_lines rest ;;
      Ok (line :: lines)
  end.

(** The history block.  A history that is no list cannot be sliced into
    turns that are [dict]s: taking [[-8:]] or the first [turn.get] raises. *)
Definition history_block (conversation_history : json) : result string :=
  if negb (json_truthy conversation_history) then Ok ""
  else
    match conversation_history with
    | JArr turns =>
        history_lines <-
          history_lines (slice turns (-8) (Z.of_nat (List.length turns))) ;;
        Ok (cat ["RECENT CONVERSATION HISTORY:"; NL; join NL history_lines; NL; NL])
    | JStr _ => Err (no_attribute conversation_history "get")
    | JObj _ => Err "unhashable type: 'slice'"
    | other => Err (cat ["'"; type_name other; "' object is not subscriptable"])
    end.

(** [_build_soft_prompt(user_question, retrieved_chunks,
    conversation_history, max_chunks)] *)
Definition _build_soft_prompt (user_question : string)
           (retrieved_chunks : list string) (conversation_history : json)
           (max_chunks : Z) : result string :=
  let ctx_lines := map_enumerate ctx_line (slice retrieved_chunks 0 max_chunks) in
  let context_block :=
    match ctx_lines with
    | [] => cat ["DOCUMENT EXCERPTS: None found for this query."; NL; NL]
    | _ => cat [ "DOCUMENT EXCERPTS (numbered):"; NL; NL;
                 join (cat [NL; NL; "---"; NL; NL]) ctx_lines; NL; NL ]
    end in
  history_block <- history_block conversation_history ;;
  Ok (join (cat [NL; NL])
        [ system_prompt; context_block; history_block;
          cat ["QUESTION: "; user_question; NL; NL; "ANSWER:"] ]).

End Prompt.

(** ** Request handlers *)

(** An embedding model: [encode(texts, convert_to_numpy=True)], a matrix
    with one row per text, unless it raises. *)
Definition embedder : Type := list string -> result (list vec).

(** The global state of the module. *)
Record state : Type := State {
  chunks : option (list string);
  faiss_index : option index;
  embedding_model : option embedder
}.

Definition initial_state : state :=
  {| chunks := None; faiss_index := None; embedding_model := None |}.

(** What the handlers reach outside the process: the model server, and the
    loading of the embedding model [SentenceTransformer("all-MiniLM-L6-v2")]. *)
Record world : Type := World {
  model_server : backend;
  load_embedder : result embedder
}.

Definition json_response (code : Z) (fields : list (string * json)) : response :=
  {| status := code; body := JObj fields |}.

(** [jsonify({"error": msg}), code] *)
Definition error_response (code : Z) (msg : string) : response :=
  json_response code [("error", JStr msg)].

(** The application-wide [handle_exception], for what a handler lets out. *)
Definition handle_exception (msg : string) : response :=
  error_response 500 (cat ["Server error: "; msg]).

Definition greet_prompt : string :=
  "Say hello and ask the user to upload a PDF so you can help answer questions about it. Keep it short and friendly.".

(** The greeting of the [except] branch (its first character, a waving
    hand, is written in UTF-8). *)
Definition fallback_greeting : string := "👋 Hi! Upload a PDF to get started.".

(** The body of [greet] around the call of the model client, which either
    returns ([None] or a text) or raises. *)
Definition greet_with (reply : result (option string)) : response :=
  match reply with
  | Ok r =>
      let greeting :=
        match r with
        | Some text => if truthy text then text else ""
        | None => ""
        end in
      json_response 200 [("greeting", JStr greeting)]
  | Err _ => json_response 200 [("greeting", JStr fallback_greeting)]
  end.

Section Handlers.

Context `{PyRuntime} (W : world).

(** [greet()] *)
Definition greet : response :=
  greet_with
    (Ok (snd (query_ollama (model_server W) greet_prompt OLLAMA_MODEL default_options))).

(** [upload_pdf()].  The request carries no file ([None]) or a file, given
    by what the PDF reader makes of it.  The result is the state the
    globals are left in and the response; [None] if the handler does not
    return. *)
Definition upload_pdf (st : state) (file : option (result (list string)))
  : option (state * response) :=
  match file with
  | None => Some (st, error_response 400 "No file uploaded")
  | Some doc =>
      match DocumentUtils.pdf_to_chunks doc
              DocumentUtils.default_chunk_size DocumentUtils.default_overlap with
      | Diverge => None
      | Raise msg => Some (st, error_response 500 msg)
      | Return new_chunks =>
          let st := {| chunks := Some new_chunks;
                       faiss_index := faiss_index st;
                       embedding_model := embedding_model st |} in
          let loaded :=
            match embedding_model st with
            | Some model => Ok model
            | None => load_embedder W
            end in
          match loaded with
          | Err msg => Some (st, error_response 500 msg)
          | Ok model =>
              let st := {| chunks := chunks st;
                           faiss_index := faiss_index st;
                           embedding_model := Some model |} in
              match model new_chunks with
              | Err msg => Some (st, error_response 500 msg)
              | Ok embeds =>
                  let st := {| chunks := chunks st;
                               faiss_index := Some (build_faiss_index embeds);
                               embedding_model := embedding_model st |} in
                  Some (st, json_response 200
                              [("status", JStr "ok");
                               ("chunk_count", JInt (Z.of_nat (List.length new_chunks)))])
              end
          end
      end
  end.

(** The answer built from a reply in which a JSON value was found
    (lines 310-328); it raises when that value is no [dict]. *)
Definition structured_answer (raw : string) (structured : json) (start_idx : Z)
  : result response :=
  match structured with
  | JObj d =>
      let natural_answer :=
        if start_idx >? 0 then strip (substr raw 0 start_idx) else "" in
      let natural_answer :=
        if truthy natural_answer then natural_answer
        else match dict_get d "answer" (JStr "") with
             | JStr a => strip a
             | _ => ""
             end in
      let sources := dict_get d "sources" (JArr []) in
      let cleaned_sources :=
        match sources with
        | JArr l => map (fun s => JStr (substr (py_str s) 0 120)) l
        | _ => []
        end in
      Ok (json_response 200
            [("answer", JStr natural_answer);
             ("structured", structured);
             ("sources", JArr cleaned_sources);
             ("raw", JStr raw)])
  | _ => Err (no_attribute structured "get")
  end.

(** The answer built from a reply without JSON (lines 330-346). *)
Definition fallback_answer (raw : string) (retrieved : list string) : response :=
  let heuristic_sources := _extract_sources_from_text raw in
  let heuristic_sources :=
    match heuristic_sources, retrieved with
    | [], _ :: _ =>
        map_enumerate
          (fun i chunk =>
             let s := substr (strip (replace_char LF " " chunk)) 0 120 in
             cat ["Source "; decimal (Z.of_nat i + 1); ": "; s])
          (slice retrieved 0 (Z.min 5 (Z.of_nat (List.length retrieved))))
    | _, _ => heuristic_sources
    end in
  json_response 200
    [("answer", JStr (strip raw));
     ("structured", JNull);
     ("sources", JArr (map JStr heuristic_sources));
     ("raw", JStr raw)].

(** What [ask] does with the value [raw] of its call of the model client
    (lines 300-346). *)
Definition answer_reply (retrieved : list string) (raw : option string)
  : result response :=
  match raw with
  | None => Ok (error_response 502 "No response from LLM (check Ollama server).")
  | Some raw =>
      if negb (truthy raw) || negb (truthy (strip raw)) then
        Ok (error_response 502 "No response from LLM (check Ollama server).")
      else
        let '(structured, start_idx, end_idx) := _extract_json_span raw in
        match structured with
        | JNull => Ok (fallback_answer raw retrieved)
        | _ => structured_answer raw structured start_idx
        end
  end.

Definition ask_options : options :=
  {| temperature := "0.6"; max_tokens := 700; top_p := "0.95"; top_k := 40 |}.

(** The [try] block of [ask] (lines 276-346), once the question and the
    globals have passed the checks. *)
Definition ask_try (msg : string) (conversation_history : json)
           (chunks : list string) (idx : index) (model : embedder)
  : result response :=
  q_emb <- model [msg] ;;
  let top_k := 6%nat in
  raw_inds <- or_raise "index 0 is out of bounds for axis 0 with size 0"
                (search_index idx q_emb top_k) ;;
  let inds_list := _normalize_and_extract_indices (OArray raw_inds) in
  retrieved <- or_raise "list index out of range" (retrieve chunks inds_list) ;;
  prompt <- _build_soft_prompt msg retrieved conversation_history
              (Z.of_nat top_k) ;;
  let raw := snd (query_ollama (model_server W) prompt OLLAMA_MODEL ask_options) in
  answer_reply retrieved raw.

(** [ask()].  The request body is what [request.get_json(silent=True)]
    gives: [None], or the decoded JSON. *)
Definition ask (st : state) (request_json : option json) : response :=
  let data :=
    match request_json with
    | Some v => py_or v (JObj [])
    | None => JObj []
    end in
  match data with
  | JObj d =>
      match py_or (dict_get d "question" JNull) (JStr "") with
      | JStr question =>
          let msg := strip question in
          let conversation_history :=
            py_or (dict_get d "history" (JArr [])) (JArr []) in
          if negb (truthy msg) then error_response 400 "Empty question"
          else
            match chunks st, faiss_index st, embedding_model st with
            | Some (c :: cs), Some idx, Some model =>
                match ask_try msg conversation_history (c :: cs) idx model with
                | Ok r => r
                | Err e => error_response 500 e
                end
            | _, _, _ => error_response 400 "No PDF uploaded yet"
            end
      | other => handle_exception (no_attribute other "strip")
      end
  | other => handle_exception (no_attribute other "get")
  end.

(** One entry of the preview of [debug_chunks]. *)
Definition chunk_preview (i : nat) (chunk : string) : json :=
  JObj [("index", JInt (Z.of_nat i));
        ("content",
         JStr (if len chunk >? 300 then cat [substr chunk 0 300; "..."] else chunk));
        ("length", JInt (len chunk))].

(** [debug_chunks()] *)
Definition debug_chunks (st : state) : response :=
  match chunks st with
  | None | Some [] => json_response 200 [("error", JStr "No PDF uploaded")]
  | Some chunks =>
      json_response 200
        [("total_chunks", JInt (Z.of_nat (List.length chunks)));
         ("chunks_preview", JArr (map_enumerate chunk_preview (slice chunks 0 10)))]
  end.

Definition debug_test_prompt : string := "What is 2+2? Answer with just the number.".

(** [debug_test_ollama()] *)
Definition debug_test_ollama : response :=
  let response :=
    snd (query_ollama (model_server W) debug_test_prompt OLLAMA_MODEL default_options) in
  json_response 200
    [("model", JStr OLLAMA_MODEL);
     ("prompt", JStr debug_test_prompt);
     ("response", match response with Some text => JStr text | None => JNull end);
     ("working",
      JBool (match response with
             | Some text => negb (String.eqb (strip text) "")
             | None => false
             end))].

End Handlers.

(** The states the globals can be in: the initial one, and what an upload
    leaves ([greet] and [ask] assign no global). *)
Inductive reachable `{PyRuntime} (W : world) : state -> Prop :=
| reachable_initial : reachable W initial_state
| reachable_upload st file st' r :
    reachable W st -> upload_pdf W st file = Some (st', r) -> reachable W st'.

(** The answer of [ask] to a model that gave nothing. *)
Definition no_reply : response :=
  error_response 502 "No response from LLM (check Ollama server).".

(** An answer: status 200 and the four fields of [ask]. *)
Definition is_answer (r : response) : Prop :=
  status r = 200 /\
  exists answer structured sources raw,
    body r = JObj [("answer", JStr answer); ("structured", structured);
                   ("sources", JArr sources); ("raw", JStr raw)].

(** An error: the given status and a body with the one field "error". *)
Definition is_error (code : Z) (r : response) : Prop :=
  status r = code /\ exists msg, body r = JObj [("error", JStr msg)].

(** The sources [ask] reports for a reply without JSON: the snippets
    behind its "Source N:" patterns if there are any, otherwise the starts
    of the first five retrieved chunks. *)
Definition heuristic_sources (raw : string) (retrieved : list string)
  : list string :=
  match _extract_sources_from_text raw with
  | [] =>
      map_enumerate
        (fun i chunk =>
           cat ["Source "; decimal (Z.of_nat i + 1); ": ";
                substr (strip (replace_char LF " " chunk)) 0 120])
        (slice retrieved 0 5)
  | found => found
  end.

End App.

(* ================================================================== *)
(** * app_llm_prompt_helpers_Version2.py *)
(* ================================================================== *)

Module PromptHelpers.

Import App.

(** A [Dict] of the annotations: keys and JSON values. *)
Definition dict : Type := list (string * json).

Definition system_message : dict :=
  [("role", JStr "system");
   ("content",
    JStr (cat [ "You are Lumina, a helpful expert assistant. Use any provided document excerpts for factual details and ";
                "cite sources (e.g. 'Source 1') when you rely on them. You may also use your general knowledge to elaborate, ";
                "explain, summarize, or provide examples. If you are not sure, say so and offer clarifying questions." ]))].

Definition no_documents_message : dict :=
  [("role", JStr "system");
   ("content",
    JStr "No relevant documents were found for this query. Answer using your general knowledge and indicate uncertainty where appropriate.")].

(** A message that copies the role and the content of a turn. *)
Definition copied (turn message : dict) : Prop :=
  exists role content,
    dict_find turn "role" = Some role /\
    dict_find turn "content" = Some content /\
    message = [("role", role); ("content", content)].

Section Messages.

Context `{PyRuntime}.

(** The line of chunk number [i] (from 0); it raises when the "text" of
    the chunk is no [str]. *)
Definition context_line (i : nat) (c : dict) : result string :=
  let src := dict_get c "source" (JStr (cat ["source_"; decimal (Z.of_nat i + 1)])) in
  let text := dict_get c "text" (JStr "") in
  match text with
  | JStr t =>
      let snippet := strip (substr t 0 2000) in
      Ok (cat ["Source "; decimal (Z.of_nat i + 1); " ("; py_str src; "):"; NL; snippet])
  | JArr _ => Err (no_attribute text "strip")
  | JObj _ => Err "unhashable type: 'slice'"
  | other => Err (cat ["'"; type_name other; "' object is not subscriptable"])
  end.

(** The loop over the chunks kept, from number [i] on. *)
Fixpoint context_lines (i : nat) (limited : list dict) : result (list string) :=
  match limited with
  | [] => Ok []
  | c :: rest =>
      line <- context_line i c ;;
      lines <- context_lines (S i) rest ;;
      Ok (line :: lines)
  end.

(** The message of one turn of the history; a missing key raises
    [KeyError]. *)
Definition history_message (turn : dict) : result dict :=
  role <- or_raise "'role'" (dict_find turn "role") ;;
  content <- or_raise "'content'" (dict_find turn "content") ;;
  Ok [("role", role); ("content", content)].

Fixpoint history_messages (turns : list dict) : result (list dict) :=
  match turns with
  | [] => Ok []
  | turn :: rest =>
      msg <- history_message turn ;;
      msgs <- history_messages rest ;;
      Ok (msg :: msgs)
  end.

(** [build_chat_messages(user_query, retrieved_chunks,
    conversation_history, max_history_turns, max_chunks)] *)
Definition build_chat_messages (user_query : string)
           (retrieved_chunks conversation_history : list dict)
           (max_history_turns max_chunks : Z) : result (list dict) :=
  context_msgs <-
    match retrieved_chunks with
    | _ :: _ =>
        let limited := slice retrieved_chunks 0 max_chunks in
        context_lines <- context_lines 0 limited ;;
        let context_text := join (cat [NL; NL]) context_lines in
        Ok [[("role", JStr "system");
             ("content",
              JStr (cat ["Relevant document excerpts (only as reference):"; NL; NL;
                         context_text]))]]
    | [] => Ok [no_documents_message]
    end ;;
  history_msgs <-
    history_messages
      (slice conversation_history (- max_history_turns)
             (Z.of_nat (List.length conversation_history))) ;;
  let user_msg := [("role", JStr "user"); ("content", JStr user_query)] in
  Ok ([system_message] ++ context_msgs ++ history_msgs ++ [user_msg]).

End Messages.

Definition default_max_history_turns : Z := 6.
Definition default_max_chunks : Z := 6.

End PromptHelpers.

(* ================================================================== *)
(** * startup_script.py *)
(* ================================================================== *)

Module StartupScript.

Import App.

(** What an [import] does. *)
Inductive import_result : Type :=
| Imported
| ImportFails                     (* [ImportError] *)
| ImportRaises (msg : string).    (* any other exception *)

(** What [subprocess.run] does with a command. *)
Inductive run_result : Type :=
| Exited (returncode : Z) (stdout : string)
| NotFound                        (* [FileNotFoundError] *)
| Interrupted                     (* [KeyboardInterrupt] *)
| RunRaises (msg : string).       (* any other exception *)

(** The machine the script runs on. *)
Record host : Type := Host {
  import_package : string -> import_result;
  ollama_list : run_result;
  ollama_pull : run_result;
  mkdir_templates : result unit;
  index_exists : bool;
  write_index : result unit;
  run_app : run_result
}.

(** What the script does to the machine, in order. *)
Inductive event : Type :=
| RunOllamaList
| RunOllamaPull
| MakeTemplatesDir
| WriteIndexHtml (content : string)
| RunApp.

(** How a function or the script ends. *)
Inductive ending (A : Type) : Type :=
| Returns (a : A)
| Exits (code : Z)                (* [sys.exit(code)] *)
| Fails (msg : string).           (* an exception nobody catches *)
Arguments Returns {A} a.
Arguments Exits {A} code.
Arguments Fails {A} msg.

Definition required_packages : list string :=
  ["flask"; "sentence_transformers"; "faiss"; "fitz"; "requests"; "numpy"].

(** The page of lines 64-187, written to [templates/index.html] when there
    is none (its characters outside ASCII are written in UTF-8). *)
Definition html_content : string :=
  cat [ "<!DOCTYPE html>"; NL;
        "<html>"; NL;
        "<head>"; NL;
        "    <title>Document Chat</title>"; NL;
        "    <meta charset="; DQ; "utf-8"; DQ; ">"; NL;
        "    <style>"; NL;
        "        body { font-family: Arial, sans-serif; margin: 40px; }"; NL;
        "        .container { max-width: 800px; margin: 0 auto; }"; NL;
        "        .upload-area { border: 2px dashed #ccc; padding: 20px; text-align: center; margin: 20px 0; }"; NL;
        "        .chat-area { border: 1px solid #ccc; height: 400px; overflow-y: scroll; padding: 10px; margin: 20px 0; }"; NL;
        "        .input-area { display: flex; gap: 10px; }"; NL;
        "        .input-area input { flex: 1; padding: 10px; }"; NL;
        "        .input-area button { padding: 10px 20px; }"; NL;
        "        .message { margin: 10px 0; padding: 10px; border-radius: 5px; }"; NL;
        "        .user { background: #e3f2fd; text-align: right; }"; NL;
        "        .bot { background: #f5f5f5; }"; NL;
        "    </style>"; NL;
        "</head>"; NL;
        "<body>"; NL;
        "    <div class="; DQ; "container"; DQ; ">"; NL;
        "        <h1>📚 Document Chat</h1>"; NL;
        "        "; NL;
        "        <div class="; DQ; "upload-area"; DQ; " id="; DQ; "uploadArea"; DQ; ">"; NL;
        "            <p>📄 Drag & drop a PDF file here or click to select</p>"; NL;
        "            <input type="; DQ; "file"; DQ; " id="; DQ; "fileInput"; DQ; " accept="; DQ; ".pdf"; DQ; " style="; DQ; "display: none;"; DQ; ">"; NL;
        "            <button onclick="; DQ; "document.getElementById('fileInput').click();"; DQ; ">Choose PDF</button>"; NL;
        "        </div>"; NL;
        "        "; NL;
        "        <div id="; DQ; "status"; DQ; "></div>"; NL;
        "        "; NL;
        "        <div class="; DQ; "chat-area"; DQ; " id="; DQ; "chatArea"; DQ; ">"; NL;
        "            <div class="; DQ; "message bot"; DQ; ">"; NL;
        "                <strong>Bot:</strong> <span id="; DQ; "greeting"; DQ; ">Loading...</span>"; NL;
        "            </div>"; NL;
        "        </div>"; NL;
        "        "; NL;
        "        <div class="; DQ; "input-area"; DQ; ">"; NL;
        "            <input type="; DQ; "text"; DQ; " id="; DQ; "questionInput"; DQ; " placeholder="; DQ; "Ask a question about your document..."; DQ; " disabled>"; NL;
        "            <button onclick="; DQ; "askQuestion()"; DQ; " id="; DQ; "askBtn"; DQ; " disabled>Ask</button>"; NL;
        "        </div>"; NL;
        "    </div>"; NL;
        NL;
        "    <script>"; NL;
        "        let fileUploaded = false;"; NL;
        NL;
        "        // Load greeting"; NL;
        "        fetch('/greet')"; NL;
        "            .then(r => r.json())"; NL;
        "            .then(data => {"; NL;
        "                document.getElementById('greeting').textContent = data.greeting;"; NL;
        "            });"; NL;
        NL;
        "        // File upload handling"; NL;
        "        document.getElementById('fileInput').onchange = function(e) {"; NL;
        "            const file = e.target.files[0];"; NL;
        "            if (file) uploadFile(file);"; NL;
        "        };"; NL;
        NL;
        "        function uploadFile(file) {"; NL;
        "            const formData = new FormData();"; NL;
        "            formData.append('pdf', file);"; NL;
        "            "; NL;
        "            document.getElementById('status').innerHTML = '⏳ Uploading and processing...';"; NL;
        "            "; NL;
        "            fetch('/upload', { method: 'POST', body: formData })"; NL;
        "                .then(r => r.json())"; NL;
        "                .then(data => {"; NL;
        "                    if (data.error) {"; NL;
        "                        document.getElementById('status').innerHTML = `❌ Error: ${data.error}`;"; NL;
        "                    } else {"; NL;
        "                        document.getElementById('status').innerHTML = `✅ Document processed! ${data.chunk_count} chunks extracted.`;"; NL;
        "                        fileUploaded = true;"; NL;
        "                        document.getElementById('questionInput').disabled = false;"; NL;
        "                        document.getElementById('askBtn').disabled = false;"; NL;
        "                    }"; NL;
        "                })"; NL;
        "                .catch(err => {"; NL;
        "                    document.getElementById('status').innerHTML = `❌ Upload failed: ${err}`;"; NL;
        "                });"; NL;
        "        }"; NL;
        NL;
        "        function askQuestion() {"; NL;
        "            const question = document.getElementById('questionInput').value.trim();"; NL;
        "            if (!question || !fileUploaded) return;"; NL;
        "            "; NL;
        "            // Add user message"; NL;
        "            const chatArea = document.getElementById('chatArea');"; NL;
        "            chatArea.innerHTML += `<div class="; DQ; "message user"; DQ; "><strong>You:</strong> ${question}</div>`;"; NL;
        "            "; NL;
        "            // Clear input"; NL;
        "            document.getElementById('questionInput').value = '';"; NL;
        "            "; NL;
        "            // Show loading"; NL;
        "            chatArea.innerHTML += `<div class="; DQ; "message bot"; DQ; " id="; DQ; "loadingMsg"; DQ; "><strong>Bot:</strong> ⏳ Thinking...</div>`;"; NL;
        "            chatArea.scrollTop = chatArea.scrollHeight;"; NL;
        "            "; NL;
        "            fetch('/ask', {"; NL;
        "                method: 'POST',"; NL;
        "                headers: { 'Content-Type': 'application/json' },"; NL;
        "                body: JSON.stringify({ question })"; NL;
        "            })"; NL;
        "            .then(r => r.json())"; NL;
        "            .then(data => {"; NL;
        "                document.getElementById('loadingMsg').remove();"; NL;
        "                if (data.error) {"; NL;
        "                    chatArea.innerHTML += `<div class="; DQ; "message bot"; DQ; "><strong>Bot:</strong> ❌ ${data.error}</div>`;"; NL;
        "                } else {"; NL;
        "                    chatArea.innerHTML += `<div class="; DQ; "message bot"; DQ; "><strong>Bot:</strong> ${data.answer}</div>`;"; NL;
        "                }"; NL;
        "                chatArea.scrollTop = chatArea.scrollHeight;"; NL;
        "            })"; NL;
        "            .catch(err => {"; NL;
        "                document.getElementById('loadingMsg').remove();"; NL;
        "                chatArea.innerHTML += `<div class="; DQ; "message bot"; DQ; "><strong>Bot:</strong> ❌ Error: ${err}</div>`;"; NL;
        "            });"; NL;
        "        }"; NL;
        NL;
        "        // Enter key support"; NL;
        "        document.getElementById('questionInput').onkeypress = function(e) {"; NL;
        "            if (e.key === 'Enter') askQuestion();"; NL;
        "        };"; NL;
        "    </script>"; NL;
        "</body>"; NL;
        "</html>" ].

Section Script.

Variable H : host.

(** [check_ollama()] *)
Definition check_ollama : list event * ending bool :=
  match ollama_list H with
  | Exited returncode models =>
      if returncode =? 0 then
        if contains "llama3" models then ([RunOllamaList], Returns true)
        else
          match ollama_pull H with
          | Exited _ _ => ([RunOllamaList; RunOllamaPull], Returns true)
          | NotFound => ([RunOllamaList; RunOllamaPull], Returns false)
          | Interrupted => ([RunOllamaList; RunOllamaPull], Fails "KeyboardInterrupt")
          | RunRaises msg => ([RunOllamaList; RunOllamaPull], Fails msg)
          end
      else ([RunOllamaList], Returns false)
  | NotFound => ([RunOllamaList], Returns false)
  | Interrupted => ([RunOllamaList], Fails "KeyboardInterrupt")
  | RunRaises msg => ([RunOllamaList], Fails msg)
  end.

(** The loop of [check_dependencies]: the packages found missing, unless an
    import raises something else than [ImportError]. *)
Fixpoint missing_packages (packages : list string) : result (list string) :=
  match packages with
  | [] => Ok []
  | package :: rest =>
      match import_package H package with
      | Imported => missing_packages rest
      | ImportFails =>
          missing <- missing_packages rest ;;
          Ok (package :: missing)
      | ImportRaises msg => Err msg
      end
  end.

(** [check_dependencies()] *)
Definition check_dependencies : ending bool :=
  match missing_packages required_packages with
  | Ok [] => Returns true
  | Ok (_ :: _) => Returns false
  | Err msg => Fails msg
  end.

(** [setup_directories()] *)
Definition setup_directories : list event * ending unit :=
  match mkdir_templates H with
  | Err msg => ([MakeTemplatesDir], Fails msg)
  | Ok _ =>
      if negb (index_exists H) then
        match write_index H with
        | Err msg => ([MakeTemplatesDir; WriteIndexHtml html_content], Fails msg)
        | Ok _ => ([MakeTemplatesDir; WriteIndexHtml html_content], Returns tt)
        end
      else ([MakeTemplatesDir], Returns tt)
  end.

(** [main()] *)
Definition main : list event * ending unit :=
  match check_dependencies with
  | Fails msg => ([], Fails msg)
  | Exits code => ([], Exits code)
  | Returns false => ([], Exits 1)
  | Returns true =>
      match check_ollama with
      | (t1, Fails msg) => (t1, Fails msg)
      | (t1, Exits code) => (t1, Exits code)
      | (t1, Returns false) => (t1, Returns tt)
      | (t1, Returns true) =>
          match setup_directories with
          | (t2, Fails msg) => (t1 ++ t2, Fails msg)
          | (t2, Exits code) => (t1 ++ t2, Exits code)
          | (t2, Returns _) =>
              match run_app H with
              | RunRaises msg => (t1 ++ t2 ++ [RunApp], Fails msg)
              | _ => (t1 ++ t2 ++ [RunApp], Returns tt)
              end
          end
      end
  end.

End Script.

End StartupScript.

(* ================================================================== *)
(** * Example inputs *)
(* ================================================================== *)

(** Concrete servers, embedding models, states and replies on which the
    handlers are run below. *)
Module Examples.

Import FaissUtils OllamaUtils App.

(** A server whose API answers with a padded text, and one that is down
    while the command line fails too. *)
Definition answering_backend : backend :=
  {| http_generate := fun _ _ _ => Ok (JObj [("response", JStr "  Hello there. ")]);
     run_ollama := fun _ _ => Err "not called" |}.

Definition dead_backend : backend :=
  {| http_generate := fun _ _ _ => Err "connection refused";
     run_ollama := fun _ _ => Ok (1, "", "model not found") |}.

(** A server whose API answers with white space only. *)
Definition blank_backend : backend :=
  {| http_generate := fun _ _ _ => Ok (JObj [("response", JStr "   ")]);
     run_ollama := fun _ _ => Ok (0, "from the command line", "") |}.

(** A server whose API answers with an object without result, while the
    command line works. *)
Definition empty_object_backend : backend :=
  {| http_generate := fun _ _ _ => Ok (JObj [("done", JBool true)]);
     run_ollama := fun _ _ => Ok (0, " from the command line ", "") |}.

(** An embedding model that embeds one document and runs out of memory on
    the other. *)
Definition picky_embedder : embedder :=
  fun texts =>
    match texts with
    | ["first document"] => Ok [[1%R; 0%R]]
    | _ => Err "out of memory"
    end.

Definition example_world : world :=
  {| model_server := dead_backend; load_embedder := Ok picky_embedder |}.

(** The state after a first upload, of a one-page PDF reading
    "first document". *)
Definition after_first_upload : state :=
  {| chunks := Some ["first document"];
     faiss_index := Some (build_faiss_index [[1%R; 0%R]]);
     embedding_model := Some picky_embedder |}.

(** A reply with two JSON objects: [{"a": 1} and {"b": 2}]. *)
Definition two_objects : string :=
  cat ["{"; DQ; "a"; DQ; ": 1} and {"; DQ; "b"; DQ; ": 2}"].

(** A server that answers in plain text, citing a source. *)
Definition plain_backend : backend :=
  {| http_generate := fun _ _ _ =>
       Ok (JObj [("response", JStr " It is a test file. Source 1: first document ")]);
     run_ollama := fun _ _ => Err "not called" |}.

(** An embedding model that maps every text to the same unit vector. *)
Definition constant_embedder : embedder :=
  fun texts => Ok (map (fun _ => [1%R; 0%R]) texts).

Definition plain_world : world :=
  {| model_server := plain_backend; load_embedder := Ok constant_embedder |}.

(** The state after the upload of a one-page PDF reading "first document". *)
Definition one_document : state :=
  {| chunks := Some ["first document"];
     faiss_index := Some (build_faiss_index [[1%R; 0%R]]);
     embedding_model := Some constant_embedder |}.

Definition what_question : list (string * json) :=
  [("question", JStr " What is this? ")].

(** A reply that holds a JSON array between the markers, and no brace. *)
Definition array_reply : string := "hi <<<JSON_START>>>[1, 2]<<<JSON_END>>>".

Definition array_backend : backend :=
  {| http_generate := fun _ _ _ => Ok (JObj [("response", JStr array_reply)]);
     run_ollama := fun _ _ => Err "not called" |}.

Definition array_world : world :=
  {| model_server := array_backend; load_embedder := Ok constant_embedder |}.


(** A history of nine turns, of which the first is no turn at all. *)
Definition long_history : list json :=
  JInt 3 ::
  map (fun content => JObj [("role", JStr "user"); ("content", JStr content)])
      ["1"; "2"; "3"; "4"; "5"; "6"; "7"; "8"].

(** Two turns of a chat, the first with a key of its own. *)
Definition two_turns : list (list (string * json)) :=
  [ [("role", JStr "user"); ("content", JStr "Hi"); ("when", JStr "now")];
    [("role", JStr "assistant"); ("content", JStr "Hello")] ].

(** A machine without [faiss]. *)
Definition bare_host : StartupScript.host :=
  {| StartupScript.import_package :=
       fun package => if String.eqb package "faiss"
                      then StartupScript.ImportFails else StartupScript.Imported;
     StartupScript.ollama_list := StartupScript.NotFound;
     StartupScript.ollama_pull := StartupScript.NotFound;
     StartupScript.mkdir_templates := Ok tt;
     StartupScript.index_exists := false;
     StartupScript.write_index := Ok tt;
     StartupScript.run_app := StartupScript.Interrupted |}.

(** A machine with every package and a running Ollama that has no model
    yet and fails to pull one, in a directory without [templates]. *)
Definition fresh_host : StartupScript.host :=
  {| StartupScript.import_package := fun _ => StartupScript.Imported;
     StartupScript.ollama_list := StartupScript.Exited 0 "NAME ID SIZE MODIFIED";
     StartupScript.ollama_pull := StartupScript.Exited 1 "";
     StartupScript.mkdir_templates := Ok tt;
     StartupScript.index_exists := false;
     StartupScript.write_index := Ok tt;
     StartupScript.run_app := StartupScript.Interrupted |}.

End Examples.

(* ================================================================== *)
(** * Verification *)
(* ================================================================== *)

(** ** Facts about the Python built-ins *)

Section PyFacts.

Lemma rstrip_truthy s : truthy (rstrip s) = negb (all_space s).
Proof.
  induction s as [|c s IH]; simpl; [reflexivity|].
  destruct (rstrip s) eqn:E; simpl in *.
  - destruct (all_space s); [|discriminate].
    destruct (is_space c); reflexivity.
  - destruct (all_space s); [discriminate|].
    now rewrite andb_false_r.
Qed.

Lemma lstrip_all_space s : all_space (lstrip s) = all_space s.
Proof.
  induction s as [|c s IH]; simpl; [reflexivity|].
  destruct (is_space c) eqn:E; simpl; [exact IH|now rewrite E].
Qed.

Lemma strip_truthy s : truthy (strip s) = negb (all_space s).
Proof. unfold strip. now rewrite rstrip_truthy, lstrip_all_space. Qed.

Lemma all_space_append s t :
  all_space (String.append s t) = all_space s && all_space t.
Proof.
  induction s as [|c s IH]; simpl; [reflexivity|].
  now rewrite IH, andb_assoc.
Qed.

Lemma join_visible sep w ws :
  truthy (strip w) = true -> truthy (strip (join sep (w :: ws))) = true.
Proof.
  rewrite !strip_truthy. intros Hw.
  destruct ws as [|w' ws]; simpl; [exact Hw|].
  rewrite all_space_append.
  destruct (all_space w); [discriminate|reflexivity].
Qed.

(** Every word that [split] returns has a visible character. *)
Lemma split_visible s : Forall (fun w => truthy (strip w) = true) (split s).
Proof.
  induction s as [|c s IH]; simpl; [constructor|].
  destruct (is_space c) eqn:Ec; [exact IH|].
  assert (Hc : forall w, truthy (strip (String c w)) = true).
  { intros w. rewrite strip_truthy. simpl. now rewrite Ec. }
  destruct s as [|c' s']; [repeat constructor; apply Hc|].
  destruct (is_space c').
  - constructor; [apply Hc|exact IH].
  - destruct (split (String c' s')) as [|w ws].
    + repeat constructor; apply Hc.
    + inversion IH; subst. constructor; [apply Hc|assumption].
Qed.

Context {A : Type}.
Implicit Types l : list A.

(** A slice with a non-negative start is [firstn] of [skipn]. *)
Lemma slice_nonneg l a b :
  0 <= a <= b ->
  slice l a b = firstn (Z.to_nat (b - a)) (skipn (Z.to_nat a) l).
Proof.
  intros [Ha Hab]. unfold slice, slice_bound.
  destruct (Z.ltb_spec a 0); [lia|]. destruct (Z.ltb_spec b 0); [lia|].
  set (n := Z.of_nat (List.length l)).
  destruct (Z.le_gt_cases a n) as [Han|Han].
  - rewrite (Z.min_l a n) by lia.
    destruct (Z.le_gt_cases b n) as [Hbn|Hbn].
    + now rewrite (Z.min_l b n) by lia.
    + rewrite (Z.min_r b n) by lia.
      rewrite !firstn_all2; [reflexivity| |]; rewrite length_skipn; subst n; lia.
  - rewrite (Z.min_r a n), (Z.min_r b n) by lia.
    rewrite !skipn_all2 by (subst n; lia).
    now rewrite !firstn_nil.
Qed.

Lemma slice_length l a b :
  0 <= a <= b ->
  Z.of_nat (List.length (slice l a b)) =
  Z.max 0 (Z.min (b - a) (Z.of_nat (List.length l) - a)).
Proof.
  intros H. rewrite slice_nonneg by exact H.
  rewrite length_firstn, length_skipn. lia.
Qed.

Lemma slice_head l a b x rest :
  0 <= a < b -> skipn (Z.to_nat a) l = x :: rest ->
  exists tl, slice l a b = x :: tl.
Proof.
  intros H E. rewrite slice_nonneg by lia. rewrite E.
  destruct (Z.to_nat (b - a)) eqn:En; [lia|]. simpl. eauto.
Qed.

End PyFacts.

(** ** The chunker *)

Section Chunker.

Import DocumentUtils.

Lemma windows_from_done len step i :
  0 < step -> len <= i -> windows_from len step i = 0%nat.
Proof.
  intros Hs Hi. unfold windows_from.
  assert ((len - i + step - 1) / step <= 0); [|lia].
  apply Z.lt_succ_r, Z.div_lt_upper_bound; lia.
Qed.

Lemma windows_from_step len step i :
  0 < step -> i < len ->
  windows_from len step i = S (windows_from len step (i + step)).
Proof.
  intros Hs Hi. unfold windows_from.
  replace (len - i + step - 1) with ((len - (i + step) + step - 1) + 1 * step) by lia.
  rewrite Z.div_add by lia.
  assert (0 <= (len - (i + step) + step - 1) / step)
    by (apply Z.div_pos; lia).
  lia.
Qed.

Lemma chunk_loop_fuel_mono fuel fuel' words cs step i acc r :
  chunk_loop fuel words cs step i acc = Some r ->
  (fuel <= fuel')%nat ->
  chunk_loop fuel' words cs step i acc = Some r.
Proof.
  revert fuel' i acc. induction fuel as [|fuel IH]; intros fuel' i acc; simpl;
    [discriminate|].
  intros H Hle. destruct fuel' as [|fuel']; [lia|]. simpl.
  destruct (i <? _); [|exact H].
  destruct (step <=? 0); [exact H|].
  apply IH; [exact H|lia].
Qed.

(** The loop leaves as soon as the fuel covers the words still ahead. *)
Lemma chunk_loop_returns fuel words cs step i acc :
  (step <= 0 /\ (0 < fuel)%nat) \/
  (Z.to_nat (Z.of_nat (List.length words) - i) < fuel)%nat ->
  exists r, chunk_loop fuel words cs step i acc = Some r.
Proof.
  revert i acc. induction fuel as [|fuel IH]; intros i acc H; [lia|].
  simpl. destruct (Z.ltb_spec i (Z.of_nat (List.length words))); [|eauto].
  destruct (Z.leb_spec step 0); [eauto|].
  apply IH. right. lia.
Qed.

(** With a positive step and words that are visible, the loop appends the
    join of every window, in order. *)
Lemma chunk_loop_windows fuel words cs step i acc :
  0 < step -> 0 < cs -> 0 <= i ->
  Forall visible words ->
  (Z.to_nat (Z.of_nat (List.length words) - i) < fuel)%nat ->
  chunk_loop fuel words cs step i acc =
  Some (acc ++ map (fun k => join " " (window words cs (i + Z.of_nat k * step)))
                   (seq 0 (windows_from (Z.of_nat (List.length words)) step i))).
Proof.
  intros Hs Hc. revert i acc.
  induction fuel as [|fuel IH]; intros i acc Hi Hw Hf; [lia|].
  simpl. destruct (Z.ltb_spec i (Z.of_nat (List.length words))) as [Hlt|Hge].
  - destruct (Z.leb_spec step 0); [lia|].
    assert (Hv : truthy (strip (join " " (slice words i (i + cs)))) = true).
    { destruct (skipn (Z.to_nat i) words) as [|x rest] eqn:E.
      - apply (f_equal (@List.length _)) in E. rewrite length_skipn in E.
        simpl in E. lia.
      - destruct (slice_head words i (i + cs) x rest) as [tl ->]; [lia|exact E|].
        apply join_visible.
        rewrite Forall_forall in Hw. apply Hw.
        rewrite <- (firstn_skipn (Z.to_nat i) words), E.
        apply in_or_app. right. now left. }
    rewrite Hv, IH by (assumption || lia).
    rewrite (windows_from_step _ _ i) by lia.
    rewrite <- app_assoc. simpl. f_equal. f_equal.
    unfold window. rewrite Z.add_0_r. f_equal.
    rewrite <- seq_shift, map_map. apply map_ext. intros k.
    f_equal. f_equal; rewrite Nat2Z.inj_succ; ring.
  - rewrite windows_from_done by lia. simpl. now rewrite app_nil_r.
Qed.

Lemma window_contiguous words cs a :
  0 <= a -> 0 <= cs ->
  window words cs a = firstn (Z.to_nat cs) (skipn (Z.to_nat a) words).
Proof.
  intros Ha Hc. unfold window. rewrite slice_nonneg by lia.
  f_equal. lia.
Qed.

Lemma window_shared words cs step a :
  0 <= a -> 0 < step <= cs ->
  skipn (Z.to_nat step) (window words cs a) =
  firstn (Z.to_nat (cs - step)) (window words cs (a + step)).
Proof.
  intros Ha Hs. rewrite !window_contiguous by lia.
  rewrite skipn_firstn_comm, skipn_skipn, firstn_firstn.
  f_equal; [lia|]. f_equal. lia.
Qed.

Lemma windows_from_bound len step (j : nat) :
  0 < step -> (j < windows_from len step 0)%nat -> Z.of_nat j * step < len.
Proof.
  unfold windows_from. intros Hs Hj.
  assert (H : Z.of_nat j + 1 <= (len - 0 + step - 1) / step) by lia.
  pose proof (Z.mul_div_le (len - 0 + step - 1) step Hs). nia.
Qed.

(** C1 (as the code has it): with [chunk_size > overlap >= 0] the chunker
    yields one chunk per window start [j * (chunk_size - overlap)] below the
    number of words, so [ceil(len / step)] chunks in all.  Chunk [j] is the
    join of the contiguous slice
    [words[j*step : j*step + chunk_size]].  A chunk whose window ends inside
    the word list has exactly [chunk_size] words and shares exactly [overlap]
    words with its successor; a window that runs past the end is cut there,
    and there can be several such shorter chunks at the end. *)
Theorem chunk_words_sliding_window words chunk_size overlap :
  0 <= overlap < chunk_size ->
  Forall visible words ->
  let step := chunk_size - overlap in
  let len := Z.of_nat (List.length words) in
  exists chunks,
    chunk_words words chunk_size overlap = Some chunks /\
    Z.of_nat (List.length chunks) = (len + step - 1) / step /\
    forall j : nat, (j < List.length chunks)%nat ->
      let a := Z.of_nat j * step in
      let w := window words chunk_size a in
      nth_error chunks j = Some (join " " w) /\
      a < len /\
      (exists before after,
          words = before ++ w ++ after /\ Z.of_nat (List.length before) = a) /\
      Z.of_nat (List.length w) = Z.min chunk_size (len - a) /\
      (a + chunk_size <= len ->
         Z.of_nat (List.length w) = chunk_size /\
         skipn (Z.to_nat step) w =
           firstn (Z.to_nat overlap) (window words chunk_size (a + step)) /\
         Z.of_nat (List.length (skipn (Z.to_nat step) w)) = overlap).
Proof.
  intros Hp Hw step len.
  assert (Hs : 0 < step) by (subst step; lia).
  exists (map (fun k => join " " (window words chunk_size (0 + Z.of_nat k * step)))
              (seq 0 (windows_from len step 0))).
  split; [|split].
  - unfold chunk_words, step_of.
    destruct (Z.gtb_spec chunk_size overlap); [|lia].
    now rewrite chunk_loop_windows by (assumption || lia).
  - rewrite length_map, length_seq. unfold windows_from.
    rewrite Z.sub_0_r, Z2Nat.id; [reflexivity|].
    apply Z.div_pos; subst len; lia.
  - rewrite length_map, length_seq. intros j Hj a w.
    assert (Ha : a < len) by (apply windows_from_bound; assumption).
    assert (Ha0 : 0 <= a) by (subst a; lia).
    assert (Hlen : Z.of_nat (List.length w) = Z.min chunk_size (len - a)).
    { subst w. unfold window. rewrite slice_length by lia. subst len. lia. }
    split; [|split; [exact Ha|split; [|split; [exact Hlen|]]]].
    + rewrite nth_error_map, nth_error_seq.
      destruct (Nat.ltb_spec j (windows_from len step 0)); [|lia]. reflexivity.
    + exists (firstn (Z.to_nat a) words),
             (skipn (Z.to_nat chunk_size) (skipn (Z.to_nat a) words)).
      split.
      * subst w. rewrite window_contiguous by lia.
        now rewrite !firstn_skipn.
      * rewrite length_firstn. subst len. lia.
    + intros Hfull. split; [lia|].
      assert (E : skipn (Z.to_nat step) w =
                  firstn (Z.to_nat overlap) (window words chunk_size (a + step))).
      { subst w. rewrite window_shared by lia. f_equal. subst step. f_equal. lia. }
      split; [exact E|].
      rewrite length_skipn. lia.
Qed.

(** With the defaults 500 and 100, a text of four words gives one chunk. *)
Lemma chunk_words_sliding_window_witness :
  0 <= default_overlap < default_chunk_size /\
  Forall visible (split "the quick brown fox") /\
  exists chunks,
    chunk_words (split "the quick brown fox") default_chunk_size default_overlap
      = Some chunks /\
    Z.of_nat (List.length chunks) = 1.
Proof.
  assert (Hp : 0 <= default_overlap < default_chunk_size)
    by (unfold default_overlap, default_chunk_size; lia).
  split; [exact Hp|]. split; [apply split_visible|].
  destruct (chunk_words_sliding_window (split "the quick brown fox")
              default_chunk_size default_overlap Hp (split_visible _))
    as (chunks & H1 & H2 & _).
  exists chunks. split; [exact H1|]. rewrite H2. reflexivity.
Defined.

(** C1 (as stated) fails: with five words, [chunk_size = 3] and
    [overlap = 2], chunk 3 is "d e" -- it is not the last chunk, yet it has
    two words rather than three, and it shares one word (not two) with the
    last chunk "e". *)
Lemma chunk_words_short_before_last :
  chunk_words ["a"; "b"; "c"; "d"; "e"] 3 2
    = Some ["a b c"; "b c d"; "c d e"; "d e"; "e"] /\
  ~ (forall chunks, chunk_words ["a"; "b"; "c"; "d"; "e"] 3 2 = Some chunks ->
       forall (j : nat) chunk, nth_error chunks j = Some chunk ->
         (S j < List.length chunks)%nat ->
         List.length (split chunk) = 3%nat).
Proof.
  split; [reflexivity|].
  intros H. specialize (H _ eq_refl 3%nat "d e" eq_refl).
  simpl in H. specialize (H ltac:(lia)). discriminate H.
Qed.

(** C10: the chunking loop returns for every word list and every integer
    parameters: [len(words) + 1] tests of the loop condition are enough (and
    more fuel changes nothing), so [pdf_to_chunks] never diverges.  When
    [chunk_size <= overlap] the step is [chunk_size]; when the step is not
    positive the loop is left after its first iteration. *)
Theorem chunk_loop_terminates words chunk_size overlap :
  (exists chunks,
      chunk_words words chunk_size overlap = Some chunks /\
      forall fuel, (List.length words < fuel)%nat ->
        chunk_loop fuel words chunk_size (step_of chunk_size overlap) 0 []
        = Some chunks) /\
  (forall doc, pdf_to_chunks doc chunk_size overlap <> Diverge) /\
  (chunk_size <= overlap -> step_of chunk_size overlap = chunk_size) /\
  (step_of chunk_size overlap <= 0 ->
     forall i chunks, exists chunks',
       chunk_loop 1 words chunk_size (step_of chunk_size overlap) i chunks
       = Some chunks').
Proof.
  assert (T : forall ws, exists chunks, chunk_words ws chunk_size overlap = Some chunks).
  { intros ws. apply chunk_loop_returns. right. lia. }
  split; [|split; [|split]].
  - destruct (T words) as [chunks E]. exists chunks. split; [exact E|].
    intros fuel Hf. eapply chunk_loop_fuel_mono; [exact E|lia].
  - intros [pages|msg]; simpl; [|discriminate].
    destruct (filter _ pages); [discriminate|].
    destruct (T (split (join " " (s :: l)))) as [chunks ->]. discriminate.
  - intros H. unfold step_of. destruct (Z.gtb_spec chunk_size overlap); [lia|reflexivity].
  - intros H i chunks. apply chunk_loop_returns. left. lia.
Qed.

Lemma chunk_loop_terminates_witness :
  step_of 2 5 = 2 /\
  exists chunks', chunk_loop 1 ["a"; "b"] (-1) (step_of (-1) 0) 0 [] = Some chunks'.
Proof.
  split.
  - apply (chunk_loop_terminates [] 2 5). lia.
  - apply (chunk_loop_terminates ["a"; "b"] (-1) 0).
    change (step_of (-1) 0) with (-1). lia.
Defined.

End Chunker.

(** ** Index and search *)

Section Retrieval.

Import FaissUtils.
Local Open Scope R_scope.






















(** Of two stored vectors with the same score the one added first, with
    the lower label, comes first; and the search refuses [k = 0]. *)
Lemma equal_scores_lower_label_first x q :
  map fst (index_search_row [x; x] 2 q) = [0; 1]%Z /\
  index_search [x; x] [q] 0 = None.
Proof.
  split; [|reflexivity].
  unfold index_search_row, ranked, scored. cbn [List.length seq map combine fold_right].
  cbn [insert_desc snd].
  destruct (Rle_dec (dot q x) (dot q x)) as [_|Hn]; [reflexivity|].
  exfalso. apply Hn. lra.
Qed.









End Retrieval.

(** ** Retrieval in [ask] *)

Section AskRetrieval.

Import FaissUtils App.






End AskRetrieval.

(** ** The model client and [greet] *)

Section ModelClient.

Import OllamaUtils App.

Context `{PyRuntime}.

Lemma py_or_cases a b : py_or a b = a /\ json_truthy a = true \/ py_or a b = b.
Proof. unfold py_or. destruct (json_truthy a); auto. Qed.

Lemma str_cases s : json_truthy (JStr s) = true \/ s = "".
Proof. destruct s; simpl; auto. Qed.

(** What the API call can yield: something true, [None], or [""]. *)
Lemma query_ollama_api_range B prompt model opts :
  let api := query_ollama_api B prompt model opts in
  json_truthy api = true \/ api = JNull \/ api = JStr "".
Proof.
  unfold query_ollama_api.
  destruct (http_generate B model prompt opts) as [result|msg]; [|auto].
  destruct result as [ |b|z|l|s|items|fields];
    try (match goal with
         | |- context [JStr (py_str ?v)] =>
             destruct (str_cases (py_str v)) as [Ht| ->]; now auto
         end).
  destruct (py_or_cases (dict_get fields "response" JNull)
      (py_or (dict_get fields "text" JNull)
         (py_or (dict_get fields "output" JNull) (JStr "")))) as [[-> Ht]| ->];
      [auto|].
  destruct (py_or_cases (dict_get fields "text" JNull)
    (py_or (dict_get fields "output" JNull) (JStr ""))) as [[-> Ht]| ->];
    [auto|].
  destruct (py_or_cases (dict_get fields "output" JNull) (JStr ""))
    as [[-> Ht]| ->]; auto.
Qed.

(** C6: [query_ollama] calls the HTTP API first.  If its result is true
    (non-empty) the client returns it as a text without further call: the
    stripped string (for a [dict] or [list], its JSON text).  The subprocess
    fallback is invoked
    exactly when the API yields [None] or the empty string, and then decides
    the value returned; so [None] is returned only when the API gave nothing
    and the subprocess failed (it raised, or left with a non-zero code). *)
Theorem query_ollama_api_then_subprocess B prompt model opts :
  let api := query_ollama_api B prompt model opts in
  let calls := fst (query_ollama B prompt model opts) in
  let returned := snd (query_ollama B prompt model opts) in
  hd_error calls = Some CallApi /\
  (json_truthy api = true ->
     calls = [CallApi] /\
     returned = Some (match api with
                      | JObj _ | JArr _ => json_dumps api
                      | _ => strip (py_str api)
                      end) /\
     (forall s, api = JStr s -> returned = Some (strip s))) /\
  (In CallSubprocess calls <-> api = JNull \/ api = JStr "") /\
  (In CallSubprocess calls ->
     calls = [CallApi; CallSubprocess] /\
     returned = query_ollama_subprocess B prompt model) /\
  (returned = None ->
     (api = JNull \/ api = JStr "") /\
     query_ollama_subprocess B prompt model = None /\
     ((exists msg, run_ollama B model prompt = Err msg) \/
      exists code out err,
        run_ollama B model prompt = Ok (code, out, err) /\ code <> 0)).
Proof.
  intros api calls returned. subst calls returned. unfold query_ollama.
  fold api. pose proof (query_ollama_api_range B prompt model opts) as R.
  fold api in R. simpl in R.
  destruct (json_truthy api) eqn:Ht; simpl.
  - split; [reflexivity|]. split; [|split; [|split]].
    + intros _. split; [reflexivity|]. split; [reflexivity|].
      intros s ->. reflexivity.
    + split.
      * intros [D|[]]; discriminate D.
      * intros [E|E]; rewrite E in Ht; discriminate Ht.
    + intros [D|[]]; discriminate D.
    + discriminate.
  - assert (R' : api = JNull \/ api = JStr "")
      by (destruct R as [R|R]; [discriminate R|exact R]).
    split; [reflexivity|]. split; [discriminate|]. split; [|split].
    + split; [intros _; exact R'|intros _; right; now left].
    + intros _. split; reflexivity.
    + intros E. split; [exact R'|]. split; [exact E|].
      unfold query_ollama_subprocess in E.
      destruct (run_ollama B model prompt) as [[[code out] err]|msg].
      * right. exists code, out, err. split; [reflexivity|].
        destruct (Z.eqb_spec code 0); [discriminate E|assumption].
      * left. eauto.
Qed.

End ModelClient.

Section ModelClientExamples.

Import OllamaUtils App Examples.

Lemma query_ollama_api_then_subprocess_witness :
  snd (@query_ollama Reference.runtime answering_backend "hi" OLLAMA_MODEL default_options)
    = Some "Hello there." /\
  fst (@query_ollama Reference.runtime dead_backend "hi" OLLAMA_MODEL default_options)
    = [CallApi; CallSubprocess] /\
  @query_ollama_subprocess dead_backend "hi" OLLAMA_MODEL = None.
Proof.
  pose proof (@query_ollama_api_then_subprocess Reference.runtime
                answering_backend "hi" OLLAMA_MODEL default_options) as Ha.
  pose proof (@query_ollama_api_then_subprocess Reference.runtime
                dead_backend "hi" OLLAMA_MODEL default_options) as Hd.
  simpl in Ha, Hd.
  destruct Ha as (_ & Ha & _). destruct (Ha eq_refl) as (_ & _ & Hs).
  destruct Hd as (_ & _ & _ & Hc & Hn).
  destruct (Hc (or_intror (or_introl eq_refl))) as [Hcalls _].
  destruct (Hn eq_refl) as (_ & Hsub & _).
  split; [exact (Hs _ eq_refl)|]. split; [exact Hcalls|exact Hsub].
Defined.

End ModelClientExamples.

Section Greet.

Import OllamaUtils App.

(** C9: whatever the model client does -- a non-empty reply, an empty
    reply, [None], or an exception -- [greet] answers with status 200 and a
    JSON object whose only field, "greeting", is a string: the reply, the
    empty string, or the fixed greeting of the [except] branch.  With the
    client of this program, which never raises, so does the endpoint. *)
Theorem greet_total :
  (forall reply : result (option string),
     exists greeting,
       greet_with reply = {| status := 200;
                             body := JObj [("greeting", JStr greeting)] |}) /\
  (forall c text,
     greet_with (Ok (Some (String c text)))
     = {| status := 200; body := JObj [("greeting", JStr (String c text))] |}) /\
  greet_with (Ok (Some ""))
    = {| status := 200; body := JObj [("greeting", JStr "")] |} /\
  greet_with (Ok None)
    = {| status := 200; body := JObj [("greeting", JStr "")] |} /\
  (forall msg,
     greet_with (Err msg)
     = {| status := 200; body := JObj [("greeting", JStr fallback_greeting)] |}) /\
  (forall (RT : PyRuntime) (W : world),
     exists greeting,
       greet W = {| status := 200; body := JObj [("greeting", JStr greeting)] |}).
Proof.
  assert (G : forall reply : result (option string),
     exists greeting,
       greet_with reply = {| status := 200;
                             body := JObj [("greeting", JStr greeting)] |}).
  { intros [[[|c text]|]|msg]; simpl; eexists; reflexivity. }
  repeat split; try reflexivity; [exact G|].
  intros RT W. apply G.
Qed.

End Greet.

(** ** Upload *)

Section Upload.

Import FaissUtils OllamaUtils App DocumentUtils.

Context `{PyRuntime} (W : world).

(** An upload that goes through leaves the chunks of the new document
    and the index built from their embeddings. *)
Lemma upload_pdf_success st doc new_chunks model embeds :
  pdf_to_chunks doc default_chunk_size default_overlap = Return new_chunks ->
  match embedding_model st with Some m => Ok m | None => load_embedder W end
    = Ok model ->
  model new_chunks = Ok embeds ->
  exists st',
    upload_pdf W st (Some doc)
      = Some (st', json_response 200
                     [("status", JStr "ok");
                      ("chunk_count", JInt (Z.of_nat (List.length new_chunks)))]) /\
    chunks st' = Some new_chunks /\
    faiss_index st' = Some (build_faiss_index embeds).
Proof.
  intros Hc Hm He. unfold upload_pdf. rewrite Hc. simpl.
  rewrite Hm. simpl. rewrite He. eauto.
Qed.

(** An upload whose document cannot be chunked leaves the state alone. *)
Lemma upload_pdf_unreadable st doc msg :
  pdf_to_chunks doc default_chunk_size default_overlap = Raise msg ->
  upload_pdf W st (Some doc) = Some (st, error_response 500 msg).
Proof. intros Hc. unfold upload_pdf. now rewrite Hc. Qed.

(** An upload that fails after chunking -- the model cannot be loaded, or
    the embedding raises -- has already replaced the chunks, and answers
    500 with the index as it was. *)
Lemma upload_pdf_late_failure st doc new_chunks msg :
  pdf_to_chunks doc default_chunk_size default_overlap = Return new_chunks ->
  match (match embedding_model st with Some m => Ok m | None => load_embedder W end) with
  | Ok model => model new_chunks
  | Err e => Err e
  end = Err msg ->
  exists st',
    upload_pdf W st (Some doc) = Some (st', error_response 500 msg) /\
    chunks st' = Some new_chunks /\
    faiss_index st' = faiss_index st.
Proof.
  intros Hc Hf. unfold upload_pdf. rewrite Hc. simpl.
  destruct (match embedding_model st with Some m => Ok m | None => load_embedder W end)
    as [model|e].
  - simpl. rewrite Hf. eauto.
  - injection Hf as ->. eauto.
Qed.

End Upload.

Section UploadExample.

Import FaissUtils OllamaUtils App Examples.

(** C4, at a failing input: after one good upload, a second PDF is read and
    chunked, then its embedding raises.  The request answers 500, and the
    globals hold the chunks of the second PDF next to the index of the
    first. *)
Theorem upload_pdf_failed_embedding_mixes_state :
  @upload_pdf example_world initial_state (Some (Ok ["first document"]))
    = Some (after_first_upload,
            json_response 200 [("status", JStr "ok"); ("chunk_count", JInt 1)]) /\
  exists st',
    @upload_pdf example_world after_first_upload
       (Some (Ok ["second"; "document"]))
      = Some (st', error_response 500 "out of memory") /\
    chunks st' = Some ["second document"] /\
    faiss_index st' = faiss_index after_first_upload /\
    chunks st' <> chunks after_first_upload.
Proof.
  split; [reflexivity|].
  eexists. split; [reflexivity|]. simpl.
  split; [reflexivity|]. split; [reflexivity|]. discriminate.
Qed.

End UploadExample.

(** ** The response parser *)

Section ResponseParser.

Import OllamaUtils App.

Lemma length_drop n s : String.length (drop n s) = (String.length s - n)%nat.
Proof.
  revert s. induction n as [|n IH]; intros [|c s]; simpl; try reflexivity.
  apply IH.
Qed.

Lemma span_length p s :
  String.length s = (fst (span p s) + String.length (snd (span p s)))%nat.
Proof.
  induction s as [|c s IH]; simpl; [reflexivity|].
  destruct (p c); [|reflexivity].
  destruct (span p s) as [n r]. simpl in *. lia.
Qed.

Lemma prefix_length a b : String.prefix a b = true -> (String.length a <= String.length b)%nat.
Proof.
  revert b. induction a as [|x a IH]; intros [|y b]; simpl; try lia; try discriminate.
  destruct (ascii_dec x y); [|discriminate]. intros Hp. apply IH in Hp. lia.
Qed.

Lemma prefix_ci_length pat s :
  prefix_ci pat s = true -> (String.length pat <= String.length s)%nat.
Proof.
  revert s. induction pat as [|x a IH]; intros [|y b]; simpl; try lia; try discriminate.
  intros Hp. apply andb_prop in Hp. destruct Hp as [_ Hp]. apply IH in Hp. lia.
Qed.

(** Where [find] reports an occurrence there is room for it. *)
Lemma find_from_bounds sub s pos :
  find_from sub s pos = -1 \/
  (pos <= find_from sub s pos /\
   find_from sub s pos + len sub <= pos + len s).
Proof.
  unfold len. revert pos. induction s as [|c s IH]; intros pos; cbn [find_from].
  - destruct (String.prefix sub "") eqn:E; [|now left].
    right. apply prefix_length in E. simpl in E. lia.
  - destruct (String.prefix sub (String c s)) eqn:E.
    + right. apply prefix_length in E. simpl String.length in *. lia.
    + destruct (IH (pos + 1)) as [->|[H1 H2]]; [now left|].
      right. simpl String.length. lia.
Qed.

Lemma match_brace_bounds s i depth :
  match_brace s i depth = -1 \/
  (i <= match_brace s i depth /\ match_brace s i depth < i + len s).
Proof.
  unfold len. revert i depth. induction s as [|c s IH]; intros i depth; simpl;
    [now left|].
  assert (G : forall d, match_brace s (i + 1) d = -1 \/
     i <= match_brace s (i + 1) d /\
     match_brace s (i + 1) d < i + Z.of_nat (S (String.length s))).
  { intros d. destruct (IH (i + 1) d) as [->|[H1 H2]]; [now left|]. right. lia. }
  destruct (Ascii.eqb c "{"); [apply G|].
  destruct (Ascii.eqb c "}"); [|apply G].
  destruct (depth - 1 =? 0); [|apply G]. right. lia.
Qed.

Lemma lazy_brace_bounds s n0 n :
  lazy_brace s n0 = Some n -> (n0 <= n < n0 + String.length s)%nat.
Proof.
  revert n0. induction s as [|c s IH]; intros n0; simpl; [discriminate|].
  destruct (Ascii.eqb c "}" && fence_close s).
  - intros E. injection E as <-. lia.
  - intros E. apply IH in E. lia.
Qed.

Lemma fence_at_bounds s a b :
  fence_at s = Some (a, b) -> (a < b <= String.length s)%nat.
Proof.
  unfold fence_at. destruct (prefix_ci "```json" s) eqn:Hp; [|discriminate].
  apply prefix_ci_length in Hp. simpl in Hp.
  pose proof (span_length is_space (drop 7 s)) as Hs.
  rewrite length_drop in Hs.
  destruct (span is_space (drop 7 s)) as [w r]. simpl in Hs.
  destruct r as [|c inner]; [discriminate|].
  destruct c as [[] [] [] [] [] [] [] []]; try discriminate.
  destruct (lazy_brace inner 0) as [n|] eqn:El; [|discriminate].
  apply lazy_brace_bounds in El. simpl in Hs.
  intros E. injection E as <- <-. lia.
Qed.

Lemma search_fence_bounds s pos a b :
  search_fence s pos = Some (a, b) ->
  (pos <= a /\ a < b /\ b <= pos + String.length s)%nat.
Proof.
  revert pos. induction s as [|c s IH]; intros pos.
  - simpl. destruct (fence_at "") as [[x y]|] eqn:E; [|discriminate].
    apply fence_at_bounds in E. simpl in E. lia.
  - cbn [search_fence].
    destruct (fence_at (String c s)) as [[x y]|] eqn:E.
    + apply fence_at_bounds in E. simpl in E.
      intros G. injection G as <- <-. simpl. lia.
    + intros G. apply IH in G. simpl. lia.
Qed.

Context `{PyRuntime}.

Lemma brace_span_sound text :
  nothing (brace_span text) \/
  (decoded_span text (brace_span text) /\
   snd (fst (brace_span text)) = find text "{").
Proof.
  unfold brace_span.
  destruct (Z.eqb_spec (find text "{") (-1)) as [|Hf]; [now left|].
  set (first := find text "{") in *.
  destruct (Z.eqb_spec (match_brace (drop (Z.to_nat first) text) first 0) (-1))
    as [|He]; [now left|].
  set (end_idx := match_brace (drop (Z.to_nat first) text) first 0) in *.
  destruct (json_loads (substr text first (end_idx + 1))) as [parsed|] eqn:El;
    [|now left].
  right. split; [|reflexivity]. unfold decoded_span.
  destruct (find_from_bounds "{" text 0) as [E|[F1 F2]];
    [unfold first, find in Hf; contradiction|].
  fold (find text "{") in F1, F2. fold first in F1, F2.
  destruct (match_brace_bounds (drop (Z.to_nat first) text) first 0)
    as [E|[M1 M2]]; [unfold end_idx in He; contradiction|].
  fold end_idx in M1, M2. unfold len in *. rewrite length_drop in M2.
  simpl in F2. repeat split; try lia. now left.
Qed.

Lemma fenced_span_sound text :
  nothing (fenced_span text) \/ decoded_span text (fenced_span text).
Proof.
  unfold fenced_span.
  assert (B : nothing (brace_span text) \/ decoded_span text (brace_span text))
    by (destruct (brace_span_sound text) as [?|[? _]]; auto).
  destruct (search_fence text 0) as [[a b]|] eqn:Es; [|exact B].
  destruct (json_loads (substr text (Z.of_nat a) (Z.of_nat b))) as [parsed|] eqn:El;
    [|exact B].
  right. apply search_fence_bounds in Es. unfold decoded_span, len.
  repeat split; try lia. now left.
Qed.

(** The extractor is the search, among its three candidates in their
    order, for the first one that the decoder accepts. *)
Lemma extract_json_span_candidates text :
  _extract_json_span text
  = first_decoded [marker_candidate text; fence_candidate text;
                   brace_candidate text].
Proof.
  destruct text as [|c t]; [reflexivity|].
  set (text := String c t).
  assert (B : brace_span text = first_decoded [brace_candidate text]).
  { unfold brace_span, brace_candidate. cbn [first_decoded].
    destruct (find text "{" =? -1); [reflexivity|].
    destruct (match_brace (drop (Z.to_nat (find text "{")) text)
                (find text "{") 0 =? -1); [reflexivity|].
    now destruct (json_loads _). }
  assert (F : fenced_span text
              = first_decoded [fence_candidate text; brace_candidate text]).
  { unfold fenced_span, fence_candidate. cbn [first_decoded].
    cbn [first_decoded] in B.
    destruct (search_fence text 0) as [[a b]|]; [|exact B].
    destruct (json_loads _); [reflexivity|exact B]. }
  unfold _extract_json_span, marker_candidate. cbn [truthy negb text].
  fold text. cbn [first_decoded]. cbn [first_decoded] in F.
  destruct (contains start_marker text && contains end_marker text); [|exact F].
  destruct (find_at text end_marker (find text start_marker + len start_marker)
            >? find text start_marker + len start_marker); [|exact F].
  destruct (json_loads _); [reflexivity|exact F].
Qed.

(** C3 (as the code has it): the parser tries three candidates in a fixed
    order and returns the value and the span of the first one that
    [json.loads] accepts: the text between the markers (stripped), then
    group 1 of the first fenced block, then the text from the first opening
    brace of the reply to the brace that closes it; it returns [None] with
    span [(-1, -1)] when the decoder accepts none of them.  So what it
    returns is either [None] with [(-1, -1)] or a value with a span inside
    the reply such that the value is what [json.loads] makes of the text of
    that span (stripped, between the markers), and [None] when no part of
    the reply decodes.  Without markers and fence the span starts at the
    first opening brace of the reply: of several objects in a reply the
    first is extracted, not the trailing one. *)
Theorem extract_json_span_first_candidate text :
  let r := _extract_json_span text in
  (forall cand s e parsed,
     marker_candidate text = Some (cand, s, e) ->
     json_loads cand = Some parsed ->
     r = (parsed, s, e)) /\
  (rejected (marker_candidate text) ->
   forall cand s e parsed,
     fence_candidate text = Some (cand, s, e) ->
     json_loads cand = Some parsed ->
     r = (parsed, s, e)) /\
  (rejected (marker_candidate text) ->
   rejected (fence_candidate text) ->
   forall cand s e parsed,
     brace_candidate text = Some (cand, s, e) ->
     json_loads cand = Some parsed ->
     r = (parsed, s, e) /\ s = find text "{") /\
  (rejected (marker_candidate text) ->
   rejected (fence_candidate text) ->
   rejected (brace_candidate text) ->
   nothing r) /\
  (nothing r \/ decoded_span text r) /\
  ((forall s e, json_loads (substr text s e) = None /\
                json_loads (strip (substr text s e)) = None) ->
   nothing r) /\
  (contains start_marker text && contains end_marker text = false ->
   search_fence text 0 = None ->
   nothing r \/ snd (fst r) = find text "{").
Proof.
  intros r.
  assert (Skip : forall c rest,
            rejected c -> first_decoded (c :: rest) = first_decoded rest).
  { intros [[[cand s] e]|] rest Hr; cbn [first_decoded]; [|reflexivity].
    now rewrite (Hr cand s e eq_refl). }
  assert (Take : forall c rest cand s e parsed,
            c = Some (cand, s, e) -> json_loads cand = Some parsed ->
            first_decoded (c :: rest) = (parsed, s, e)).
  { intros c rest cand s e parsed -> El. cbn [first_decoded]. now rewrite El. }
  assert (Er : r = first_decoded [marker_candidate text; fence_candidate text;
                                  brace_candidate text])
    by apply extract_json_span_candidates.
  assert (S : nothing r \/ decoded_span text r).
  { subst r. clear Er. unfold _extract_json_span.
    destruct (truthy text); simpl; [|now left].
    destruct (contains start_marker text && contains end_marker text) eqn:Hm;
      [|apply fenced_span_sound].
    set (s := find text start_marker + len start_marker).
    destruct (Z.gtb_spec (find_at text end_marker s) s) as [Hgt|];
      [|apply fenced_span_sound].
    destruct (json_loads (strip (substr text s (find_at text end_marker s))))
      as [parsed|] eqn:El; [|apply fenced_span_sound].
    right. unfold decoded_span.
    apply andb_prop in Hm. destruct Hm as [Hs _].
    unfold contains in Hs. apply Z.leb_le in Hs.
    assert (Hs0 : 0 <= s) by (subst s; unfold len; lia).
    destruct (find_from_bounds end_marker (drop (Z.to_nat s) text) s)
      as [E|[F1 F2]]; [unfold find_at in Hgt; lia|].
    fold (find_at text end_marker s) in F1, F2.
    unfold len in *. rewrite length_drop in F2.
    repeat split; try lia. now right. }
  split; [|split; [|split; [|split; [|split; [exact S|split]]]]].
  - intros cand s e parsed Hc El. rewrite Er. eapply Take; eassumption.
  - intros Hm cand s e parsed Hc El. rewrite Er, (Skip _ _ Hm).
    eapply Take; eassumption.
  - intros Hm Hf cand s e parsed Hc El. split.
    + rewrite Er, (Skip _ _ Hm), (Skip _ _ Hf). eapply Take; eassumption.
    + unfold brace_candidate in Hc.
      destruct (find text "{" =? -1); [discriminate Hc|].
      destruct (match_brace _ _ _ =? -1); [discriminate Hc|].
      injection Hc as _ <- _. reflexivity.
  - intros Hm Hf Hb. unfold nothing.
    rewrite Er, (Skip _ _ Hm), (Skip _ _ Hf), (Skip _ _ Hb). reflexivity.
  - intros Hno. destruct S as [S|S]; [exact S|].
    unfold decoded_span in S. destruct r as [[parsed s] e].
    destruct S as (_ & _ & [E|E]); destruct (Hno s e) as [N1 N2]; congruence.
  - intros Hm Hf. subst r. clear Er. unfold _extract_json_span.
    destruct (truthy text); simpl; [|now left].
    rewrite Hm. unfold fenced_span. rewrite Hf.
    destruct (brace_span_sound text) as [?|[_ ?]]; auto.
Qed.

End ResponseParser.

Section ResponseParserExamples.

Import OllamaUtils App Examples.

Lemma extract_json_span_first_candidate_witness :
  @_extract_json_span Reference.runtime two_objects
    = (JObj [("a", JInt 1)], 0, 8) /\
  0 = find two_objects "{".
Proof.
  refine (proj1 (proj2 (proj2
    (@extract_json_span_first_candidate Reference.runtime two_objects)))
    _ _ (substr two_objects 0 8) 0 8 (JObj [("a", JInt 1)]) eq_refl eq_refl).
  - intros cand s e E. discriminate E.
  - intros cand s e E. discriminate E.
Defined.

(** C3 (as stated) fails: the reply [{"a": 1} and {"b": 2}] holds two JSON
    objects; its trailing object is [{"b": 2}], at span [(13, 21)], but the
    parser returns the first one, [{"a": 1}], with span [(0, 8)]. *)
Lemma extract_json_span_returns_first_object :
  @_extract_json_span Reference.runtime two_objects
    = (JObj [("a", JInt 1)], 0, 8) /\
  Reference.loads (substr two_objects 13 21) = Some (JObj [("b", JInt 2)]) /\
  len two_objects = 21 /\
  @_extract_json_span Reference.runtime two_objects
    <> (JObj [("b", JInt 2)], 13, 21).
Proof.
  split; [reflexivity|]. split; [reflexivity|]. split; [reflexivity|].
  vm_compute. discriminate.
Qed.

End ResponseParserExamples.

(** ** The fallback of [ask] *)

Section AskFallback.

Import FaissUtils OllamaUtils App.

Context `{PyRuntime} (W : world).

Lemma slice_min5 (l : list string) :
  slice l 0 (Z.min 5 (Z.of_nat (List.length l))) = slice l 0 5.
Proof.
  rewrite !slice_nonneg by lia. rewrite !Z.sub_0_r. simpl skipn.
  destruct (Z.le_gt_cases 5 (Z.of_nat (List.length l))).
  - now rewrite Z.min_l by lia.
  - rewrite Z.min_r by lia. rewrite !firstn_all2; [reflexivity| |]; lia.
Qed.

Lemma fallback_answer_sources raw retrieved :
  fallback_answer raw retrieved =
  json_response 200
    [("answer", JStr (strip raw));
     ("structured", JNull);
     ("sources", JArr (map JStr (heuristic_sources raw retrieved)));
     ("raw", JStr raw)].
Proof.
  unfold fallback_answer, heuristic_sources.
  destruct (_extract_sources_from_text raw) as [|x l]; [|reflexivity].
  destruct retrieved as [|c cs]; [reflexivity|].
  now rewrite slice_min5.
Qed.

(** Beside the fallback: a reply in which a JSON value that is not an
    object was found (an array or a scalar between the markers) makes the
    [try] block raise, which [ask] answers with status 500. *)
Lemma answer_reply_not_an_object retrieved raw structured s e :
  truthy (strip raw) = true ->
  _extract_json_span raw = (structured, s, e) ->
  structured <> JNull ->
  (forall d, structured <> JObj d) ->
  answer_reply retrieved (Some raw) = Err (no_attribute structured "get").
Proof.
  intros Hne Hj Hn Hd. unfold answer_reply. rewrite Hne.
  assert (Ht : truthy raw = true) by (destruct raw; [discriminate Hne|reflexivity]).
  rewrite Ht, Hj. simpl.
  destruct structured; try reflexivity; [contradiction|].
  now destruct (Hd fields).
Qed.

(** Where the fallback does take place: when the model client returns a
    reply that is not blank and from which [_extract_json_span] gets no
    value at all, the [try] block of [ask] ends normally, and [ask] answers
    with status 200: "answer" is the stripped reply, "structured" is null,
    "raw" is the reply, and "sources" are the snippets behind the
    "Source N:" patterns of the reply or, if it has none, the starts of the
    first five retrieved chunks. *)
Theorem ask_falls_back_to_raw_text
        st d question history chunk0 chunks_rest idx model
        q_emb raw_inds retrieved prompt raw :
  chunks st = Some (chunk0 :: chunks_rest) ->
  faiss_index st = Some idx ->
  embedding_model st = Some model ->
  d <> [] ->
  py_or (dict_get d "question" JNull) (JStr "") = JStr question ->
  truthy (strip question) = true ->
  py_or (dict_get d "history" (JArr [])) (JArr []) = history ->
  model [strip question] = Ok q_emb ->
  search_index idx q_emb 6 = Some raw_inds ->
  retrieve (chunk0 :: chunks_rest)
    (_normalize_and_extract_indices (OArray raw_inds)) = Some retrieved ->
  _build_soft_prompt (strip question) retrieved history 6 = Ok prompt ->
  snd (query_ollama (model_server W) prompt OLLAMA_MODEL ask_options) = Some raw ->
  truthy (strip raw) = true ->
  fst (fst (_extract_json_span raw)) = JNull ->
  let answer :=
    {| status := 200;
       body := JObj [("answer", JStr (strip raw));
                     ("structured", JNull);
                     ("sources", JArr (map JStr (heuristic_sources raw retrieved)));
                     ("raw", JStr raw)] |} in
  answer_reply retrieved (Some raw) = Ok answer /\
  ask_try W (strip question) history (chunk0 :: chunks_rest) idx model = Ok answer /\
  ask W st (Some (JObj d)) = answer.
Proof.
  intros Hc Hi Hm Hd Hq Hmsg Hh He Hs Hr Hp Hraw Hne Hj answer.
  assert (A : answer_reply retrieved (Some raw) = Ok answer).
  { unfold answer_reply. rewrite Hne.
    assert (Ht : truthy raw = true).
    { destruct raw; [discriminate Hne|reflexivity]. }
    rewrite Ht. simpl.
    destruct (_extract_json_span raw) as [[structured start_idx] end_idx].
    simpl in Hj. subst structured.
    now rewrite fallback_answer_sources. }
  assert (T : ask_try W (strip question) history (chunk0 :: chunks_rest) idx model
              = Ok answer).
  { unfold ask_try. rewrite He. cbn [bind]. rewrite Hs. cbn [bind or_raise].
    rewrite Hr. cbn [bind or_raise]. change (Z.of_nat 6) with 6.
    rewrite Hp. cbn [bind]. rewrite Hraw. exact A. }
  split; [exact A|]. split; [exact T|].
  unfold ask.
  assert (Hdata : py_or (JObj d) (JObj []) = JObj d).
  { unfold py_or. simpl. destruct d; [contradiction|reflexivity]. }
  rewrite Hdata, Hq, Hmsg, Hh, Hc, Hi, Hm. simpl. now rewrite T.
Qed.

End AskFallback.

Section AskFallbackExample.

Import FaissUtils OllamaUtils App Examples.

Lemma ask_falls_back_to_raw_text_witness :
  @ask Reference.runtime plain_world one_document (Some (JObj what_question))
  = {| status := 200;
       body := JObj [("answer", JStr "It is a test file. Source 1: first document");
                     ("structured", JNull);
                     ("sources", JArr [JStr "first document"]);
                     ("raw", JStr "It is a test file. Source 1: first document")] |}.
Proof.
  destruct (@_build_soft_prompt Reference.runtime "What is this?"
              ["first document"] (JArr []) 6) as [prompt|e] eqn:Ep;
    [|discriminate Ep].
  refine (proj2 (proj2
    (@ask_falls_back_to_raw_text Reference.runtime plain_world
       one_document what_question " What is this? " (JArr [])
       "first document" [] (build_faiss_index [[1%R; 0%R]]) constant_embedder
       [[1%R; 0%R]] [0; -1; -1; -1; -1; -1] ["first document"] prompt
       "It is a test file. Source 1: first document"
       eq_refl eq_refl eq_refl _ eq_refl eq_refl eq_refl eq_refl eq_refl
       eq_refl Ep eq_refl eq_refl eq_refl))).
  discriminate.
Defined.

(** C7, at a failing input: the model replies
    [hi <<<JSON_START>>>[1, 2]<<<JSON_END>>>].  The reply is not empty and
    holds no JSON object, not even a brace; but the text between the
    markers decodes, to a list, which the parser returns with its span.
    [ask] takes it for the structured answer and calls [get] on it: the
    [try] block raises, and [ask] answers with status 500 and the message
    of the [AttributeError], where the claim has it fall back to the raw
    reply with status 200. *)
Theorem ask_fails_on_json_array_reply :
  truthy (strip array_reply) = true /\
  contains "{" array_reply = false /\
  @_extract_json_span Reference.runtime array_reply
    = (JArr [JInt 1; JInt 2], 19, 25) /\
  substr array_reply 19 25 = "[1, 2]" /\
  snd (@query_ollama Reference.runtime array_backend "any prompt" OLLAMA_MODEL
         ask_options) = Some array_reply /\
  @answer_reply Reference.runtime ["first document"] (Some array_reply)
    = Err "'list' object has no attribute 'get'" /\
  @ask Reference.runtime array_world one_document (Some (JObj what_question))
    = error_response 500 "'list' object has no attribute 'get'" /\
  @ask Reference.runtime array_world one_document (Some (JObj what_question))
    <> @fallback_answer array_reply ["first document"].
Proof.
  assert (A : @ask Reference.runtime array_world one_document
                (Some (JObj what_question))
              = error_response 500 "'list' object has no attribute 'get'").
  { destruct (@_build_soft_prompt Reference.runtime "What is this?"
                ["first document"] (JArr []) 6) as [prompt|e] eqn:Ep;
      [|discriminate Ep].
    unfold ask. cbn [py_or json_truthy what_question dict_get String.eqb
                     Ascii.eqb Bool.eqb truthy].
    change (strip " What is this? ") with "What is this?".
    cbn [truthy negb one_document chunks faiss_index embedding_model].
    unfold ask_try. cbn [constant_embedder map bind].
    change (search_index (build_faiss_index [[1%R; 0%R]]) [[1%R; 0%R]] 6)
      with (Some [0; -1; -1; -1; -1; -1]).
    cbn [or_raise bind].
    change (retrieve ["first document"]
              (_normalize_and_extract_indices (OArray [0; -1; -1; -1; -1; -1])))
      with (Some ["first document"]).
    cbn [or_raise bind]. change (Z.of_nat 6) with 6. rewrite Ep. cbn [bind].
    reflexivity. }
  repeat split; try reflexivity; try exact A.
  rewrite A. discriminate.
Qed.

End AskFallbackExample.

(* ================================================================== *)
(** * Further properties of the program *)
(* ================================================================== *)

(** ** More facts about the Python built-ins *)

Section PyMoreFacts.

Lemma rstrip_fixed s : rstrip (rstrip s) = rstrip s.
Proof.
  induction s as [|c s IH]; simpl; [reflexivity|].
  destruct (rstrip s) as [|d r] eqn:E.
  - destruct (is_space c) eqn:Ec; simpl; [reflexivity|now rewrite Ec].
  - cbn [rstrip]. cbn [rstrip] in IH. rewrite IH. reflexivity.
Qed.

Lemma lstrip_head s :
  lstrip s = EmptyString \/
  exists c r, lstrip s = String c r /\ is_space c = false.
Proof.
  induction s as [|c s IH]; simpl; [now left|].
  destruct (is_space c) eqn:E; [exact IH|]. right. eauto.
Qed.

Lemma lstrip_fixed_head c r : is_space c = false -> lstrip (String c r) = String c r.
Proof. intros E. simpl. now rewrite E. Qed.

Lemma rstrip_head c r :
  is_space c = false -> exists r', rstrip (String c r) = String c r'.
Proof.
  intros E. simpl. destruct (rstrip r); [rewrite E|]; eauto.
Qed.

(** What [strip] returns has no white space at either end. *)
Lemma strip_ends s : lstrip (strip s) = strip s /\ rstrip (strip s) = strip s.
Proof.
  unfold strip. split; [|apply rstrip_fixed].
  destruct (lstrip_head s) as [->|(c & r & -> & Ec)]; [reflexivity|].
  destruct (rstrip_head c r Ec) as [r' ->]. now apply lstrip_fixed_head.
Qed.

Lemma strip_idempotent s : strip (strip s) = strip s.
Proof.
  destruct (strip_ends s) as [Hl Hr]. unfold strip at 1. now rewrite Hl, Hr.
Qed.

Lemma all_chars_lstrip p s : all_chars p s = true -> all_chars p (lstrip s) = true.
Proof.
  induction s as [|c s IH]; simpl; [auto|].
  intros Hp. destruct (is_space c); [|exact Hp].
  apply andb_prop in Hp. now apply IH.
Qed.

Lemma all_chars_rstrip p s : all_chars p s = true -> all_chars p (rstrip s) = true.
Proof.
  induction s as [|c s IH]; simpl; [auto|].
  intros Hp. apply andb_prop in Hp. destruct Hp as [Hc Hs].
  specialize (IH Hs).
  destruct (rstrip s) as [|d r].
  - destruct (is_space c); simpl; [reflexivity|now rewrite Hc].
  - cbn [all_chars]. cbn [all_chars] in IH. now rewrite Hc, IH.
Qed.

Lemma all_chars_strip p s : all_chars p s = true -> all_chars p (strip s) = true.
Proof. intros Hp. unfold strip. now apply all_chars_rstrip, all_chars_lstrip. Qed.

Lemma all_chars_list p s :
  all_chars p s = forallb p (list_ascii_of_string s).
Proof. induction s as [|c s IH]; simpl; congruence. Qed.

Lemma all_chars_of_list p l :
  all_chars p (string_of_list_ascii l) = forallb p l.
Proof. induction l as [|c l IH]; simpl; congruence. Qed.

Lemma forallb_firstn {A} (p : A -> bool) n l :
  forallb p l = true -> forallb p (firstn n l) = true.
Proof.
  revert l. induction n as [|n IH]; intros [|x l]; simpl; auto.
  intros Hp. apply andb_prop in Hp. destruct Hp as [-> Hl]. now apply IH.
Qed.

Lemma forallb_skipn {A} (p : A -> bool) n l :
  forallb p l = true -> forallb p (skipn n l) = true.
Proof.
  revert l. induction n as [|n IH]; intros [|x l]; simpl; auto.
  intros Hp. apply andb_prop in Hp. destruct Hp as [_ Hl]. now apply IH.
Qed.

Lemma all_chars_substr p s a b :
  all_chars p s = true -> all_chars p (substr s a b) = true.
Proof.
  intros Hp. unfold substr, slice. rewrite all_chars_of_list.
  apply forallb_firstn, forallb_skipn. now rewrite <- all_chars_list.
Qed.

Lemma length_string_of_list l :
  String.length (string_of_list_ascii l) = List.length l.
Proof. induction l as [|c l IH]; simpl; congruence. Qed.

Lemma length_list_of_string s :
  List.length (list_ascii_of_string s) = String.length s.
Proof. induction s as [|c s IH]; simpl; congruence. Qed.

(** [len(s[:n])] *)
Lemma substr_prefix_length s n :
  0 <= n -> len (substr s 0 n) = Z.min n (len s).
Proof.
  intros Hn. unfold len, substr. rewrite length_string_of_list.
  rewrite slice_length by lia. rewrite length_list_of_string. lia.
Qed.

(** A text without visible character has no word. *)
Lemma split_blank s : all_space s = true -> split s = [].
Proof.
  induction s as [|c s IH]; simpl; [reflexivity|].
  intros Hs. apply andb_prop in Hs. destruct Hs as [-> Hs]. now apply IH.
Qed.

Lemma split_visible_nonempty s : all_space s = false -> split s <> [].
Proof.
  induction s as [|c s IH]; simpl; [discriminate|].
  destruct (is_space c); simpl; [exact IH|].
  intros _. destruct s as [|c' s']; [discriminate|].
  destruct (is_space c'); [discriminate|].
  destruct (split (String c' s')); discriminate.
Qed.

(** What [split] returns are words. *)
Lemma split_words s : Forall (fun w => is_word w = true) (split s).
Proof.
  induction s as [|c s IH]; simpl; [constructor|].
  destruct (is_space c) eqn:Ec; [exact IH|].
  assert (H1 : is_word (String c EmptyString) = true) by (simpl; now rewrite Ec).
  destruct s as [|c' s']; [repeat constructor; exact H1|].
  destruct (is_space c') eqn:Ec'.
  - constructor; [exact H1|exact IH].
  - destruct (split (String c' s')) as [|w ws]; [repeat constructor; exact H1|].
    inversion IH as [|? ? Hw Hws]; subst. constructor; [|exact Hws].
    destruct w as [|d w]; [discriminate Hw|].
    simpl in *. now rewrite Ec.
Qed.

Lemma split_word w : is_word w = true -> split w = [w].
Proof.
  induction w as [|c w IH]; [discriminate|].
  intros Hw. simpl in Hw. apply andb_prop in Hw. destruct Hw as [Hc Hw].
  apply negb_true_iff in Hc. cbn [split]. rewrite Hc.
  destruct w as [|c' w']; [reflexivity|].
  assert (Hw' : is_word (String c' w') = true) by exact Hw.
  simpl in Hw. apply andb_prop in Hw. destruct Hw as [Hc' _].
  apply negb_true_iff in Hc'. rewrite Hc', (IH Hw'). reflexivity.
Qed.

Lemma split_word_space w s :
  is_word w = true ->
  split (String.append w (String " " s)) = w :: split s.
Proof.
  induction w as [|c w IH]; [discriminate|].
  intros Hw. simpl in Hw. apply andb_prop in Hw. destruct Hw as [Hc Hw].
  apply negb_true_iff in Hc.
  destruct w as [|c' w'].
  - change (String.append (String c EmptyString) (String " " s))
      with (String c (String " " s)).
    cbn [split]. rewrite Hc. reflexivity.
  - assert (Hw' : is_word (String c' w') = true) by exact Hw.
    simpl in Hw. apply andb_prop in Hw. destruct Hw as [Hc' _].
    apply negb_true_iff in Hc'.
    specialize (IH Hw').
    change (String.append (String c (String c' w')) (String " " s))
      with (String c (String c' (String.append w' (String " " s)))).
    change (String.append (String c' w') (String " " s))
      with (String c' (String.append w' (String " " s))) in IH.
    cbn [split]. cbn [split] in IH. rewrite Hc, Hc'. rewrite Hc' in IH.
    rewrite IH. reflexivity.
Qed.

(** Joining words with a space and splitting again gives the words back. *)
Lemma split_join ws :
  Forall (fun w => is_word w = true) ws -> split (join " " ws) = ws.
Proof.
  induction 1 as [|w ws Hw Hws IH]; [reflexivity|].
  destruct ws as [|w' ws']; [now apply split_word|].
  change (join " " (w :: w' :: ws'))
    with (String.append w (String " " (join " " (w' :: ws')))).
  now rewrite split_word_space, IH.
Qed.

Lemma word_visible w : is_word w = true -> truthy (strip w) = true.
Proof.
  destruct w as [|c w]; [discriminate|]. simpl. intros Hw.
  apply andb_prop in Hw. destruct Hw as [Hc _]. apply negb_true_iff in Hc.
  rewrite strip_truthy. simpl. now rewrite Hc.
Qed.

Lemma append_assoc_string a b c :
  String.append (String.append a b) c = String.append a (String.append b c).
Proof. induction a as [|x a IH]; simpl; congruence. Qed.

End PyMoreFacts.

(** ** More on the chunker *)

Section ChunkerMore.

Import DocumentUtils.

Lemma Forall_slice {A} (P : A -> Prop) (l : list A) a b :
  Forall P l -> Forall P (slice l a b).
Proof.
  intros Hl. unfold slice. rewrite Forall_forall in *. intros x Hx.
  apply Hl.
  set (n := Z.to_nat (slice_bound (Z.of_nat (List.length l)) a)) in *.
  rewrite <- (firstn_skipn n l). apply in_or_app. right.
  set (m := Z.to_nat _) in Hx.
  rewrite <- (firstn_skipn m (skipn n l)). apply in_or_app. now left.
Qed.

(** The chunks the loop builds, as a list of windows. *)
Lemma chunk_words_windows words cs ov :
  0 <= ov < cs ->
  Forall (fun w => is_word w = true) words ->
  chunk_words words cs ov =
  Some (map (fun k => join " " (window words cs (Z.of_nat k * (cs - ov))))
            (seq 0 (windows_from (Z.of_nat (List.length words)) (cs - ov) 0))).
Proof.
  intros Hp Hw. unfold chunk_words, step_of.
  destruct (Z.gtb_spec cs ov); [|lia].
  rewrite chunk_loop_windows; try lia.
  - reflexivity.
  - eapply Forall_impl; [|exact Hw]. intros w. apply word_visible.
Qed.

Lemma nth_error_windows words cs step (j : nat) chunk :
  nth_error
    (map (fun k => join " " (window words cs (Z.of_nat k * step)))
         (seq 0 (windows_from (Z.of_nat (List.length words)) step 0))) j
  = Some chunk ->
  (j < windows_from (Z.of_nat (List.length words)) step 0)%nat /\
  chunk = join " " (window words cs (Z.of_nat j * step)).
Proof.
  rewrite nth_error_map, nth_error_seq.
  destruct (Nat.ltb_spec j (windows_from (Z.of_nat (List.length words)) step 0));
    simpl; [|discriminate].
  intros E. injection E as <-. split; [assumption|reflexivity].
Qed.

(** X1: Every chunk, split on white space again, gives exactly the words of
    its window: between one and [chunk_size] words, none of them lost or
    glued to a neighbour. *)
Theorem chunk_splits_into_its_window words chunk_size overlap chunks :
  0 <= overlap < chunk_size ->
  Forall (fun w => is_word w = true) words ->
  chunk_words words chunk_size overlap = Some chunks ->
  forall (j : nat) chunk,
    nth_error chunks j = Some chunk ->
    split chunk = window words chunk_size (Z.of_nat j * (chunk_size - overlap)) /\
    1 <= Z.of_nat (List.length (split chunk)) <= chunk_size /\
    truthy (strip chunk) = true.
Proof.
  intros Hp Hw Hc j chunk Hj.
  rewrite chunk_words_windows in Hc by assumption. injection Hc as <-.
  apply nth_error_windows in Hj. destruct Hj as [Hj ->].
  assert (Hs : split (join " " (window words chunk_size
                                  (Z.of_nat j * (chunk_size - overlap))))
               = window words chunk_size (Z.of_nat j * (chunk_size - overlap))).
  { apply split_join. apply Forall_slice. exact Hw. }
  apply windows_from_bound in Hj; [|lia].
  assert (Hl : 1 <= Z.of_nat (List.length
            (window words chunk_size (Z.of_nat j * (chunk_size - overlap))))
          <= chunk_size).
  { unfold window. rewrite slice_length by nia. nia. }
  split; [exact Hs|]. split; [now rewrite Hs|].
  rewrite strip_truthy.
  destruct (all_space (join " " (window words chunk_size
              (Z.of_nat j * (chunk_size - overlap))))) eqn:E; [|reflexivity].
  apply split_blank in E. rewrite Hs in E. rewrite E in Hl. simpl in Hl. lia.
Qed.

Lemma chunk_splits_into_its_window_witness :
  split "c d e" = window (split "a b c d e") 3 (Z.of_nat 2 * (3 - 2)).
Proof.
  exact (proj1 (chunk_splits_into_its_window (split "a b c d e") 3 2
                  ["a b c"; "b c d"; "c d e"; "d e"; "e"]
                  ltac:(lia) (split_words _) eq_refl 2%nat "c d e" eq_refl)).
Defined.

(** X2: No word of the text is lost: the word at position [p] is word number
    [p - j * step] of chunk [j = p / step]. *)
Theorem every_word_in_a_chunk words chunk_size overlap chunks :
  0 <= overlap < chunk_size ->
  Forall (fun w => is_word w = true) words ->
  chunk_words words chunk_size overlap = Some chunks ->
  forall (p : nat) word,
    nth_error words p = Some word ->
    let step := chunk_size - overlap in
    let j := Z.to_nat (Z.of_nat p / step) in
    exists chunk,
      nth_error chunks j = Some chunk /\
      nth_error (split chunk) (p - j * Z.to_nat step) = Some word.
Proof.
  intros Hp Hw Hc p word Hword step j.
  assert (Hs : 0 < step) by (subst step; lia).
  assert (Hplen : (p < List.length words)%nat)
    by (apply nth_error_Some; congruence).
  pose proof (Z.mul_div_le (Z.of_nat p) step Hs) as Hlo.
  pose proof (Z.mod_pos_bound (Z.of_nat p) step Hs) as Hmod.
  pose proof (Z.div_mod (Z.of_nat p) step ltac:(lia)) as Hdm.
  assert (Hq : 0 <= Z.of_nat p / step) by (apply Z.div_pos; lia).
  assert (Hj : (j < windows_from (Z.of_nat (List.length words)) step 0)%nat).
  { unfold windows_from. subst j.
    assert (Z.of_nat p / step < (Z.of_nat (List.length words) - 0 + step - 1) / step);
      [|lia].
    replace (Z.of_nat (List.length words) - 0 + step - 1)
      with ((Z.of_nat (List.length words) - 1) + 1 * step) by lia.
    rewrite Z.div_add by lia.
    assert (Z.of_nat p / step <= (Z.of_nat (List.length words) - 1) / step)
      by (apply Z.div_le_mono; lia).
    lia. }
  rewrite chunk_words_windows in Hc by assumption. injection Hc as <-.
  exists (join " " (window words chunk_size (Z.of_nat j * step))).
  fold step. split.
  - rewrite nth_error_map, nth_error_seq.
    destruct (Nat.ltb_spec j (windows_from (Z.of_nat (List.length words)) step 0));
      [reflexivity|lia].
  - rewrite split_join by (apply Forall_slice; exact Hw).
    assert (Ej : Z.of_nat j = Z.of_nat p / step) by (subst j; lia).
    rewrite window_contiguous by nia.
    rewrite nth_error_firstn, nth_error_skipn.
    destruct (Nat.ltb_spec (p - j * Z.to_nat step) (Z.to_nat chunk_size)) as [|Hge].
    + rewrite <- Hword. f_equal. nia.
    + exfalso. nia.
Qed.

Lemma every_word_in_a_chunk_witness :
  exists chunk,
    nth_error ["a b c"; "b c d"; "c d e"; "d e"; "e"] (Z.to_nat (Z.of_nat 3 / (3 - 2)))
      = Some chunk /\
    nth_error (split chunk) (3 - Z.to_nat (Z.of_nat 3 / (3 - 2)) * Z.to_nat (3 - 2))
      = Some "d".
Proof.
  exact (every_word_in_a_chunk (split "a b c d e") 3 2
           ["a b c"; "b c d"; "c d e"; "d e"; "e"]
           ltac:(lia) (split_words _) eq_refl 3%nat "d" eq_refl).
Defined.

(** Windows that follow each other without overlap make up the words
    from the first window on. *)
Lemma windows_concat words cs (n : nat) i :
  0 < cs -> 0 <= i ->
  (Z.to_nat (Z.of_nat (List.length words) - i) <= n)%nat ->
  List.concat (map (fun k => window words cs (i + Z.of_nat k * cs))
              (seq 0 (windows_from (Z.of_nat (List.length words)) cs i)))
  = skipn (Z.to_nat i) words.
Proof.
  intros Hc. revert i. induction n as [|n IH]; intros i Hi Hn.
  - rewrite windows_from_done by lia. simpl.
    symmetry. apply skipn_all2. lia.
  - destruct (Z.lt_ge_cases i (Z.of_nat (List.length words))) as [Hlt|Hge].
    + rewrite windows_from_step by lia. cbn [seq map List.concat].
      rewrite <- seq_shift, map_map.
      rewrite (map_ext _ (fun k => window words cs (i + cs + Z.of_nat k * cs)))
        by (intros k; f_equal; rewrite Nat2Z.inj_succ; ring).
      rewrite IH by lia.
      rewrite Z.mul_0_l, Z.add_0_r, window_contiguous by lia.
      replace (Z.to_nat (i + cs)) with (Z.to_nat cs + Z.to_nat i)%nat by lia.
      rewrite <- skipn_skipn. apply firstn_skipn.
    + rewrite windows_from_done by lia. simpl.
      symmetry. apply skipn_all2. lia.
Qed.

(** X3: Without effective overlap -- [overlap = 0], or an overlap of at least
    [chunk_size], which the step ignores -- the chunks partition the words:
    split again and put end to end they give the word list back, each word
    once. *)
Theorem chunks_partition_words words chunk_size overlap :
  0 < chunk_size ->
  overlap = 0 \/ chunk_size <= overlap ->
  Forall (fun w => is_word w = true) words ->
  exists chunks,
    chunk_words words chunk_size overlap = Some chunks /\
    List.concat (map split chunks) = words /\
    split (join " " chunks) = words.
Proof.
  intros Hc Ho Hw.
  assert (Hstep : step_of chunk_size overlap = chunk_size).
  { unfold step_of. destruct (Z.gtb_spec chunk_size overlap); lia. }
  exists (map (fun k => join " " (window words chunk_size (0 + Z.of_nat k * chunk_size)))
              (seq 0 (windows_from (Z.of_nat (List.length words)) chunk_size 0))).
  assert (Hcat : List.concat (map split
            (map (fun k => join " " (window words chunk_size (0 + Z.of_nat k * chunk_size)))
               (seq 0 (windows_from (Z.of_nat (List.length words)) chunk_size 0))))
          = words).
  { rewrite map_map.
    rewrite (map_ext _ (fun k => window words chunk_size (0 + Z.of_nat k * chunk_size)))
      by (intros k; apply split_join, Forall_slice; exact Hw).
    rewrite (windows_concat words chunk_size (List.length words)) by lia.
    reflexivity. }
  split; [|split; [exact Hcat|]].
  - unfold chunk_words. rewrite Hstep.
    rewrite chunk_loop_windows; try lia; [reflexivity|].
    eapply Forall_impl; [|exact Hw]. intros w. apply word_visible.
  - rewrite <- Hcat at 2.
    set (chunks := map _ _).
    assert (Hchunks : Forall (fun c => exists ws,
               Forall (fun w => is_word w = true) ws /\ c = join " " ws) chunks).
    { subst chunks. rewrite Forall_map. apply Forall_forall. intros k _.
      eexists. split; [|reflexivity]. apply Forall_slice. exact Hw. }
    clearbody chunks. clear Hcat.
    assert (G : forall cs, Forall (fun c => exists ws,
               Forall (fun w => is_word w = true) ws /\ c = join " " ws) cs ->
               Forall (fun w => is_word w = true) (List.concat (map split cs)) /\
               split (join " " cs) = List.concat (map split cs));
      [|now apply G].
    clear. induction 1 as [|c cs (ws & Hws & ->) Hcs [IHw IH]]; [split; [constructor|reflexivity]|].
    cbn [map List.concat]. rewrite (split_join ws Hws).
    split; [apply Forall_app; now split|].
    destruct cs as [|c' cs'].
    + simpl. rewrite app_nil_r. now apply split_join.
    + change (join " " (join " " ws :: c' :: cs'))
        with (String.append (join " " ws) (String " " (join " " (c' :: cs')))).
      rewrite <- IH. clear IH IHw Hcs.
      induction Hws as [|w ws Hw Hws IHws]; [reflexivity|].
      destruct ws as [|w' ws'].
      * simpl join at 1. now rewrite split_word_space.
      * change (join " " (w :: w' :: ws'))
          with (String.append w (String " " (join " " (w' :: ws')))).
        rewrite append_assoc_string. cbn [String.append].
        rewrite split_word_space by exact Hw.
        rewrite IHws. reflexivity.
Qed.

Lemma chunks_partition_words_witness :
  exists chunks,
    chunk_words (split "a b c d e") 2 7 = Some chunks /\
    List.concat (map split chunks) = split "a b c d e" /\
    split (join " " chunks) = split "a b c d e".
Proof.
  assert (Hc : 0 < 2) by lia.
  assert (Ho : 7 = 0 \/ 2 <= 7) by (right; lia).
  exact (chunks_partition_words (split "a b c d e") 2 7 Hc Ho (split_words _)).
Defined.

Lemma filter_visible_nil pages :
  filter (fun page_text => truthy (strip page_text)) pages = [] <->
  forallb all_space pages = true.
Proof.
  induction pages as [|x pages IH]; simpl; [tauto|].
  rewrite strip_truthy. destruct (all_space x); simpl; [exact IH|].
  split; discriminate.
Qed.

Lemma join_head_visible x l : all_space x = false -> all_space (join " " (x :: l)) = false.
Proof.
  intros Hx. destruct l as [|y l]; [exact Hx|].
  change (join " " (x :: y :: l))
    with (String.append x (String.append " " (join " " (y :: l)))).
  now rewrite all_space_append, Hx.
Qed.

(** X4: How [pdf_to_chunks] ends, for [chunk_size > overlap >= 0]: with the
    reader's exception when the file cannot be read; with "No text found in
    PDF" exactly when every page is blank; otherwise with a list of chunks
    that is not empty and holds no blank chunk. *)
Theorem pdf_to_chunks_outcome doc chunk_size overlap :
  0 <= overlap < chunk_size ->
  match doc with
  | Err msg => pdf_to_chunks doc chunk_size overlap = Raise msg
  | Ok pages =>
      if forallb all_space pages
      then pdf_to_chunks doc chunk_size overlap = Raise "No text found in PDF"
      else exists chunks,
             pdf_to_chunks doc chunk_size overlap = Return chunks /\
             chunks <> [] /\
             Forall (fun chunk => truthy (strip chunk) = true) chunks
  end.
Proof.
  intros Hp. destruct doc as [pages|msg]; [|reflexivity].
  destruct (forallb all_space pages) eqn:Hb.
  - apply filter_visible_nil in Hb. unfold pdf_to_chunks. now rewrite Hb.
  - unfold pdf_to_chunks.
    destruct (filter (fun page_text => truthy (strip page_text)) pages)
      as [|x l] eqn:Ef.
    { apply filter_visible_nil in Ef. congruence. }
    assert (Hx : all_space x = false).
    { assert (Hin : In x (filter (fun page_text => truthy (strip page_text)) pages))
        by (rewrite Ef; now left).
      apply filter_In in Hin. destruct Hin as [_ Hin].
      rewrite strip_truthy in Hin. now destruct (all_space x). }
    set (words := split (join " " (x :: l))).
    assert (Hw : Forall (fun w => is_word w = true) words) by apply split_words.
    assert (Hne : words <> [])
      by (apply split_visible_nonempty, join_head_visible, Hx).
    rewrite chunk_words_windows by assumption.
    eexists. split; [reflexivity|]. split.
    + rewrite (windows_from_step _ _ 0) by (destruct words; [congruence|simpl; lia]).
      discriminate.
    + rewrite Forall_map. apply Forall_forall. intros k Hk.
      apply in_seq in Hk.
      assert (Hk' : Z.of_nat k * (chunk_size - overlap) < Z.of_nat (List.length words))
        by (apply windows_from_bound; lia).
      rewrite strip_truthy.
      destruct (all_space (join " " (window words chunk_size
                  (Z.of_nat k * (chunk_size - overlap))))) eqn:E; [|reflexivity].
      apply split_blank in E.
      rewrite split_join in E by (apply Forall_slice; exact Hw).
      apply (f_equal (@List.length _)) in E.
      apply (f_equal Z.of_nat) in E. unfold window in E.
      rewrite slice_length in E by nia. simpl in E. nia.
Qed.

Lemma pdf_to_chunks_outcome_witness :
  pdf_to_chunks (Ok ["  "; ""]) default_chunk_size default_overlap
    = Raise "No text found in PDF" /\
  exists chunks,
    pdf_to_chunks (Ok ["  "; "some text"]) default_chunk_size default_overlap
      = Return chunks /\ chunks <> [].
Proof.
  assert (Hp : 0 <= default_overlap < default_chunk_size)
    by (unfold default_overlap, default_chunk_size; lia).
  split.
  - exact (pdf_to_chunks_outcome (Ok ["  "; ""]) _ _ Hp).
  - destruct (pdf_to_chunks_outcome (Ok ["  "; "some text"]) _ _ Hp)
      as (chunks & E & Hne & _).
    exists chunks. split; assumption.
Defined.

(** X5: What [clean_text] returns has no white space at either end, its only
    white space is the space character, and it holds no character of the
    class of artifacts (control characters and code points 127 to 255). *)
Theorem clean_text_is_clean text :
  strip (clean_text text) = clean_text text /\
  all_chars (fun c => negb (is_artifact c)
                      && (negb (is_space c) || Ascii.eqb c " "))
            (clean_text text) = true.
Proof.
  unfold clean_text. split; [apply strip_idempotent|].
  apply all_chars_strip.
  assert (C : forall b t,
             all_chars (fun c => negb (is_space c) || Ascii.eqb c " ")
                       (collapse_spaces b t) = true).
  { intros b t. revert b. induction t as [|c t IH]; intros b; simpl; [reflexivity|].
    destruct (is_space c) eqn:Ec.
    - destruct b; [apply IH|]. simpl. apply IH.
    - simpl. rewrite Ec. simpl. apply IH. }
  generalize (C false text). generalize (collapse_spaces false text).
  intros t. induction t as [|c t IH]; simpl; [reflexivity|].
  intros Ht. apply andb_prop in Ht. destruct Ht as [Hc Ht].
  destruct (is_artifact c) eqn:Ea; [now apply IH|].
  simpl. rewrite Ea, Hc. simpl. now apply IH.
Qed.

End ChunkerMore.

(** ** More on the model client *)

Section ModelClientMore.

Import OllamaUtils App.

Context `{PyRuntime}.

Lemma strip_blank s : all_space s = true -> strip s = "".
Proof.
  intros Hs. pose proof (strip_truthy s) as Ht. rewrite Hs in Ht.
  now destruct (strip s).
Qed.

Lemma strip_empty_iff s : String.eqb (strip s) "" = all_space s.
Proof.
  pose proof (strip_truthy s) as Ht.
  destruct (strip s); destruct (all_space s); simpl in *; congruence.
Qed.

(** X9: A reply of the API that is made of white space only counts as a
    result: the client returns the empty string and does not try the
    subprocess. *)
Theorem query_ollama_blank_api_reply B prompt model opts c rest :
  query_ollama_api B prompt model opts = JStr (String c rest) ->
  all_space (String c rest) = true ->
  query_ollama B prompt model opts = ([CallApi], Some "").
Proof.
  intros Ha Hb. unfold query_ollama. rewrite Ha. simpl json_truthy. cbv iota.
  simpl py_str. now rewrite strip_blank.
Qed.

(** A JSON object of the API without a true "response", "text" or
    "output" leaves the answer to the subprocess. *)
Theorem query_ollama_missing_fields B prompt model opts result :
  http_generate B model prompt opts = Ok (JObj result) ->
  json_truthy (dict_get result "response" JNull) = false ->
  json_truthy (dict_get result "text" JNull) = false ->
  json_truthy (dict_get result "output" JNull) = false ->
  query_ollama_api B prompt model opts = JStr "" /\
  query_ollama B prompt model opts
    = ([CallApi; CallSubprocess], query_ollama_subprocess B prompt model).
Proof.
  intros Hh H1 H2 H3.
  assert (E : query_ollama_api B prompt model opts = JStr "").
  { unfold query_ollama_api. rewrite Hh. unfold py_or. now rewrite H1, H2, H3. }
  split; [exact E|]. unfold query_ollama. now rewrite E.
Qed.

(** X10: The connection test succeeds exactly when the client returns a text
    that is not blank; it fails when the API gives nothing and the
    subprocess raises or leaves with a non-zero code. *)
Theorem test_ollama_connection_spec B model :
  let reply := snd (query_ollama B "Say 'OK' if you can read this." model default_options) in
  (test_ollama_connection B model = true <->
   exists text, reply = Some text /\ all_space text = false) /\
  (json_truthy (query_ollama_api B "Say 'OK' if you can read this." model default_options)
     = false ->
   (forall code out err,
      run_ollama B model "Say 'OK' if you can read this." = Ok (code, out, err) ->
      code <> 0) ->
   test_ollama_connection B model = false).
Proof.
  intros reply. unfold test_ollama_connection. fold reply. split.
  - destruct reply as [text|].
    + rewrite strip_empty_iff. split.
      * intros Ht. exists text. split; [reflexivity|]. now destruct (all_space text).
      * intros (t & E & Ht). injection E as <-. now rewrite Ht.
    + split; [discriminate|]. intros (t & E & _). discriminate E.
  - intros Ha Hr. subst reply. unfold query_ollama. rewrite Ha. simpl.
    unfold query_ollama_subprocess.
    destruct (run_ollama B model "Say 'OK' if you can read this.")
      as [[[code out] err]|msg]; [|reflexivity].
    specialize (Hr code out err eq_refl).
    destruct (Z.eqb_spec code 0); [contradiction|reflexivity].
Qed.

End ModelClientMore.

Section ModelClientMoreExamples.

Import OllamaUtils App Examples.

Lemma query_ollama_blank_api_reply_witness :
  @query_ollama Reference.runtime blank_backend "hi" OLLAMA_MODEL default_options
  = ([CallApi], Some "").
Proof.
  exact (@query_ollama_blank_api_reply Reference.runtime blank_backend "hi"
           OLLAMA_MODEL default_options " " "  " eq_refl eq_refl).
Defined.

Lemma query_ollama_missing_fields_witness :
  @query_ollama Reference.runtime empty_object_backend "hi" OLLAMA_MODEL default_options
  = ([CallApi; CallSubprocess], Some "from the command line").
Proof.
  exact (proj2 (@query_ollama_missing_fields Reference.runtime empty_object_backend
                  "hi" OLLAMA_MODEL default_options [("done", JBool true)]
                  eq_refl eq_refl eq_refl eq_refl)).
Defined.

Lemma test_ollama_connection_spec_witness :
  @test_ollama_connection Reference.runtime dead_backend OLLAMA_MODEL = false.
Proof.
  apply (proj2 (@test_ollama_connection_spec Reference.runtime dead_backend OLLAMA_MODEL)).
  - reflexivity.
  - intros code out err E. injection E as <- _ _. discriminate.
Defined.

End ModelClientMoreExamples.

(** ** More on [ask] *)

Section AskMore.

Import FaissUtils OllamaUtils App.

Context `{PyRuntime} (W : world).

Lemma structured_answer_shape raw structured start_idx r :
  structured_answer raw structured start_idx = Ok r -> is_answer r.
Proof.
  unfold structured_answer. destruct structured; try discriminate.
  intros E. injection E as <-. split; [reflexivity|]. simpl. eauto.
Qed.

Lemma fallback_answer_shape raw retrieved : is_answer (fallback_answer raw retrieved).
Proof. rewrite fallback_answer_sources. split; [reflexivity|]. simpl. eauto. Qed.

Lemma answer_reply_shape retrieved raw r :
  answer_reply retrieved raw = Ok r -> is_answer r \/ r = no_reply.
Proof.
  unfold answer_reply. destruct raw as [raw|]; [|intros E; injection E as <-; now right].
  destruct (negb (truthy raw) || negb (truthy (strip raw)));
    [intros E; injection E as <-; now right|].
  destruct (_extract_json_span raw) as [[structured start_idx] end_idx].
  destruct structured;
    try (intros E; left; eapply structured_answer_shape; exact E).
  intros E. injection E as <-. left. apply fallback_answer_shape.
Qed.

(** X11: The model client gave nothing -- [None], or a text that is empty or
    blank -- exactly when the reply is answered with status 502. *)
Theorem answer_reply_502_iff retrieved raw :
  (raw = None \/ exists text, raw = Some text /\ all_space text = true) <->
  answer_reply retrieved raw = Ok no_reply.
Proof.
  split.
  - intros [->|(text & -> & Hb)]; [reflexivity|].
    unfold answer_reply. rewrite strip_truthy, Hb. simpl.
    now rewrite orb_true_r.
  - unfold answer_reply. destruct raw as [raw|]; [|now left].
    intros E. right. exists raw. split; [reflexivity|].
    destruct (all_space raw) eqn:Hb; [reflexivity|exfalso].
    assert (Ht : truthy raw = true) by (destruct raw; [discriminate Hb|reflexivity]).
    rewrite strip_truthy, Hb, Ht in E. cbn [negb orb] in E.
    destruct (_extract_json_span raw) as [[structured start_idx] end_idx].
    destruct structured;
      try (apply structured_answer_shape in E; destruct E as [A _]; discriminate A).
    apply (f_equal (fun x => match x with Ok r => status r | Err _ => 0 end)) in E.
    discriminate E.
Qed.

Lemma ask_try_shape msg history chunks idx model r :
  ask_try W msg history chunks idx model = Ok r -> is_answer r \/ r = no_reply.
Proof.
  unfold ask_try.
  destruct (model [msg]) as [q_emb|e]; [|discriminate]. cbn [bind].
  destruct (search_index idx q_emb 6) as [raw_inds|]; [|discriminate].
  cbn [bind or_raise].
  destruct (retrieve chunks _) as [retrieved|]; [|discriminate].
  cbn [bind or_raise].
  destruct (_build_soft_prompt msg retrieved history (Z.of_nat 6)) as [prompt|e];
    [|discriminate].
  cbn [bind]. apply answer_reply_shape.
Qed.

(** X12: Whatever the request, the state and the world, [ask] answers with an
    answer of status 200 carrying the fields "answer", "structured",
    "sources" and "raw", or with status 400, 500 or 502 and a body whose
    only field is "error". *)
Theorem ask_response_shape st request_json :
  let r := ask W st request_json in
  is_answer r \/ is_error 400 r \/ is_error 500 r \/ is_error 502 r.
Proof.
  assert (E4 : forall msg, is_error 400 (error_response 400 msg))
    by (intros msg; split; [reflexivity|simpl; eauto]).
  assert (E5 : forall msg, is_error 500 (error_response 500 msg))
    by (intros msg; split; [reflexivity|simpl; eauto]).
  assert (E6 : is_error 502 no_reply) by (split; [reflexivity|simpl; eauto]).
  intros r. subst r. unfold ask.
  set (data := match request_json with Some v => py_or v (JObj []) | None => JObj [] end).
  destruct data as [ |b|z|l|s|items|d];
    try (right; right; left; apply E5).
  destruct (py_or (dict_get d "question" JNull) (JStr "")) as [ |b|z|l|question|items|fields];
    try (right; right; left; apply E5).
  destruct (negb (truthy (strip question))); [right; left; apply E4|].
  destruct (chunks st) as [[|c cs]|]; try (right; left; apply E4).
  destruct (faiss_index st) as [idx|]; [|right; left; apply E4].
  destruct (embedding_model st) as [model|]; [|right; left; apply E4].
  destruct (ask_try W (strip question) _ (c :: cs) idx model) as [r|e] eqn:Et;
    [|right; right; left; apply E5].
  apply ask_try_shape in Et. destruct Et as [A| ->]; [now left|].
  right. right. right. exact E6.
Qed.

(** X13: A request without question is turned down with status 400, in every
    state and whatever the world: no JSON body, a body that is false (an
    empty object, say), or an object whose "question" is missing, null or
    a blank string. *)
Theorem ask_empty_question st :
  ask W st None = error_response 400 "Empty question" /\
  (forall v, json_truthy v = false ->
     ask W st (Some v) = error_response 400 "Empty question") /\
  (forall d, dict_find d "question" = None ->
     ask W st (Some (JObj d)) = error_response 400 "Empty question") /\
  (forall d question,
     dict_get d "question" JNull = JNull \/
     (dict_get d "question" JNull = JStr question /\ all_space question = true) ->
     ask W st (Some (JObj d)) = error_response 400 "Empty question").
Proof.
  assert (G : forall d question,
     dict_get d "question" JNull = JNull \/
     (dict_get d "question" JNull = JStr question /\ all_space question = true) ->
     ask W st (Some (JObj d)) = error_response 400 "Empty question").
  { intros d question Hq. unfold ask.
    assert (Hd : exists d', py_or (JObj d) (JObj []) = JObj d' /\
                            (d' = d \/ d' = []))
      by (unfold py_or; destruct (json_truthy (JObj d)); eauto).
    destruct Hd as (d' & -> & Hd').
    assert (Hq' : exists q, py_or (dict_get d' "question" JNull) (JStr "") = JStr q /\
                            all_space q = true).
    { destruct Hd' as [->| ->]; [|exists ""; split; reflexivity].
      destruct Hq as [->|[-> Hb]]; [exists ""; split; reflexivity|].
      unfold py_or. simpl json_truthy.
      destruct question as [|a question]; [exists ""; split; reflexivity|].
      exists (String a question). split; [reflexivity|exact Hb]. }
    destruct Hq' as (q & -> & Hb). now rewrite strip_truthy, Hb. }
  split; [reflexivity|]. split; [|split; [|exact G]].
  - intros v Hv. unfold ask, py_or. rewrite Hv. reflexivity.
  - intros d Hd. apply (G d ""). left.
    induction d as [|[k v] d IH]; [reflexivity|]. simpl in *.
    destruct (String.eqb k "question"); [discriminate|now apply IH].
Qed.

(** X14: A body that is true but no object, or a question that is true but no
    string, is not handled by [ask]: the application answers 500 with the
    message of the [AttributeError]. *)
Theorem ask_malformed_body st :
  (forall v, json_truthy v = true -> (forall d, v <> JObj d) ->
     ask W st (Some v) = handle_exception (no_attribute v "get")) /\
  (forall d q, d <> [] ->
     dict_get d "question" JNull = q -> json_truthy q = true ->
     (forall s, q <> JStr s) ->
     ask W st (Some (JObj d)) = handle_exception (no_attribute q "strip")).
Proof.
  split.
  - intros v Hv Hd. unfold ask, py_or. rewrite Hv.
    destruct v; try reflexivity. now destruct (Hd fields).
  - intros d q Hd Hq Ht Hs. unfold ask.
    assert (E : py_or (JObj d) (JObj []) = JObj d)
      by (unfold py_or; simpl; destruct d; [contradiction|reflexivity]).
    rewrite E. unfold py_or at 1. rewrite Hq, Ht.
    destruct q; try reflexivity. now destruct (Hs s).
Qed.

(** X15: With a question but without a document -- no chunks, or no index, or
    no embedding model -- [ask] answers 400 "No PDF uploaded yet", whatever
    the model server would reply. *)
Theorem ask_without_document st d question :
  d <> [] ->
  dict_get d "question" JNull = JStr question ->
  all_space question = false ->
  chunks st = None \/ chunks st = Some [] \/ faiss_index st = None
    \/ embedding_model st = None ->
  ask W st (Some (JObj d)) = error_response 400 "No PDF uploaded yet".
Proof.
  intros Hd Hq Hb Hst. unfold ask.
  assert (E : py_or (JObj d) (JObj []) = JObj d)
    by (unfold py_or; simpl; destruct d; [contradiction|reflexivity]).
  rewrite E. unfold py_or at 1. rewrite Hq.
  assert (Ht : truthy question = true) by (destruct question; [discriminate Hb|reflexivity]).
  simpl json_truthy. rewrite Ht. rewrite strip_truthy, Hb. simpl.
  destruct Hst as [->|[->|[Hi|Hm]]]; try reflexivity.
  - destruct (chunks st) as [[|c cs]|]; try reflexivity. now rewrite Hi.
  - destruct (chunks st) as [[|c cs]|]; try reflexivity.
    destruct (faiss_index st); [|reflexivity]. now rewrite Hm.
Qed.

End AskMore.

(** ** More on the upload *)

Section UploadMore.

Import FaissUtils OllamaUtils App DocumentUtils.

Context `{PyRuntime} (W : world).

Lemma default_parameters : 0 <= default_overlap < default_chunk_size.
Proof. unfold default_overlap, default_chunk_size. lia. Qed.

Lemma pdf_to_chunks_default_cases doc :
  (exists msg, pdf_to_chunks doc default_chunk_size default_overlap = Raise msg) \/
  (exists c cs, pdf_to_chunks doc default_chunk_size default_overlap = Return (c :: cs)).
Proof.
  unfold pdf_to_chunks. destruct doc as [pages|msg]; [|eauto].
  destruct (filter (fun page_text => truthy (strip page_text)) pages)
    as [|x l] eqn:Ef; [eauto|].
  assert (Hx : all_space x = false).
  { assert (Hin : In x (filter (fun page_text => truthy (strip page_text)) pages))
      by (rewrite Ef; now left).
    apply filter_In in Hin. destruct Hin as [_ Hin].
    rewrite strip_truthy in Hin. now destruct (all_space x). }
  set (words := split (join " " (x :: l))).
  assert (Hne : words <> [])
    by (apply split_visible_nonempty, join_head_visible, Hx).
  rewrite chunk_words_windows by (apply default_parameters || apply split_words).
  rewrite (windows_from_step _ _ 0)
    by (unfold default_overlap, default_chunk_size;
        destruct words; [congruence|simpl; lia]).
  right. simpl. eauto.
Qed.

(** The two ways a request to [upload_pdf] with a file ends. *)
Lemma upload_pdf_file_cases st doc :
  exists st' r,
    upload_pdf W st (Some doc) = Some (st', r) /\
    ((is_error 500 r /\ faiss_index st' = faiss_index st /\
      (chunks st' = chunks st \/ exists c cs, chunks st' = Some (c :: cs))) \/
     (exists c cs embeds model,
        chunks st' = Some (c :: cs) /\
        faiss_index st' = Some (build_faiss_index embeds) /\
        embedding_model st' = Some model /\
        model (c :: cs) = Ok embeds /\
        r = json_response 200
              [("status", JStr "ok");
               ("chunk_count", JInt (Z.of_nat (List.length (c :: cs))))])).
Proof.
  assert (E5 : forall msg, is_error 500 (error_response 500 msg))
    by (intros msg; split; [reflexivity|simpl; eauto]).
  unfold upload_pdf.
  destruct (pdf_to_chunks_default_cases doc) as [[msg ->]|(c & cs & ->)].
  - eexists _, _. split; [reflexivity|]. left.
    split; [apply E5|]. split; [reflexivity|now left].
  - cbn [chunks faiss_index embedding_model].
    destruct (match embedding_model st with
              | Some m => Ok m | None => load_embedder W end) as [model|msg].
    + destruct (model (c :: cs)) as [embeds|msg] eqn:Em.
      * eexists _, _. split; [reflexivity|]. right.
        exists c, cs, embeds, model.
        repeat split; try reflexivity. exact Em.
      * eexists _, _. split; [reflexivity|]. left.
        split; [apply E5|]. split; [reflexivity|].
        right. simpl. eauto.
    + eexists _, _. split; [reflexivity|]. left.
      split; [apply E5|]. split; [reflexivity|].
      right. simpl. eauto.
Qed.

(** X16: Every upload request is answered, and in one of three ways.  Status
    400: there was no file and nothing changed.  Status 500 with an "error":
    the index is the one from before.  Status 200: the chunks are those of
    the new document, at least one, "chunk_count" is their number, the
    index holds one normalised vector per row of the embeddings, and the
    embedding model is loaded. *)
Theorem upload_pdf_responses st file :
  exists st' r,
    upload_pdf W st file = Some (st', r) /\
    ((file = None /\ st' = st /\ r = error_response 400 "No file uploaded") \/
     (file <> None /\ is_error 500 r /\ faiss_index st' = faiss_index st /\
      (chunks st' = chunks st \/ exists c cs, chunks st' = Some (c :: cs))) \/
     (file <> None /\ exists c cs embeds model,
        chunks st' = Some (c :: cs) /\
        faiss_index st' = Some (build_faiss_index embeds) /\
        embedding_model st' = Some model /\
        model (c :: cs) = Ok embeds /\
        r = json_response 200
              [("status", JStr "ok");
               ("chunk_count", JInt (Z.of_nat (List.length (c :: cs))))])).
Proof.
  destruct file as [doc|].
  - destruct (upload_pdf_file_cases st doc) as (st' & r & E & [Hfail|Hok]).
    + exists st', r. split; [exact E|]. right. left.
      split; [discriminate|exact Hfail].
    + exists st', r. split; [exact E|]. right. right.
      split; [discriminate|exact Hok].
  - exists st, (error_response 400 "No file uploaded").
    split; [reflexivity|]. left. auto.
Qed.

(** X17: What holds of the globals after any sequence of requests: the chunk
    list, once set, is never empty; and when there is an index there are
    chunks and a loaded embedding model. *)
Theorem reachable_state_invariant st :
  reachable W st ->
  (chunks st = None \/ exists c cs, chunks st = Some (c :: cs)) /\
  (faiss_index st <> None ->
   (exists c cs, chunks st = Some (c :: cs)) /\ embedding_model st <> None).
Proof.
  induction 1 as [|st file st' r Hr [IHc IHi] Hu].
  - split; [now left|]. intros Hi. now destruct Hi.
  - destruct file as [doc|];
      [|injection Hu as <- _; split; assumption].
    destruct (upload_pdf_file_cases st doc) as (st'' & r' & E & Hcases).
    rewrite E in Hu. injection Hu as <- <-.
    destruct Hcases as [(_ & Hi & Hc)|(c & cs & embeds & model & Hc & Hi & Hm & _)].
    + assert (Hc' : chunks st'' = None \/ exists c cs, chunks st'' = Some (c :: cs)).
      { destruct Hc as [->|Hc]; [exact IHc|now right]. }
      split; [exact Hc'|]. rewrite Hi. intros Hidx.
      destruct (IHi Hidx) as [(c0 & cs0 & Hc0) Hm0].
      split.
      * destruct Hc' as [Hn|Hs]; [|exact Hs].
        destruct Hc as [Hsame|(c & cs & Hs)]; congruence.
      * unfold upload_pdf in E.
        destruct (pdf_to_chunks doc default_chunk_size default_overlap);
          try (injection E as <- _; exact Hm0); try discriminate.
        cbn [chunks faiss_index embedding_model] in E.
        destruct (embedding_model st) as [m|]; [|now destruct Hm0].
        destruct (m a); injection E as <- _; discriminate.
    + split; [right; eauto|]. intros _. split; [eauto|congruence].
Qed.

Lemma ask_reaches_try st d question c cs idx model :
  d <> [] ->
  dict_get d "question" JNull = JStr question ->
  all_space question = false ->
  chunks st = Some (c :: cs) ->
  faiss_index st = Some idx ->
  embedding_model st = Some model ->
  ask W st (Some (JObj d)) =
  match ask_try W (strip question)
          (py_or (dict_get d "history" (JArr [])) (JArr [])) (c :: cs) idx model with
  | Ok r => r
  | Err e => error_response 500 e
  end.
Proof.
  intros Hd Hq Hb Hc Hi Hm. unfold ask.
  assert (E' : py_or (JObj d) (JObj []) = JObj d)
    by (unfold py_or; simpl; destruct d; [contradiction|reflexivity]).
  rewrite E'. unfold py_or at 1. rewrite Hq.
  assert (Ht : truthy question = true) by (destruct question; [discriminate Hb|reflexivity]).
  simpl json_truthy. rewrite Ht. rewrite strip_truthy, Hb. cbn [negb].
  now rewrite Hc, Hi, Hm.
Qed.

(** X18: After an upload answered with status 200, a request with a question
    is no longer turned down: [ask] answers it, or reports the failure of a
    later step, but never with status 400. *)
Theorem ask_after_upload st file st' r d question :
  upload_pdf W st file = Some (st', r) ->
  status r = 200 ->
  d <> [] ->
  dict_get d "question" JNull = JStr question ->
  all_space question = false ->
  let a := ask W st' (Some (JObj d)) in
  is_answer a \/ is_error 500 a \/ is_error 502 a.
Proof.
  intros Hu Hs Hd Hq Hb a.
  destruct file as [doc|]; [|injection Hu as _ <-; discriminate Hs].
  destruct (upload_pdf_file_cases st doc) as (st'' & r' & E & Hcases).
  rewrite E in Hu. injection Hu as <- <-.
  destruct Hcases as [([Hs5 _] & _)|(c & cs & embeds & model & Hc & Hi & Hm & _)];
    [congruence|].
  subst a. rewrite (ask_reaches_try _ _ _ _ _ _ _ Hd Hq Hb Hc Hi Hm).
  destruct (ask_try W (strip question) _ (c :: cs) (build_faiss_index embeds) model)
    as [r|e] eqn:Et.
  - apply ask_try_shape in Et. destruct Et as [A| ->]; [now left|].
    right. right. split; [reflexivity|simpl; eauto].
  - right. left. split; [reflexivity|simpl; eauto].
Qed.

End UploadMore.

(** ** More on the response parser *)

Section ResponseParserMore.

Import OllamaUtils App.

Lemma span_prefix_all p s :
  all_chars p (substr s 0 (Z.of_nat (fst (span p s)))) = true.
Proof.
  unfold substr. rewrite all_chars_of_list, slice_nonneg by lia.
  rewrite Z.sub_0_r, Nat2Z.id. simpl skipn.
  induction s as [|c s IH]; simpl; [reflexivity|].
  destruct (p c) eqn:Ec; [|reflexivity].
  destruct (span p s) as [n r]. simpl in *. now rewrite Ec.
Qed.

Lemma last_inline_char s pos k c :
  last_inline s pos = Some (k, c) -> is_newline c = false.
Proof.
  revert pos. induction s as [|x s IH]; intros pos; simpl; [discriminate|].
  destruct (last_inline s (S pos)) as [[k' c']|] eqn:E.
  - intros G. injection G as <- <-. eapply IH. exact E.
  - destruct (is_newline x) eqn:Ex; [discriminate|].
    intros G. injection G as <- <-. exact Ex.
Qed.

Lemma source_tail_inline s off g :
  source_tail s = Some (off, g) ->
  all_chars (fun c => negb (is_newline c)) g = true.
Proof.
  unfold source_tail. destruct (span is_space s) as [w r].
  destruct r as [|c r'].
  - destruct (last_inline s 0) as [[k c]|] eqn:E; [|discriminate].
    intros G. injection G as <- <-. simpl.
    apply last_inline_char in E. now rewrite E.
  - pose proof (span_prefix_all (fun c => negb (is_newline c)) (String c r')) as Hp.
    destruct (span (fun c0 => negb (is_newline c0)) (String c r')) as [n rest].
    intros G. injection G as <- <-. exact Hp.
Qed.

Lemma source_at_inline s g n :
  source_at s = Some (g, n) ->
  all_chars (fun c => negb (is_newline c)) g = true.
Proof.
  unfold source_at. destruct (prefix_ci "source" s); [|discriminate].
  destruct (span is_space (drop 6 s)) as [w1 s2].
  destruct (span is_digit s2) as [d s3].
  destruct (d =? 0)%nat; [discriminate|].
  destruct (span is_space s3) as [w2 s4].
  destruct s4 as [|c s5]; [discriminate|].
  destruct (Ascii.eqb c ":" || Ascii.eqb c "-"); [|discriminate].
  destruct (source_tail s5) as [[off g']|] eqn:E; [|discriminate].
  intros G. injection G as <- <-. eapply source_tail_inline. exact E.
Qed.

Lemma source_matches_inline s skip :
  Forall (fun g => all_chars (fun c => negb (is_newline c)) g = true)
         (source_matches s skip).
Proof.
  revert skip. induction s as [|c s IH]; intros skip; [constructor|].
  cbn [source_matches]. destruct skip as [|k]; [|apply IH].
  destruct (source_at (String c s)) as [[g n]|] eqn:E; [|apply IH].
  constructor; [eapply source_at_inline; exact E|apply IH].
Qed.

Lemma length_lstrip t : (String.length (lstrip t) <= String.length t)%nat.
Proof.
  induction t as [|x t IH]; simpl; [lia|]. destruct (is_space x); simpl; lia.
Qed.

(** A prefix of a text that does not start with white space does not
    either. *)
Lemma lstrip_prefix s n :
  0 <= n -> lstrip s = s -> lstrip (substr s 0 n) = substr s 0 n.
Proof.
  intros Hn Hs. unfold substr. rewrite slice_nonneg by lia.
  rewrite Z.sub_0_r. simpl skipn.
  destruct s as [|c r]; [now rewrite firstn_nil|].
  simpl in Hs. destruct (is_space c) eqn:Ec.
  - exfalso. apply (f_equal String.length) in Hs. simpl in Hs.
    pose proof (length_lstrip r). lia.
  - destruct (Z.to_nat n) as [|k]; [reflexivity|]. simpl. now rewrite Ec.
Qed.

(** X19: The snippets of [_extract_sources_from_text] are short and stay on
    one line: each has at most 120 characters, none is a line break, and
    none starts with white space. *)
Theorem extracted_sources_are_snippets text :
  Forall (fun snippet =>
            len snippet <= 120 /\
            all_chars (fun c => negb (is_newline c)) snippet = true /\
            lstrip snippet = snippet)
         (_extract_sources_from_text text).
Proof.
  unfold _extract_sources_from_text. rewrite Forall_map.
  eapply Forall_impl; [|apply source_matches_inline].
  intros g Hg. cbv beta. split; [|split].
  - rewrite substr_prefix_length by lia. lia.
  - now apply all_chars_substr, all_chars_strip.
  - apply lstrip_prefix; [lia|]. apply strip_ends.
Qed.

Lemma prefix_char x c s :
  String.prefix (String x EmptyString) (String c s) = Ascii.eqb x c.
Proof.
  cbn [String.prefix]. destruct (ascii_dec x c) as [->|Hn].
  - rewrite Ascii.eqb_refl. destruct s; reflexivity.
  - symmetry. now apply Ascii.eqb_neq.
Qed.

Lemma find_brace_none s pos :
  0 <= pos -> find_from "{" s pos = -1 ->
  all_chars (fun c => negb (Ascii.eqb c "{")) s = true.
Proof.
  revert pos. induction s as [|c s IH]; intros pos Hp; [reflexivity|].
  cbn [find_from]. rewrite prefix_char, Ascii.eqb_sym.
  cbn [all_chars]. destruct (Ascii.eqb c "{"); [lia|].
  intros E. simpl. apply (IH (pos + 1)); [lia|exact E].
Qed.

Lemma all_chars_drop p n s : all_chars p s = true -> all_chars p (drop n s) = true.
Proof.
  revert s. induction n as [|n IH]; intros [|c s]; simpl; auto.
  intros Hp. apply andb_prop in Hp. now apply IH.
Qed.

Lemma all_chars_span_rest p q s :
  all_chars p s = true -> all_chars p (snd (span q s)) = true.
Proof.
  induction s as [|c s IH]; simpl; [auto|].
  intros Hp. destruct (q c).
  - apply andb_prop in Hp. destruct Hp as [_ Hp].
    specialize (IH Hp). now destruct (span q s).
  - exact Hp.
Qed.

Lemma fence_needs_brace s :
  all_chars (fun c => negb (Ascii.eqb c "{")) s = true -> fence_at s = None.
Proof.
  intros Hs. unfold fence_at. destruct (prefix_ci "```json" s); [|reflexivity].
  pose proof (all_chars_span_rest _ is_space _ (all_chars_drop _ 7 _ Hs)) as Hr.
  destruct (span is_space (drop 7 s)) as [w r]. simpl in Hr.
  destruct r as [|c inner]; [reflexivity|].
  simpl in Hr. apply andb_prop in Hr. destruct Hr as [Hc _].
  destruct c as [[] [] [] [] [] [] [] []]; try reflexivity. discriminate Hc.
Qed.

Lemma search_fence_needs_brace s pos :
  all_chars (fun c => negb (Ascii.eqb c "{")) s = true -> search_fence s pos = None.
Proof.
  revert pos. induction s as [|c s IH]; intros pos Hs.
  - reflexivity.
  - cbn [search_fence]. rewrite (fence_needs_brace _ Hs).
    simpl in Hs. apply andb_prop in Hs. now apply IH.
Qed.

Context `{PyRuntime}.

(** X20: A reply without an opening brace and without a pair of markers yields
    no JSON, whatever the decoder: the parser returns [None] with span
    [(-1, -1)].  So does the empty reply. *)
Theorem plain_reply_has_no_json text :
  contains "{" text = false ->
  contains start_marker text && contains end_marker text = false ->
  _extract_json_span text = (JNull, -1, -1).
Proof.
  intros Hb Hm. unfold _extract_json_span. rewrite Hm.
  destruct (truthy text); [|reflexivity]. cbn [negb].
  unfold contains in Hb. apply Z.leb_gt in Hb.
  assert (Hf : find text "{" = -1).
  { destruct (find_from_bounds "{" text 0) as [E|[E _]]; [exact E|].
    unfold find in Hb. lia. }
  unfold fenced_span.
  rewrite search_fence_needs_brace by (eapply find_brace_none; [|exact Hf]; lia).
  unfold brace_span. now rewrite Hf.
Qed.

End ResponseParserMore.

Section ResponseParserMoreExamples.

Import OllamaUtils App Examples.

Lemma plain_reply_has_no_json_witness :
  @_extract_json_span Reference.runtime "It is a test file. Source 1: first document"
  = (JNull, -1, -1).
Proof.
  exact (@plain_reply_has_no_json Reference.runtime
           "It is a test file. Source 1: first document" eq_refl eq_refl).
Defined.

End ResponseParserMoreExamples.

(** ** More on the indices *)

Section IndicesMore.

Import App.

(** What [_normalize_and_extract_indices] makes of its argument: nothing
    of [None] and of an empty sequence; the integer of a scalar; the
    elements of an array; and of a tuple or list whose first element is a
    non-empty array or an integer, the integers of that first element alone
    -- the ids of [(ids, distances)], but also only [3] of [[3, 1, 2]]. *)
Theorem normalize_indices_cases :
  _normalize_and_extract_indices ONone = [] /\
  _normalize_and_extract_indices (OSeq []) = [] /\
  (forall z, _normalize_and_extract_indices (OInt z) = [z]) /\
  (forall a, _normalize_and_extract_indices (OArray a) = a) /\
  (forall i ids rest,
     _normalize_and_extract_indices (OSeq (OArray (i :: ids) :: rest)) = i :: ids) /\
  (forall z rest, _normalize_and_extract_indices (OSeq (OInt z :: rest)) = [z]) /\
  (forall rest, _normalize_and_extract_indices (OSeq (ONone :: rest)) = []).
Proof.
  repeat split; reflexivity.
Qed.

End IndicesMore.

(** ** The debug endpoint for chunks *)

Section DebugChunks.

Import FaissUtils OllamaUtils App.

Lemma map_enumerate_shift {A B} (f : nat -> A -> B) (l : list A) n start :
  map (fun p => f (fst p) (snd p)) (combine (seq (S start) n) l)
  = map (fun p => f (S (fst p)) (snd p)) (combine (seq start n) l).
Proof.
  revert start l. induction n as [|n IH]; intros start l; [reflexivity|].
  destruct l as [|x l]; [reflexivity|]. simpl. f_equal. apply IH.
Qed.

Lemma map_enumerate_cons {A B} (f : nat -> A -> B) x l :
  map_enumerate f (x :: l) = f O x :: map_enumerate (fun i => f (S i)) l.
Proof.
  unfold map_enumerate. simpl. f_equal. apply map_enumerate_shift.
Qed.

Lemma length_map_enumerate {A B} (f : nat -> A -> B) l :
  List.length (map_enumerate f l) = List.length l.
Proof.
  unfold map_enumerate. rewrite length_map, length_combine, length_seq. lia.
Qed.

Lemma nth_error_map_enumerate {A B} (f : nat -> A -> B) l i :
  nth_error (map_enumerate f l) i = option_map (f i) (nth_error l i).
Proof.
  revert f i. induction l as [|x l IH]; intros f i.
  - now destruct i.
  - rewrite map_enumerate_cons. destruct i as [|i]; [reflexivity|].
    simpl. apply (IH (fun i => f (S i))).
Qed.

Lemma length_append a b :
  String.length (String.append a b) = (String.length a + String.length b)%nat.
Proof. induction a as [|c a IH]; simpl; congruence. Qed.

Context `{PyRuntime} (W : world).

(** X21: [debug_chunks] always answers with status 200, also when it reports
    that no PDF was uploaded.  With chunks it gives their number and a
    preview of the first ten, in order: entry [i] carries the index [i], the
    full length of chunk [i], and as content the chunk itself when it has at
    most 300 characters, otherwise its first 300 characters followed by
    "...". *)
Theorem debug_chunks_preview st :
  status (debug_chunks st) = 200 /\
  match chunks st with
  | None | Some [] => body (debug_chunks st) = JObj [("error", JStr "No PDF uploaded")]
  | Some l =>
      exists preview,
        body (debug_chunks st)
          = JObj [("total_chunks", JInt (Z.of_nat (List.length l)));
                  ("chunks_preview", JArr preview)] /\
        List.length preview = Nat.min 10 (List.length l) /\
        forall (i : nat) chunk,
          (i < 10)%nat -> nth_error l i = Some chunk ->
          exists content,
            nth_error preview i
              = Some (JObj [("index", JInt (Z.of_nat i));
                            ("content", JStr content);
                            ("length", JInt (len chunk))]) /\
            len content <= 303 /\
            (len chunk <= 300 -> content = chunk) /\
            (300 < len chunk ->
             content = String.append (substr chunk 0 300) "...")
  end.
Proof.
  unfold debug_chunks. destruct (chunks st) as [[|c l]|]; try (split; reflexivity).
  split; [reflexivity|]. eexists. split; [reflexivity|].
  assert (Es : slice (c :: l) 0 10 = firstn 10 (c :: l))
    by (rewrite slice_nonneg by lia; reflexivity).
  rewrite Es. split.
  - rewrite length_map_enumerate, length_firstn. reflexivity.
  - intros i chunk Hi Hc. rewrite nth_error_map_enumerate, nth_error_firstn.
    destruct (Nat.ltb_spec i 10); [|lia]. rewrite Hc. simpl option_map.
    unfold chunk_preview. eexists. split; [reflexivity|].
    destruct (Z.gtb_spec (len chunk) 300) as [Hlong|Hshort].
    + split; [|split; [lia|intros _; unfold cat; simpl; reflexivity]].
      unfold cat. simpl String.concat. unfold len at 1.
      rewrite length_append. fold (len (substr chunk 0 300)).
      rewrite Nat2Z.inj_add. fold (len (substr chunk 0 300)).
      rewrite substr_prefix_length by lia. simpl. lia.
    + split; [lia|]. split; [reflexivity|lia].
Qed.

End DebugChunks.

(** ** The prompt of [ask] *)

Section SoftPrompt.

Import App.

(** [l[-k:]] for a positive [k]: the last [k] elements. *)
Lemma slice_last {A} (l : list A) k :
  0 < k ->
  slice l (- k) (Z.of_nat (List.length l))
  = skipn (List.length l - Z.to_nat k) l.
Proof.
  intros Hk. unfold slice, slice_bound.
  set (n := Z.of_nat (List.length l)).
  destruct (Z.ltb_spec (- k) 0); [|lia].
  destruct (Z.ltb_spec n 0); [lia|].
  rewrite Z.min_id.
  replace (Z.to_nat (Z.max 0 (- k + n))) with (List.length l - Z.to_nat k)%nat
    by (subst n; lia).
  apply firstn_all2. rewrite length_skipn. subst n. lia.
Qed.

(** [l[0:]] and [l[-0:]]: the whole list. *)
Lemma slice_all {A} (l : list A) :
  slice l 0 (Z.of_nat (List.length l)) = l.
Proof.
  rewrite slice_nonneg by lia. simpl skipn.
  apply firstn_all2. lia.
Qed.

Lemma slice_last_idem {A} (l : list A) k :
  0 < k ->
  let recent := slice l (- k) (Z.of_nat (List.length l)) in
  slice recent (- k) (Z.of_nat (List.length recent)) = recent.
Proof.
  intros Hk recent. rewrite slice_last by exact Hk.
  subst recent. rewrite slice_last by exact Hk.
  rewrite length_skipn.
  replace (List.length l - (List.length l - Z.to_nat k) - Z.to_nat k)%nat
    with O by lia.
  reflexivity.
Qed.

Lemma slice_prefix_idem {A} (l : list A) m :
  0 <= m -> slice (slice l 0 m) 0 m = slice l 0 m.
Proof.
  intros Hm. rewrite !slice_nonneg by lia. simpl skipn.
  rewrite firstn_firstn. f_equal. lia.
Qed.

Lemma slice_last_nil {A} (l : list A) k :
  0 < k -> slice l (- k) (Z.of_nat (List.length l)) = [] -> l = [].
Proof.
  intros Hk. rewrite slice_last by exact Hk. intros E.
  destruct l as [|x l]; [reflexivity|].
  apply (f_equal (@List.length A)) in E. rewrite length_skipn in E.
  cbn [List.length] in E. lia.
Qed.

Context `{PyRuntime}.

Lemma history_lines_ok turns :
  (exists lines, history_lines turns = Ok lines) <-> Forall showable turns.
Proof.
  induction turns as [|turn rest IH]; cbn [history_lines].
  - split; [constructor|eauto].
  - split.
    + intros [lines E].
      destruct turn as [| | | | |items|d]; try discriminate E.
      cbn [history_line] in E.
      destruct (dict_get d "role" (JStr "user")) as [| | | |r| |] eqn:Er;
        try discriminate E.
      cbn [bind] in E.
      destruct (history_lines rest) as [ls|msg]; [|discriminate E].
      constructor; [exists d, r; auto|]. apply IH. eauto.
    + intros HF. inversion HF as [|? ? (d & r & -> & Er) Hrest]; subst.
      apply IH in Hrest as [ls Els]. cbn [history_line]. rewrite Er.
      cbn [bind]. rewrite Els. cbn [bind]. eauto.
Qed.

(** X22: Only the first [max_chunks] retrieved chunks and the last eight turns
    of the history reach the prompt: the call gives the same prompt, or
    raises the same exception, when the others are left out.  Above all a
    malformed turn before the last eight is never looked at. *)
Theorem soft_prompt_recent_input question retrieved history max_chunks :
  0 <= max_chunks ->
  _build_soft_prompt question retrieved (JArr history) max_chunks
  = _build_soft_prompt question (slice retrieved 0 max_chunks)
      (JArr (slice history (-8) (Z.of_nat (List.length history)))) max_chunks.
Proof.
  intros Hm. unfold _build_soft_prompt.
  rewrite slice_prefix_idem by exact Hm.
  assert (E : history_block (JArr history)
              = history_block
                  (JArr (slice history (-8) (Z.of_nat (List.length history))))).
  { unfold history_block.
    pose proof (slice_last_idem history 8 ltac:(lia)) as Hidem.
    cbv zeta in Hidem. change (- (8)) with (-8) in Hidem. rewrite Hidem.
    destruct history as [|turn rest]; [reflexivity|].
    destruct (slice (turn :: rest) (-8) (Z.of_nat (List.length (turn :: rest))))
      as [|turn' rest'] eqn:Es; [|reflexivity].
    apply (slice_last_nil (turn :: rest) 8) in Es; [discriminate|lia]. }
  now rewrite E.
Qed.

(** X23: With a history that is a list, [_build_soft_prompt] returns a prompt
    exactly when each of the last eight turns is a [dict] whose role, if
    present, is a [str]; otherwise it raises. *)
Theorem soft_prompt_succeeds_iff question retrieved history max_chunks :
  (exists prompt,
     _build_soft_prompt question retrieved (JArr history) max_chunks = Ok prompt)
  <-> Forall (fun turn => exists d r, turn = JObj d /\
                          dict_get d "role" (JStr "user") = JStr r)
        (slice history (-8) (Z.of_nat (List.length history))).
Proof.
  fold showable. rewrite <- history_lines_ok.
  unfold _build_soft_prompt, history_block.
  destruct history as [|turn rest].
  - cbn. split; eauto.
  - cbn [json_truthy negb].
    destruct (history_lines
                (slice (turn :: rest) (-8) (Z.of_nat (List.length (turn :: rest)))))
      as [ls|msg]; cbn [bind].
    + split; eauto.
    + split; intros [x E]; discriminate E.
Qed.

End SoftPrompt.

(** ** Chat messages *)

Section ChatMessages.

Import App PromptHelpers.

Context `{PyRuntime}.

Lemma history_messages_copied turns :
  forall messages,
    history_messages turns = Ok messages -> Forall2 copied turns messages.
Proof.
  induction turns as [|turn rest IH]; cbn [history_messages]; intros ms E.
  - injection E as <-. constructor.
  - unfold history_message in E.
    destruct (dict_find turn "role") as [r|] eqn:Er; [|discriminate E].
    destruct (dict_find turn "content") as [c|] eqn:Ec; [|discriminate E].
    cbn [or_raise bind] in E.
    destruct (history_messages rest) as [ms'|] eqn:Em; [|discriminate E].
    cbn [bind] in E. injection E as <-.
    constructor; [exists r, c; auto|]. now apply IH.
Qed.

Lemma history_messages_ok turns :
  (exists messages, history_messages turns = Ok messages)
  <-> Forall (fun turn => dict_find turn "role" <> None /\
                          dict_find turn "content" <> None) turns.
Proof.
  induction turns as [|turn rest IH]; cbn [history_messages].
  - split; [constructor|eauto].
  - unfold history_message. split.
    + intros [ms E].
      destruct (dict_find turn "role") as [r|] eqn:Er; [|discriminate E].
      destruct (dict_find turn "content") as [c|] eqn:Ec; [|discriminate E].
      cbn [or_raise bind] in E.
      destruct (history_messages rest) as [ms'|] eqn:Em; [|discriminate E].
      constructor; [split; congruence|]. apply IH. eauto.
    + intros HF. inversion HF as [|? ? [Hr Hc] Hrest]; subst.
      apply IH in Hrest as [ms Ems].
      destruct (dict_find turn "role") as [r|]; [|congruence].
      destruct (dict_find turn "content") as [c|]; [|congruence].
      cbn [or_raise bind]. rewrite Ems. cbn [bind]. eauto.
Qed.

Lemma context_lines_ok limited :
  forall i,
    (exists lines, context_lines i limited = Ok lines)
    <-> Forall (fun c => exists t, dict_get c "text" (JStr "") = JStr t) limited.
Proof.
  induction limited as [|c rest IH]; intros i; cbn [context_lines].
  - split; [constructor|eauto].
  - unfold context_line. split.
    + intros [ls E].
      destruct (dict_get c "text" (JStr "")) as [| | | |t| |] eqn:Et;
        try discriminate E.
      cbn [bind] in E.
      destruct (context_lines (S i) rest) as [ls'|] eqn:El; [|discriminate E].
      constructor; [eauto|]. apply (IH (S i)). eauto.
    + intros HF. inversion HF as [|? ? [t Et] Hrest]; subst.
      apply (IH (S i)) in Hrest as [ls Els]. rewrite Et.
      cbn [bind]. rewrite Els. cbn [bind]. eauto.
Qed.

(** The turns of the history that [build_chat_messages] keeps, for a
    limit that is not negative: the last [max_history_turns], but the whole
    history when the limit is 0. *)
Lemma kept_turns (history : list dict) max_history_turns :
  0 <= max_history_turns ->
  slice history (- max_history_turns) (Z.of_nat (List.length history))
  = if max_history_turns =? 0 then history
    else skipn (List.length history - Z.to_nat max_history_turns) history.
Proof.
  intros Hm. destruct (Z.eqb_spec max_history_turns 0) as [->|Hne].
  - apply slice_all.
  - apply slice_last. lia.
Qed.

(** X24: What [build_chat_messages] returns is the system message, one more
    system message about the documents, the turns of the history it keeps,
    and the user's query last.  It keeps the last [max_history_turns] turns,
    of which each is copied with its role and content only; with a limit of
    0 it keeps the whole history, not none of it. *)
Theorem build_chat_messages_shape user_query retrieved_chunks
        conversation_history max_history_turns max_chunks messages :
  0 <= max_history_turns ->
  build_chat_messages user_query retrieved_chunks conversation_history
                      max_history_turns max_chunks = Ok messages ->
  exists context kept,
    messages = system_message :: context :: kept
               ++ [[("role", JStr "user"); ("content", JStr user_query)]] /\
    dict_find context "role" = Some (JStr "system") /\
    List.length kept
    = (if max_history_turns =? 0 then List.length conversation_history
       else Nat.min (Z.to_nat max_history_turns)
                    (List.length conversation_history)) /\
    Forall2 (fun turn message =>
               exists role content,
                 dict_find turn "role" = Some role /\
                 dict_find turn "content" = Some content /\
                 message = [("role", role); ("content", content)])
            (skipn (List.length conversation_history - List.length kept)
                   conversation_history)
            kept.
Proof.
  intros Hm E. unfold build_chat_messages in E.
  rewrite kept_turns in E by exact Hm.
  set (turns := if max_history_turns =? 0 then conversation_history
                else skipn (List.length conversation_history
                            - Z.to_nat max_history_turns) conversation_history) in E.
  assert (Ectx : exists context,
             dict_find context "role" = Some (JStr "system") /\
             exists kept, history_messages turns = Ok kept /\
             messages = system_message :: context :: kept
               ++ [[("role", JStr "user"); ("content", JStr user_query)]]).
  { destruct retrieved_chunks as [|c cs].
    - cbn [bind] in E.
      destruct (history_messages turns) as [kept|]; [|discriminate E].
      cbn [bind] in E. injection E as <-.
      exists no_documents_message. split; [reflexivity|]. eauto.
    - destruct (context_lines 0 (slice (c :: cs) 0 max_chunks)) as [ls|];
        [|discriminate E].
      cbn [bind] in E.
      destruct (history_messages turns) as [kept|]; [|discriminate E].
      cbn [bind] in E. injection E as <-.
      eexists. split; [|eexists; split; [reflexivity|reflexivity]].
      reflexivity. }
  destruct Ectx as (context & Hrole & kept & Ekept & ->).
  exists context, kept. split; [reflexivity|]. split; [exact Hrole|].
  apply history_messages_copied in Ekept. fold copied.
  pose proof (Forall2_length Ekept) as Elen.
  assert (Hlen : List.length kept
                 = if max_history_turns =? 0 then List.length conversation_history
                   else Nat.min (Z.to_nat max_history_turns)
                                (List.length conversation_history)).
  { rewrite <- Elen. subst turns.
    destruct (max_history_turns =? 0); [reflexivity|].
    rewrite length_skipn. lia. }
  split; [exact Hlen|].
  assert (Et : skipn (List.length conversation_history - List.length kept)
                     conversation_history = turns).
  { rewrite Hlen. subst turns.
    destruct (max_history_turns =? 0).
    - now rewrite Nat.sub_diag.
    - f_equal. lia. }
  change (Forall2 copied
            (skipn (List.length conversation_history - List.length kept)
                   conversation_history) kept).
  rewrite Et. exact Ekept.
Qed.

(** X25: [build_chat_messages] returns exactly when the "text" of each chunk it
    keeps is a [str] (or absent) and each turn it keeps has the keys "role"
    and "content"; otherwise it raises. *)
Theorem build_chat_messages_succeeds_iff user_query retrieved_chunks
        conversation_history max_history_turns max_chunks :
  (exists messages,
     build_chat_messages user_query retrieved_chunks conversation_history
                         max_history_turns max_chunks = Ok messages)
  <-> Forall (fun c => exists t, dict_get c "text" (JStr "") = JStr t)
             (slice retrieved_chunks 0 max_chunks) /\
      Forall (fun turn => dict_find turn "role" <> None /\
                          dict_find turn "content" <> None)
             (slice conversation_history (- max_history_turns)
                    (Z.of_nat (List.length conversation_history))).
Proof.
  rewrite <- history_messages_ok, <- (context_lines_ok _ O).
  unfold build_chat_messages.
  set (turns := slice conversation_history (- max_history_turns)
                      (Z.of_nat (List.length conversation_history))).
  destruct retrieved_chunks as [|c cs].
  - cbn [bind]. replace (slice [] 0 max_chunks) with (@nil dict)
      by (unfold slice; now rewrite skipn_nil, firstn_nil).
    cbn [context_lines].
    destruct (history_messages turns) as [kept|msg]; cbn [bind].
    + split; eauto.
    + split; [intros [x E]; discriminate E|intros [_ [x E]]; discriminate E].
  - destruct (context_lines 0 (slice (c :: cs) 0 max_chunks)) as [ls|msg];
      cbn [bind].
    + destruct (history_messages turns) as [kept|msg]; cbn [bind].
      * split; eauto.
      * split; [intros [x E]; discriminate E|intros [_ [x E]]; discriminate E].
    + split; [intros [x E]; discriminate E|intros [[x E] _]; discriminate E].
Qed.

End ChatMessages.

(** ** The startup script *)

Section Startup.

Import StartupScript.

Variable H : host.

(** The packages found missing are those whose import fails, in the order
    of the list, when no import raises another exception. *)
Lemma missing_packages_filter packages :
  (forall p msg, In p packages -> import_package H p <> ImportRaises msg) ->
  missing_packages H packages
  = Ok (filter (fun p => match import_package H p with
                         | ImportFails => true
                         | _ => false
                         end) packages).
Proof.
  induction packages as [|p rest IH]; intros Hno; [reflexivity|].
  cbn [missing_packages filter].
  assert (Hrest : forall q msg, In q rest -> import_package H q <> ImportRaises msg)
    by (intros q msg Hq; apply Hno; now right).
  rewrite (IH Hrest).
  destruct (import_package H p) as [| |msg] eqn:Ep; try reflexivity.
  exfalso. apply (Hno p msg); [now left|exact Ep].
Qed.

Lemma missing_packages_none packages :
  missing_packages H packages = Ok []
  <-> forall p, In p packages -> import_package H p = Imported.
Proof.
  induction packages as [|p rest IH]; cbn [missing_packages].
  - split; [intros _ q []|reflexivity].
  - destruct (import_package H p) as [| |msg] eqn:Ep.
    + rewrite IH. split.
      * intros Hall q [<-|Hq]; [exact Ep|now apply Hall].
      * intros Hall q Hq. apply Hall. now right.
    + split.
      * destruct (missing_packages H rest); discriminate.
      * intros Hall. specialize (Hall p (or_introl eq_refl)). congruence.
    + split; [discriminate|].
      intros Hall. specialize (Hall p (or_introl eq_refl)). congruence.
Qed.

Lemma check_dependencies_true :
  check_dependencies H = Returns true
  <-> forall p, In p required_packages -> import_package H p = Imported.
Proof.
  rewrite <- missing_packages_none. unfold check_dependencies.
  destruct (missing_packages H required_packages) as [[|p l]|msg];
    split; try discriminate; reflexivity.
Qed.

Lemma check_dependencies_cases :
  check_dependencies H = Returns true \/
  check_dependencies H = Returns false \/
  exists msg, check_dependencies H = Fails msg.
Proof.
  unfold check_dependencies.
  destruct (missing_packages H required_packages) as [[|p l]|msg]; eauto.
Qed.

(** X26: When a required package is missing (its import fails with
    [ImportError], and no import raises anything else), the script exits
    with code 1 before it runs any command: no [ollama] call, no directory
    or file made, no server started. *)
Theorem main_stops_without_dependencies :
  (forall p msg, In p required_packages -> import_package H p <> ImportRaises msg) ->
  (exists p, In p required_packages /\ import_package H p = ImportFails) ->
  main H = ([], Exits 1).
Proof.
  intros Hno (p & Hp & Ep). unfold main, check_dependencies.
  rewrite (missing_packages_filter _ Hno).
  destruct (filter _ required_packages) as [|q l] eqn:Ef; [|reflexivity].
  exfalso.
  assert (Hin : In p (filter (fun p => match import_package H p with
                                       | ImportFails => true
                                       | _ => false
                                       end) required_packages))
    by (apply filter_In; split; [exact Hp|now rewrite Ep]).
  rewrite Ef in Hin. destruct Hin.
Qed.

Lemma check_ollama_trace :
  ~ In RunApp (fst (check_ollama H)) /\
  forall c, ~ In (WriteIndexHtml c) (fst (check_ollama H)).
Proof.
  unfold check_ollama.
  destruct (ollama_list H) as [rc out| | |msg];
    [destruct (rc =? 0); [destruct (contains "llama3" out);
                          [|destruct (ollama_pull H)]|]| | |];
    cbn [fst In]; (split; [intros HIn|intros c HIn]);
    repeat (destruct HIn as [HIn|HIn]; try discriminate HIn); exact HIn.
Qed.

Lemma check_ollama_true :
  snd (check_ollama H) = Returns true
  <-> exists models,
        ollama_list H = Exited 0 models /\
        (contains "llama3" models = true \/
         exists returncode output, ollama_pull H = Exited returncode output).
Proof.
  unfold check_ollama.
  destruct (ollama_list H) as [rc out| | |msg];
    try (split; [discriminate|intros (models & E & _); discriminate E]).
  destruct (Z.eqb_spec rc 0) as [->|Hrc].
  - destruct (contains "llama3" out) eqn:Ec.
    + split; [eauto|reflexivity].
    + destruct (ollama_pull H) as [rc2 out2| | |msg] eqn:Ep.
      * split; [eauto 6|reflexivity].
      * split; [discriminate|].
        intros (models & E & [Hc|(r & o & Hp)]); [|discriminate Hp].
        injection E as <-. congruence.
      * split; [discriminate|].
        intros (models & E & [Hc|(r & o & Hp)]); [|discriminate Hp].
        injection E as <-. congruence.
      * split; [discriminate|].
        intros (models & E & [Hc|(r & o & Hp)]); [|discriminate Hp].
        injection E as <-. congruence.
  - split; [discriminate|]. intros (models & E & _). injection E as E _.
    contradiction.
Qed.

Lemma setup_directories_trace :
  ~ In RunApp (fst (setup_directories H)).
Proof.
  unfold setup_directories.
  destruct (mkdir_templates H); [destruct (negb (index_exists H));
                                 [destruct (write_index H)|]|];
    cbn [fst In]; intros HIn;
    repeat (destruct HIn as [HIn|HIn]; try discriminate HIn); exact HIn.
Qed.

Lemma setup_directories_returns :
  (exists u, snd (setup_directories H) = Returns u)
  <-> (exists u, mkdir_templates H = Ok u) /\
      (index_exists H = true \/ exists u, write_index H = Ok u).
Proof.
  unfold setup_directories.
  destruct (mkdir_templates H) as [u0|msg].
  - destruct (index_exists H); cbn [negb snd].
    + split; [intros _; split; eauto|intros _; eauto].
    + destruct (write_index H) as [u1|msg]; cbn [snd].
      * split; [intros _; split; eauto|intros _; eauto].
      * split; [intros [u E]; discriminate E|].
        intros [_ [E|[u E]]]; discriminate E.
  - split; [intros [u E]; discriminate E|intros [[u E] _]; discriminate E].
Qed.

(** X27: The script starts the server ([app.py]) exactly when every required
    package imports, [ollama list] exits with 0 and its output names
    "llama3" or else the pull ran to an end (whatever its exit code), the
    directory [templates] could be made, and [index.html] was there or could
    be written. *)
Theorem main_starts_server_iff :
  In RunApp (fst (main H)) <->
  (forall p, In p required_packages -> import_package H p = Imported) /\
  (exists models,
     ollama_list H = Exited 0 models /\
     (contains "llama3" models = true \/
      exists returncode output, ollama_pull H = Exited returncode output)) /\
  (exists u, mkdir_templates H = Ok u) /\
  (index_exists H = true \/ exists u, write_index H = Ok u).
Proof.
  rewrite <- check_dependencies_true, <- check_ollama_true,
    <- setup_directories_returns.
  pose proof (proj1 check_ollama_trace) as Ht1.
  pose proof setup_directories_trace as Ht2.
  unfold main.
  destruct check_dependencies_cases as [Ed|[Ed|[msg Ed]]]; rewrite Ed;
    try (split; [intros []|intros [Ha _]; discriminate Ha]).
  destruct (check_ollama H) as [t1 [[|]|code|msg]]; cbn [fst snd] in *;
    try (split; [intros HIn; now destruct Ht1
                |intros (_ & Ho & _); discriminate Ho]).
  destruct (setup_directories H) as [t2 [u|code|msg]]; cbn [fst snd] in *.
  - split; [eauto|intros _].
    destruct (run_app H); cbn [fst]; rewrite !in_app_iff; cbn [In]; auto.
  - cbn [fst]. rewrite in_app_iff. split.
    + intros [HIn|HIn]; [now destruct Ht1|now destruct Ht2].
    + intros (_ & _ & u & E). discriminate E.
  - cbn [fst]. rewrite in_app_iff. split.
    + intros [HIn|HIn]; [now destruct Ht1|now destruct Ht2].
    + intros (_ & _ & u & E). discriminate E.
Qed.

(** X28: The script writes [templates/index.html] only when there is none, and
    then with the page above, after it has made the directory. *)
Theorem main_writes_index_only_when_missing c :
  In (WriteIndexHtml c) (fst (main H)) ->
  c = html_content /\ index_exists H = false /\
  exists before after,
    fst (main H) = (before ++ [MakeTemplatesDir; WriteIndexHtml c] ++ after)%list.
Proof.
  pose proof (proj2 check_ollama_trace c) as Ht1.
  unfold main.
  destruct (check_dependencies H) as [[|]|code|msg]; try (intros []).
  destruct (check_ollama H) as [t1 [[|]|code|msg]]; cbn [fst snd] in *;
    try (intros HIn; now destruct Ht1).
  unfold setup_directories.
  assert (Hc : forall x, In (WriteIndexHtml c) [MakeTemplatesDir; WriteIndexHtml x]
                         -> c = x).
  { intros x [E|[E|[]]]; [discriminate E|injection E as <-; reflexivity]. }
  assert (Hn : ~ In (WriteIndexHtml c) [MakeTemplatesDir])
    by (intros [E|[]]; discriminate E).
  assert (Hr : ~ In (WriteIndexHtml c) [RunApp])
    by (intros [E|[]]; discriminate E).
  destruct (mkdir_templates H) as [u0|msg].
  - destruct (index_exists H); cbn [negb].
    + destruct (run_app H); cbn [fst]; rewrite !in_app_iff; tauto.
    + destruct (write_index H) as [u1|msg].
      * destruct (run_app H); cbn [fst]; rewrite !in_app_iff;
          (intros [HIn|[HIn|HIn]]; [tauto| |tauto]);
          apply Hc in HIn; subst c;
          (split; [reflexivity|split; [reflexivity|]]);
          exists t1, [RunApp]; reflexivity.
      * cbn [fst]. rewrite !in_app_iff. intros [HIn|HIn]; [tauto|].
        apply Hc in HIn. subst c.
        split; [reflexivity|split; [reflexivity|]].
        exists t1, []. now rewrite app_nil_r.
  - cbn [fst]. rewrite in_app_iff. tauto.
Qed.

(** X29: The script pulls the model exactly when every dependency is there,
    [ollama list] exits with 0 and its output does not name "llama3". *)
Theorem main_pulls_model_iff :
  In RunOllamaPull (fst (main H)) <->
  (forall p, In p required_packages -> import_package H p = Imported) /\
  exists models,
    ollama_list H = Exited 0 models /\ contains "llama3" models = false.
Proof.
  rewrite <- check_dependencies_true.
  assert (Hs : ~ In RunOllamaPull (fst (setup_directories H))).
  { unfold setup_directories.
    destruct (mkdir_templates H); [destruct (negb (index_exists H));
                                   [destruct (write_index H)|]|];
      cbn [fst In]; intros HIn;
      repeat (destruct HIn as [HIn|HIn]; try discriminate HIn); exact HIn. }
  assert (Ho : In RunOllamaPull (fst (check_ollama H)) <->
               exists models,
                 ollama_list H = Exited 0 models /\ contains "llama3" models = false).
  { unfold check_ollama.
    destruct (ollama_list H) as [rc out| | |msg];
      try (cbn [fst In]; split;
           [intros [E|[]]; discriminate E|intros (m & E & _); discriminate E]).
    destruct (Z.eqb_spec rc 0) as [->|Hrc].
    - destruct (contains "llama3" out) eqn:Ec.
      + cbn [fst In]. split; [intros [E|[]]; discriminate E|].
        intros (m & E & Hc). injection E as <-. congruence.
      + destruct (ollama_pull H); cbn [fst In]; split; eauto.
    - cbn [fst In]. split; [intros [E|[]]; discriminate E|].
      intros (m & E & _). injection E as E _. contradiction. }
  rewrite <- Ho. unfold main.
  destruct check_dependencies_cases as [Ed|[Ed|[msg Ed]]]; rewrite Ed;
    try (split; [intros []|intros [Ha _]; discriminate Ha]).
  destruct (check_ollama H) as [t1 [[|]|code|msg]]; cbn [fst snd] in *;
    try tauto.
  destruct (setup_directories H) as [t2 [u|code|msg]]; cbn [fst snd] in *.
  - assert (Hr : ~ In RunOllamaPull [RunApp]) by (intros [E|[]]; discriminate E).
    destruct (run_app H); cbn [fst]; rewrite !in_app_iff; tauto.
  - cbn [fst]. rewrite in_app_iff. tauto.
  - cbn [fst]. rewrite in_app_iff. tauto.
Qed.

End Startup.

(** ** The properties above at concrete inputs *)

Section MoreExamples.

Import FaissUtils OllamaUtils App PromptHelpers StartupScript Examples.

Lemma ask_without_document_witness :
  @ask Reference.runtime plain_world initial_state (Some (JObj what_question))
  = error_response 400 "No PDF uploaded yet".
Proof.
  apply (@ask_without_document Reference.runtime plain_world initial_state
           what_question " What is this? ").
  - discriminate.
  - reflexivity.
  - reflexivity.
  - left. reflexivity.
Defined.

Lemma reachable_state_invariant_witness :
  (chunks one_document = None \/
   exists c cs, chunks one_document = Some (c :: cs)) /\
  (faiss_index one_document <> None ->
   (exists c cs, chunks one_document = Some (c :: cs)) /\
   embedding_model one_document <> None).
Proof.
  apply (@reachable_state_invariant Reference.runtime plain_world one_document).
  apply (@reachable_upload Reference.runtime plain_world initial_state
           (Some (Ok ["first document"])) one_document
           (json_response 200 [("status", JStr "ok"); ("chunk_count", JInt 1)])).
  - apply reachable_initial.
  - reflexivity.
Defined.

Lemma ask_after_upload_witness :
  is_answer (@ask Reference.runtime plain_world one_document
               (Some (JObj what_question))) \/
  is_error 500 (@ask Reference.runtime plain_world one_document
                  (Some (JObj what_question))) \/
  is_error 502 (@ask Reference.runtime plain_world one_document
                  (Some (JObj what_question))).
Proof.
  apply (@ask_after_upload Reference.runtime plain_world initial_state
           (Some (Ok ["first document"])) one_document
           (json_response 200 [("status", JStr "ok"); ("chunk_count", JInt 1)])
           what_question " What is this? ").
  - reflexivity.
  - reflexivity.
  - discriminate.
  - reflexivity.
  - reflexivity.
Defined.

Lemma soft_prompt_recent_input_witness :
  @_build_soft_prompt Reference.runtime "Why?" ["a"; "b"; "c"] (JArr long_history) 2
  = @_build_soft_prompt Reference.runtime "Why?" (slice ["a"; "b"; "c"] 0 2)
      (JArr (slice long_history (-8) (Z.of_nat (List.length long_history)))) 2.
Proof.
  apply (@soft_prompt_recent_input Reference.runtime "Why?" ["a"; "b"; "c"]
           long_history 2).
  lia.
Defined.

Lemma build_chat_messages_shape_witness :
  exists context kept,
    [ system_message; no_documents_message;
      [("role", JStr "assistant"); ("content", JStr "Hello")];
      [("role", JStr "user"); ("content", JStr "Why?")] ]
    = system_message :: context :: kept
      ++ [[("role", JStr "user"); ("content", JStr "Why?")]] /\
    dict_find context "role" = Some (JStr "system") /\
    List.length kept
    = (if 1 =? 0 then List.length two_turns
       else Nat.min (Z.to_nat 1) (List.length two_turns)) /\
    Forall2 (fun turn message =>
               exists role content,
                 dict_find turn "role" = Some role /\
                 dict_find turn "content" = Some content /\
                 message = [("role", role); ("content", content)])
            (skipn (List.length two_turns - List.length kept) two_turns)
            kept.
Proof.
  apply (@build_chat_messages_shape Reference.runtime "Why?" [] two_turns 1 6).
  - lia.
  - reflexivity.
Defined.

Lemma main_stops_without_dependencies_witness :
  main bare_host = ([], Exits 1).
Proof.
  apply (main_stops_without_dependencies bare_host).
  - intros p msg _. unfold bare_host. cbn [import_package].
    destruct (String.eqb p "faiss"); discriminate.
  - exists "faiss". split; [|reflexivity].
    right. right. left. reflexivity.
Defined.

Lemma main_writes_index_only_when_missing_witness :
  html_content = html_content /\ index_exists fresh_host = false /\
  exists before after,
    fst (main fresh_host)
    = before ++ [MakeTemplatesDir; WriteIndexHtml html_content] ++ after.
Proof.
  apply (main_writes_index_only_when_missing fresh_host html_content).
  change (In (WriteIndexHtml html_content)
             [RunOllamaList; RunOllamaPull; MakeTemplatesDir;
              WriteIndexHtml html_content; RunApp]).
  right. right. right. left. reflexivity.
Defined.

End MoreExamples.
